(** * RLLib control algorithms (ControlAlgorithm.h)

    A shallow embedding of the control learners of RLLib: SarsaControl,
    ExpectedSarsaControl, GreedyGQ, GQOnPolicyControl, the actor family
    (Actor, ActorLambda, ActorNatural, ActorLambdaOffPolicy) and the
    actor-critic compositions (ActorCritic, AverageRewardActorCritic,
    OffPAC).

    - C++ [double] is IEEE binary64, taken from the Standard Library's
      executable specification [SpecFloat] (precision 53, emax 1024).
    - Objects mutated in place become records threaded through the calls.
    - A failed [assert], a failed boundedness check and an access outside a
      container abort the call: operations that can abort return a [result].
    - The collaborators declared in other headers (vectors, traces,
      policies, predictors) are interfaces: type classes whose instances a
      client supplies.  A dense instance of each is given at the end of the
      definitions, and the examples run on it. *)

From Stdlib Require Import ZArith Floats.SpecFloat.
From stdpp Require Import base list strings gmap.

Set Implicit Arguments.

(** ** C++ [double] *)

Module Double.

Definition prec : Z := 53.
Definition emax : Z := 1024.

Definition double : Type := spec_float.

Definition zero : double := S754_zero false.
Definition one : double := SFone prec emax.
Definition nan : double := S754_nan.
Definition infinity : double := S754_infinity false.

Definition add : double -> double -> double := SFadd prec emax.
Definition sub : double -> double -> double := SFsub prec emax.
Definition mul : double -> double -> double := SFmul prec emax.
Definition div : double -> double -> double := SFdiv prec emax.
Definition opp : double -> double := SFopp.

(** [x == y] and [x < y] of C++: false as soon as one side is NaN, and
    [+0 == -0]. *)
Definition eqb : double -> double -> bool := SFeqb.
Definition ltb : double -> double -> bool := SFltb.

Definition isnan (x : double) : bool :=
  match x with S754_nan => true | _ => false end.

Definition isinf (x : double) : bool :=
  match x with S754_infinity _ => true | _ => false end.

(** The double of a small integer literal, e.g. [of_Z 2] for [2.0]. *)
Definition of_Z (n : Z) : double := binary_normalize prec emax n 0 false.

End Double.

Abbreviation double := Double.double.

(** ** Aborting calls *)

Inductive Failure : Type :=
| AssertionFailed   (* assert(...) does not hold *)
| Unbounded         (* Boundedness::checkValue rejects the value *)
| OutOfRange        (* at(i) or [i] outside the container *)
| FileNotFound.     (* resurrect of a name nobody persisted *)

Inductive result (A : Type) : Type :=
| Ok (a : A)
| Abort (f : Failure).

Arguments Ok {A} a.
Arguments Abort {A} f.

Definition bind {A B : Type} (c : result A) (k : A -> result B) : result B :=
  match c with
  | Ok a => k a
  | Abort f => Abort f
  end.

Definition assert (b : bool) : result unit :=
  if b then Ok tt else Abort AssertionFailed.

Notation "x <- c1 ;; c2" := (bind c1 (fun x => c2))
  (at level 100, c1 at next level, right associativity).

(** [for (unsigned int i = 0; i < n; i++) body]: the loop state [s] is what
    the body mutates; an abort in the body leaves the loop. *)
Fixpoint for_loop_from {St : Type} (i n : nat)
    (body : nat -> St -> result St) (s : St) : result St :=
  match n with
  | O => Ok s
  | S n' => s' <- body i s ;; for_loop_from (S i) n' body s'
  end.

Definition for_loop {St : Type} (n : nat)
    (body : nat -> St -> result St) (s : St) : result St :=
  for_loop_from 0 n body s.

(** [c->at(i)] and [c[i]] on a container of blocks. *)
Definition at_ {A : Type} (c : list A) (i : nat) : result A :=
  match c !! i with
  | Some x => Ok x
  | None => Abort OutOfRange
  end.

(** A loop that rewrites a container block by block, seen after [k] rounds:
    the blocks below [k] hold their new content [new], the others still the
    old one [old]. *)
Definition done_upto {A : Type} (k : nat) (new old : list A) : list A :=
  take k new ++ drop k old.

(** ** Collaborator interfaces

    The headers that declare them (Vector.h, Action.h, Trace.h, Policy.h,
    PredictorAlgorithm.h, StateToStateAction.h, Math.h) are not among the
    sources: the learners see them through the calls below. *)

Module Vector.

(** Modelled from the spec: Vector<T> and SparseVector<T>, "vector type
    supporting scaled add, dot product, clear, persist/restore".  The
    receiver is the last argument and the result is its new content;
    [clear] leaves zeros, [set] copies the entries of its argument. *)
Class Vector (V : Type) : Type := {
  SVector : nat -> V;                      (* new SVector<T>(dimension) *)
  dimension : V -> nat;
  getEntry : V -> nat -> double;
  clear : V -> V;
  set : V -> V -> V;                       (* self->set(that) *)
  addToSelf : double -> V -> V -> V;       (* self->addToSelf(factor, that) *)
  addVectorToSelf : V -> V -> V;           (* self->addToSelf(that) *)
  mapMultiplyToSelf : double -> V -> V;    (* self->mapMultiplyToSelf(factor) *)
  dot : V -> V -> double;                  (* self->dot(that), self first *)
  clear_entries : forall v i, getEntry (clear v) i = Double.zero;
  set_entries : forall that self i, getEntry (set that self) i = getEntry that i;
}.

End Vector.

(** Modelled from the spec: Action, an element of the "finite discrete
    action set", identified by its [id()]. *)
Record Action : Type := { id : nat }.

Definition ActionList : Type := list Action.

(** Representations<T>: for one state, the feature vector of each action
    ([phi->at(a)]). *)
Definition Representations (V : Type) : Type := Action -> V.

(** SparseVectors<T>: the parameter blocks of a policy, [at(i)] and [[i]]
    by position. *)
Module SparseVectors.

Definition dimension {V : Type} (vs : list V) : nat := length vs.

(** Modelled from the spec: SparseVectors<T>::clear(), "clears all learned
    parameters": every block is cleared, none is removed. *)
Definition clear {V : Type} `{Vector.Vector V} (vs : list V) : list V :=
  Vector.clear <$> vs.

End SparseVectors.

Module Trace.

(** Modelled from the spec: Trace<T>, the eligibility trace of one
    parameter block.  It holds a vector; [update] "decays by [gamma *
    lambda], then gets the gradient-of-log added", [multiplyToSelf] scales
    it in place, [clear] zeroes it. *)
Class Trace (V E : Type) `{Vector.Vector V} : Type := {
  vect : E -> V;
  update : double -> V -> E -> E;          (* e->update(lambda, phi) *)
  multiplyToSelf : double -> E -> E;       (* e->multiplyToSelf(factor) *)
  clear : E -> E;
  vect_update : forall l phi e,
    vect (update l phi e)
    = Vector.addVectorToSelf phi (Vector.mapMultiplyToSelf l (vect e));
  vect_multiplyToSelf : forall f e,
    vect (multiplyToSelf f e) = Vector.mapMultiplyToSelf f (vect e);
  vect_clear : forall e, vect (clear e) = Vector.clear (vect e);
}.

Arguments Trace V E {_}.

End Trace.

(** Traces<T>: one trace per parameter block. *)
Module Traces.

Definition dimension {E : Type} (e : list E) : nat := length e.

(** Modelled from the spec: Traces<T>::clear(), traces are "cleared at
    initialize/reset": every trace is cleared, none is removed. *)
Definition clear {V E : Type} `{Trace.Trace V E} (e : list E) : list E :=
  Trace.clear <$> e.

End Traces.

Module Policy.

(** Policy<T>.  [update] refreshes the probability cache from the
    representations of a state; sampling draws from the policy's own random
    source, so it returns the policy as well. *)
Class Policy (V P : Type) : Type := {
  update : Representations V -> P -> P;
  pi : P -> Action -> double;
  sampleAction : P -> Action * P;
  sampleBestAction : P -> Action * P;
}.

End Policy.

Module PolicyDistribution.

(** PolicyDistribution<T>: a policy with parameter blocks.  [parameters]
    hands out the blocks themselves, which the actors mutate in place:
    [set_parameters] is that write through the shared pointer. *)
Class PolicyDistribution (V P : Type) `{Policy.Policy V P} : Type := {
  computeGradLog : Representations V -> Action -> P -> list V;
  parameters : P -> list V;
  set_parameters : list V -> P -> P;
  parameters_set : forall u p, parameters (set_parameters u p) = u;
}.

Arguments PolicyDistribution V P {_}.

End PolicyDistribution.

Module Policies.

(** Modelled from the spec: the static helper Policies::sampleAction,
    which refreshes the policy at the representations and then samples. *)
Definition sampleAction {V P : Type} `{Policy.Policy V P}
    (policy : P) (phi : Representations V) : Action * P :=
  Policy.sampleAction (Policy.update phi policy).

(** Modelled from the spec: the static helper Policies::sampleBestAction,
    which "refreshes the policy's internal probability cache from features,
    then samples the distribution's best action". *)
Definition sampleBestAction {V P : Type} `{Policy.Policy V P}
    (policy : P) (phi : Representations V) : Action * P :=
  Policy.sampleBestAction (Policy.update phi policy).

End Policies.

(** StateToStateAction<T, O> and Projector<T, O>. *)
Module StateToStateAction.

Record t (V O : Type) : Type := {
  stateActions : O -> Representations V;
  dimension : nat;
  getActionList : ActionList;
}.

End StateToStateAction.

Module Projector.

Record t (V O : Type) : Type := {
  project : O -> V;
  dimension : nat;
}.

End Projector.

(** What persist writes and resurrect reads: named collections of
    vectors. *)
Module Files.

(** Modelled from the spec: persisting is to "serialize a named collection
    of vectors"; "the whole named parameter set is replaced". *)
Definition write {V : Type} (f : string) (vs : list V)
    (fs : gmap string (list V)) : gmap string (list V) :=
  <[f := vs]> fs.

(** Modelled from the spec: resurrecting is to "restore a named collection
    of vectors"; a name that was never written aborts the call. *)
Definition read {V : Type} (f : string)
    (fs : gmap string (list V)) : result (list V) :=
  match fs !! f with
  | Some vs => Ok vs
  | None => Abort FileNotFound
  end.

End Files.

Module Predictor.

(** What the predictors of PredictorAlgorithm.h share. *)
Class Predictor (V S : Type) : Type := {
  initialize : S -> S;
  reset : S -> S;
  predict : S -> V -> double;
  weights : S -> list V;
  set_weights : list V -> S -> S;
}.

(** Modelled from the spec: persist(f) of a predictor serializes its
    weight vectors under the name [f]. *)
Definition persist {V S : Type} `{Predictor V S} (f : string) (s : S)
    (fs : gmap string (list V)) : gmap string (list V) :=
  Files.write f (weights s) fs.

(** Modelled from the spec: resurrect(f) of a predictor restores its
    weight vectors from the name [f]. *)
Definition resurrect {V S : Type} `{Predictor V S} (f : string)
    (fs : gmap string (list V)) (s : S) : result S :=
  vs <- Files.read f fs ;; Ok (set_weights vs s).

End Predictor.

Module Sarsa.

(** Sarsa<T>::update(x_t, x_tp1, r_tp1) returns the TD error. *)
Class Sarsa (V S : Type) `{Predictor.Predictor V S} : Type := {
  update : V -> V -> double -> S -> double * S;
}.

Arguments Sarsa V S {_}.

End Sarsa.

Module OnPolicyTD.

(** OnPolicyTD<T>::update(phi_t, phi_tp1, r_tp1) returns the TD error. *)
Class OnPolicyTD (V S : Type) `{Predictor.Predictor V S} : Type := {
  update : V -> V -> double -> S -> double * S;
}.

Arguments OnPolicyTD V S {_}.

End OnPolicyTD.

Module GQ.

(** GQ<T>::update(phi_t, phi_bar_tp1, rho_t, r_tp1, z_tp1). *)
Class GQ (V S : Type) `{Predictor.Predictor V S} : Type := {
  update : V -> V -> double -> double -> double -> S -> double * S;
}.

Arguments GQ V S {_}.

End GQ.

Module GTDLambda.

(** GTDLambda<T>::update(phi_t, phi_tp1, rho_t, gamma_t, r_tp1, z_tp1). *)
Class GTDLambda (V S : Type) `{Predictor.Predictor V S} : Type := {
  update : V -> V -> double -> double -> double -> double -> S -> double * S;
}.

Arguments GTDLambda V S {_}.

End GTDLambda.

Module Boundedness.

(** Modelled from the spec: the test of Boundedness::checkValue, the one
    check OffPAC::step applies to [rho_t] and to [delta_t] alike.  The TD
    error "must be finite (checked)" and may be of either sign, so the test
    is finiteness: it fails on a value "becoming non-finite", NaN or an
    infinity, and on nothing else.  The test takes the value alone, with no
    word of which quantity it is, so it cannot refuse a negative ratio while
    it lets a negative TD error through; no property below rests on the
    sign of a checked value. *)
Definition bounded (value : double) : bool :=
  negb (Double.isnan value) && negb (Double.isinf value).

(** Modelled from the spec: Boundedness::checkValue; "on violation, the
    step must fail". *)
Definition checkValue (value : double) : result unit :=
  if bounded value then Ok tt else Abort Unbounded.

End Boundedness.

(** ** The learners *)

(** *** SarsaControl *)

Module SarsaControl.
Section SarsaControl.
Context {V P S O : Type} `{Vector.Vector V} `{!Policy.Policy V P}
  `{!Predictor.Predictor V S} `{!Sarsa.Sarsa V S}.

Record t : Type := {
  acting : P;
  toStateAction : StateToStateAction.t V O;
  sarsa : S;
  xa_t : V;
}.

Definition new (acting : P) (toStateAction : StateToStateAction.t V O)
    (sarsa : S) : t :=
  {| acting := acting; toStateAction := toStateAction; sarsa := sarsa;
     xa_t := Vector.SVector (StateToStateAction.dimension toStateAction) |}.

Definition initialize (x : O) (this : t) : Action * t :=
  let sarsa := Predictor.initialize (sarsa this) in
  let phi_t := StateToStateAction.stateActions (toStateAction this) x in
  let '(a_t, acting) := Policies.sampleAction (acting this) phi_t in
  (a_t, {| acting := acting; toStateAction := toStateAction this;
           sarsa := sarsa; xa_t := Vector.set (phi_t a_t) (xa_t this) |}).

Definition step (x_t : O) (a_t : Action) (x_tp1 : O) (r_tp1 z_tp1 : double)
    (this : t) : Action * t :=
  let phi_tp1 := StateToStateAction.stateActions (toStateAction this) x_tp1 in
  let '(a_tp1, acting) := Policies.sampleAction (acting this) phi_tp1 in
  let xa_tp1 := phi_tp1 a_tp1 in
  let '(_, sarsa) := Sarsa.update (xa_t this) xa_tp1 r_tp1 (sarsa this) in
  (a_tp1, {| acting := acting; toStateAction := toStateAction this;
             sarsa := sarsa; xa_t := Vector.set xa_tp1 (xa_t this) |}).

Definition reset (this : t) : t :=
  {| acting := acting this; toStateAction := toStateAction this;
     sarsa := Predictor.reset (sarsa this); xa_t := xa_t this |}.

Definition persist (f : string) (this : t)
    (fs : gmap string (list V)) : gmap string (list V) :=
  Predictor.persist f (sarsa this) fs.

Definition resurrect (f : string) (fs : gmap string (list V))
    (this : t) : result t :=
  sarsa <- Predictor.resurrect f fs (sarsa this) ;;
  Ok {| acting := acting this; toStateAction := toStateAction this;
        sarsa := sarsa; xa_t := xa_t this |}.

End SarsaControl.
Arguments t V P S O : clear implicits.
End SarsaControl.

(** *** ExpectedSarsaControl *)

Module ExpectedSarsaControl.
Section ExpectedSarsaControl.
Context {V P S O : Type} `{Vector.Vector V} `{!Policy.Policy V P}
  `{!Predictor.Predictor V S} `{!Sarsa.Sarsa V S}.

Record t : Type := {
  super : SarsaControl.t V P S O;
  phi_bar_tp1 : V;
  actions : ActionList;
}.

Definition new (acting : P) (toStateAction : StateToStateAction.t V O)
    (sarsa : S) (actions : ActionList) : t :=
  {| super := SarsaControl.new acting toStateAction sarsa;
     phi_bar_tp1 := Vector.SVector (StateToStateAction.dimension toStateAction);
     actions := actions |}.

(** The loop over the action list of [step]; [phi_bar_tp1] is what it
    mutates. *)
Fixpoint expectation (acting : P) (phi_tp1 : Representations V)
    (a_tp1 : Action) (actions : ActionList) (phi_bar_tp1 : V) : result V :=
  match actions with
  | [] => Ok phi_bar_tp1
  | a :: rest =>
      let pi := Policy.pi acting a in
      if Double.eqb pi Double.zero then
        _ <- assert (negb (Nat.eqb (id a) (id a_tp1))) ;;
        expectation acting phi_tp1 a_tp1 rest phi_bar_tp1
      else
        expectation acting phi_tp1 a_tp1 rest
          (Vector.addToSelf pi (phi_tp1 a) phi_bar_tp1)
  end.

Definition step (x_t : O) (a_t : Action) (x_tp1 : O) (r_tp1 z_tp1 : double)
    (this : t) : result (Action * t) :=
  let base := super this in
  let phi_bar_tp1 := Vector.clear (phi_bar_tp1 this) in
  let phi_tp1 :=
    StateToStateAction.stateActions (SarsaControl.toStateAction base) x_tp1 in
  let '(a_tp1, acting) :=
    Policies.sampleAction (SarsaControl.acting base) phi_tp1 in
  phi_bar_tp1 <- expectation acting phi_tp1 a_tp1 (actions this) phi_bar_tp1 ;;
  let xa_tp1 := phi_tp1 a_tp1 in
  let '(_, sarsa) :=
    Sarsa.update (SarsaControl.xa_t base) phi_bar_tp1 r_tp1
      (SarsaControl.sarsa base) in
  Ok (a_tp1,
      {| super :=
           {| SarsaControl.acting := acting;
              SarsaControl.toStateAction := SarsaControl.toStateAction base;
              SarsaControl.sarsa := sarsa;
              SarsaControl.xa_t := Vector.set xa_tp1 (SarsaControl.xa_t base) |};
         phi_bar_tp1 := phi_bar_tp1;
         actions := actions this |}).

(** initialize, persist and resurrect are inherited from SarsaControl. *)
Definition initialize (x : O) (this : t) : Action * t :=
  let '(a_t, base) := SarsaControl.initialize x (super this) in
  (a_t, {| super := base; phi_bar_tp1 := phi_bar_tp1 this;
           actions := actions this |}).

Definition persist (f : string) (this : t)
    (fs : gmap string (list V)) : gmap string (list V) :=
  SarsaControl.persist f (super this) fs.

Definition resurrect (f : string) (fs : gmap string (list V))
    (this : t) : result t :=
  base <- SarsaControl.resurrect f fs (super this) ;;
  Ok {| super := base; phi_bar_tp1 := phi_bar_tp1 this;
        actions := actions this |}.

End ExpectedSarsaControl.
Arguments t V P S O : clear implicits.
End ExpectedSarsaControl.

(** *** GreedyGQ *)

Module GreedyGQ.
Section GreedyGQ.
Context {V P S O : Type} `{Vector.Vector V} `{!Policy.Policy V P}
  `{!Predictor.Predictor V S} `{!GQ.GQ V S}.

(** The learner holds two pointers, [target] and [behavior].  They point
    to two policy objects, or (GQOnPolicyControl) to one and the same. *)
Inductive PolicyPair : Type :=
| Distinct (target behavior : P)
| Same (acting : P).

Definition get_target (ps : PolicyPair) : P :=
  match ps with Distinct t _ => t | Same p => p end.

Definition get_behavior (ps : PolicyPair) : P :=
  match ps with Distinct _ b => b | Same p => p end.

Definition put_target (p : P) (ps : PolicyPair) : PolicyPair :=
  match ps with Distinct _ b => Distinct p b | Same _ => Same p end.

Definition put_behavior (p : P) (ps : PolicyPair) : PolicyPair :=
  match ps with Distinct t _ => Distinct t p | Same _ => Same p end.

Record t : Type := {
  rho_t : double;
  policies : PolicyPair;
  actions : ActionList;
  toStateAction : StateToStateAction.t V O;
  gq : S;
  phi_t : V;
  phi_bar_tp1 : V;
}.

Definition target (this : t) : P := get_target (policies this).
Definition behavior (this : t) : P := get_behavior (policies this).

Definition new (policies : PolicyPair) (actions : ActionList)
    (toStateAction : StateToStateAction.t V O) (gq : S) : t :=
  {| rho_t := Double.zero; policies := policies; actions := actions;
     toStateAction := toStateAction; gq := gq;
     phi_t := Vector.SVector (StateToStateAction.dimension toStateAction);
     phi_bar_tp1 := Vector.SVector (StateToStateAction.dimension toStateAction) |}.

Definition initialize (x : O) (this : t) : Action * t :=
  let gq := Predictor.initialize (gq this) in
  let phi := StateToStateAction.stateActions (toStateAction this) x in
  let ps := put_target (Policy.update phi (target this)) (policies this) in
  let '(a_t, b) := Policies.sampleAction (get_behavior ps) phi in
  (a_t, {| rho_t := rho_t this; policies := put_behavior b ps;
           actions := actions this; toStateAction := toStateAction this;
           gq := gq; phi_t := Vector.set (phi a_t) (phi_t this);
           phi_bar_tp1 := phi_bar_tp1 this |}).

(** virtual double computeRho(const Action* a_t) *)
Definition computeRho (this : t) (a_t : Action) : double :=
  Double.div (Policy.pi (target this) a_t) (Policy.pi (behavior this) a_t).

(** The loop over the action list of [step]. *)
Fixpoint expectation (target : P) (xas_tp1 : Representations V)
    (actions : ActionList) (phi_bar_tp1 : V) : V :=
  match actions with
  | [] => phi_bar_tp1
  | a :: rest =>
      let pi := Policy.pi target a in
      if Double.eqb pi Double.zero then
        expectation target xas_tp1 rest phi_bar_tp1
      else
        expectation target xas_tp1 rest
          (Vector.addToSelf pi (xas_tp1 a) phi_bar_tp1)
  end.

(** [step], with the virtual [computeRho] it dispatches to as an argument. *)
Definition step_with (computeRho : t -> Action -> double)
    (x_t : O) (a_t : Action) (x_tp1 : O) (r_tp1 z_tp1 : double)
    (this : t) : Action * t :=
  let rho_t := computeRho this a_t in
  let xas_tp1 := StateToStateAction.stateActions (toStateAction this) x_tp1 in
  let ps := put_target (Policy.update xas_tp1 (target this)) (policies this) in
  let phi_bar_tp1 :=
    expectation (get_target ps) xas_tp1 (actions this)
      (Vector.clear (phi_bar_tp1 this)) in
  let '(_, gq) :=
    GQ.update (phi_t this) phi_bar_tp1 rho_t r_tp1 z_tp1 (gq this) in
  let ps := put_target (Policy.update xas_tp1 (get_target ps)) ps in
  let '(a_tp1, b) := Policies.sampleAction (get_behavior ps) xas_tp1 in
  (a_tp1, {| rho_t := rho_t; policies := put_behavior b ps;
             actions := actions this; toStateAction := toStateAction this;
             gq := gq; phi_t := Vector.set (xas_tp1 a_tp1) (phi_t this);
             phi_bar_tp1 := phi_bar_tp1 |}).

Definition step : O -> Action -> O -> double -> double -> t -> Action * t :=
  step_with computeRho.

Definition reset (this : t) : t :=
  {| rho_t := rho_t this; policies := policies this; actions := actions this;
     toStateAction := toStateAction this; gq := Predictor.reset (gq this);
     phi_t := phi_t this; phi_bar_tp1 := phi_bar_tp1 this |}.

Definition persist (f : string) (this : t)
    (fs : gmap string (list V)) : gmap string (list V) :=
  Predictor.persist f (gq this) fs.

Definition resurrect (f : string) (fs : gmap string (list V))
    (this : t) : result t :=
  gq <- Predictor.resurrect f fs (gq this) ;;
  Ok {| rho_t := rho_t this; policies := policies this;
        actions := actions this; toStateAction := toStateAction this;
        gq := gq; phi_t := phi_t this; phi_bar_tp1 := phi_bar_tp1 this |}.

End GreedyGQ.
Arguments PolicyPair P : clear implicits.
Arguments t V P S O : clear implicits.
End GreedyGQ.

(** *** GQOnPolicyControl *)

Module GQOnPolicyControl.
Section GQOnPolicyControl.
Context {V P S O : Type} `{Vector.Vector V} `{!Policy.Policy V P}
  `{!Predictor.Predictor V S} `{!GQ.GQ V S}.

Record t : Type := { super : GreedyGQ.t V P S O }.

(** GreedyGQ<T, O>(acting, acting, actions, toStateAction, gq) *)
Definition new (acting : P) (actions : ActionList)
    (toStateAction : StateToStateAction.t V O) (gq : S) : t :=
  {| super := GreedyGQ.new (GreedyGQ.Same acting) actions toStateAction gq |}.

Definition computeRho (this : t) (a_t : Action) : double := Double.one.

(** The inherited [step], dispatching to the override. *)
Definition step (x_t : O) (a_t : Action) (x_tp1 : O) (r_tp1 z_tp1 : double)
    (this : t) : Action * t :=
  let '(a_tp1, base) :=
    GreedyGQ.step_with (fun base => computeRho {| super := base |})
      x_t a_t x_tp1 r_tp1 z_tp1 (super this) in
  (a_tp1, {| super := base |}).

(** persist and resurrect are inherited from GreedyGQ. *)
Definition persist (f : string) (this : t)
    (fs : gmap string (list V)) : gmap string (list V) :=
  GreedyGQ.persist f (super this) fs.

Definition resurrect (f : string) (fs : gmap string (list V))
    (this : t) : result t :=
  base <- GreedyGQ.resurrect f fs (super this) ;; Ok {| super := base |}.

End GQOnPolicyControl.
Arguments t V P S O : clear implicits.
End GQOnPolicyControl.

(** *** AbstractActorOffPolicy *)

Module AbstractActorOffPolicy.
Section AbstractActorOffPolicy.
Context {V P : Type} `{Vector.Vector V} `{!Policy.Policy V P}
  `{!PolicyDistribution.PolicyDistribution V P}.

Record t : Type := {
  initialized : bool;
  targetPolicy : P;
}.

(** [u] is the pointer [targetPolicy->parameters()]. *)
Definition u (this : t) : list V :=
  PolicyDistribution.parameters (targetPolicy this).

Definition set_u (u : list V) (this : t) : t :=
  {| initialized := initialized this;
     targetPolicy := PolicyDistribution.set_parameters u (targetPolicy this) |}.

Definition new (targetPolicy : P) : t :=
  {| initialized := false; targetPolicy := targetPolicy |}.

Definition initialize (this : t) : t :=
  {| initialized := true; targetPolicy := targetPolicy this |}.

Definition policy (this : t) : P := targetPolicy this.

Definition set_policy (p : P) (this : t) : t :=
  {| initialized := initialized this; targetPolicy := p |}.

Definition proposeAction (phi : Representations V) (this : t) : Action * t :=
  let '(a, p) := Policies.sampleBestAction (targetPolicy this) phi in
  (a, set_policy p this).

Definition reset (this : t) : t :=
  let this := set_u (SparseVectors.clear (u this)) this in
  {| initialized := false; targetPolicy := targetPolicy this |}.

Definition pi (this : t) (a : Action) : double :=
  Policy.pi (targetPolicy this) a.

Definition persist (f : string) (this : t)
    (fs : gmap string (list V)) : gmap string (list V) :=
  Files.write f (u this) fs.

Definition resurrect (f : string) (fs : gmap string (list V))
    (this : t) : result t :=
  vs <- Files.read f fs ;; Ok (set_u vs this).

End AbstractActorOffPolicy.
Arguments t P : clear implicits.
End AbstractActorOffPolicy.

(** *** ActorLambdaOffPolicy *)

Module ActorLambdaOffPolicy.
Section ActorLambdaOffPolicy.
Context {V P E : Type} `{Vector.Vector V} `{!Policy.Policy V P}
  `{!PolicyDistribution.PolicyDistribution V P} `{!Trace.Trace V E}.

Record t : Type := {
  super : AbstractActorOffPolicy.t P;
  alpha_u : double;
  gamma_t : double;
  lambda : double;
  e : list E;
}.

Definition set_super (base : AbstractActorOffPolicy.t P) (this : t) : t :=
  {| super := base; alpha_u := alpha_u this; gamma_t := gamma_t this;
     lambda := lambda this; e := e this |}.

Definition set_e (e : list E) (this : t) : t :=
  {| super := super this; alpha_u := alpha_u this; gamma_t := gamma_t this;
     lambda := lambda this; e := e |}.

(** The body of the constructor is empty. *)
Definition new (alpha_u gamma_t lambda : double) (targetPolicy : P)
    (e : list E) : t :=
  {| super := AbstractActorOffPolicy.new targetPolicy;
     alpha_u := alpha_u; gamma_t := gamma_t; lambda := lambda; e := e |}.

Definition initialize (this : t) : t :=
  let this := set_super (AbstractActorOffPolicy.initialize (super this)) this in
  set_e (Traces.clear (e this)) this.

(** The body of the loop of [update], on the traces and the parameter
    blocks. *)
Definition update_body (alpha_u lambda rho_t gamma_t delta_t : double)
    (gradLog : list V) (i : nat) (eu : list E * list V)
    : result (list E * list V) :=
  let '(e, u) := eu in
  ei <- at_ e i ;;
  g <- at_ gradLog i ;;
  let ei := Trace.update (Double.mul gamma_t lambda) g ei in
  let ei := Trace.multiplyToSelf rho_t ei in
  let e := <[i := ei]> e in
  ui <- at_ u i ;;
  Ok (e, <[i := Vector.addToSelf (Double.mul alpha_u delta_t) (Trace.vect ei) ui]> u).

(** The argument [gamma_t] hides the member of the same name. *)
Definition update (phi_t : Representations V) (a_t : Action)
    (rho_t gamma_t delta_t : double) (this : t) : result t :=
  _ <- assert (AbstractActorOffPolicy.initialized (super this)) ;;
  let gradLog :=
    PolicyDistribution.computeGradLog phi_t a_t
      (AbstractActorOffPolicy.targetPolicy (super this)) in
  eu <- for_loop (Traces.dimension (e this))
          (update_body (alpha_u this) (lambda this) rho_t gamma_t delta_t gradLog)
          (e this, AbstractActorOffPolicy.u (super this)) ;;
  Ok (set_e (fst eu)
        (set_super (AbstractActorOffPolicy.set_u (snd eu) (super this)) this)).

Definition reset (this : t) : t :=
  let this := set_super (AbstractActorOffPolicy.reset (super this)) this in
  set_e (Traces.clear (e this)) this.

Definition persist (f : string) (this : t)
    (fs : gmap string (list V)) : gmap string (list V) :=
  AbstractActorOffPolicy.persist f (super this) fs.

Definition resurrect (f : string) (fs : gmap string (list V))
    (this : t) : result t :=
  base <- AbstractActorOffPolicy.resurrect f fs (super this) ;;
  Ok (set_super base this).

End ActorLambdaOffPolicy.
Arguments t P E : clear implicits.
End ActorLambdaOffPolicy.

(** *** Actor *)

Module Actor.
Section Actor.
Context {V P : Type} `{Vector.Vector V} `{!Policy.Policy V P}
  `{!PolicyDistribution.PolicyDistribution V P}.

Record t : Type := {
  initialized : bool;
  alpha_u : double;
  policyDistribution : P;
}.

(** [u] is the pointer [policyDistribution->parameters()]. *)
Definition u (this : t) : list V :=
  PolicyDistribution.parameters (policyDistribution this).

Definition set_policy (p : P) (this : t) : t :=
  {| initialized := initialized this; alpha_u := alpha_u this;
     policyDistribution := p |}.

Definition set_u (u : list V) (this : t) : t :=
  set_policy (PolicyDistribution.set_parameters u (policyDistribution this)) this.

Definition new (alpha_u : double) (policyDistribution : P) : t :=
  {| initialized := false; alpha_u := alpha_u;
     policyDistribution := policyDistribution |}.

Definition initialize (this : t) : t :=
  {| initialized := true; alpha_u := alpha_u this;
     policyDistribution := policyDistribution this |}.

Definition reset (this : t) : t :=
  let this := set_u (SparseVectors.clear (u this)) this in
  {| initialized := false; alpha_u := alpha_u this;
     policyDistribution := policyDistribution this |}.

Definition update_body (alpha_u delta : double) (gradLog : list V)
    (i : nat) (u : list V) : result (list V) :=
  ui <- at_ u i ;;
  g <- at_ gradLog i ;;
  Ok (<[i := Vector.addToSelf (Double.mul alpha_u delta) g ui]> u).

Definition update (phi_t : Representations V) (a_t : Action) (delta : double)
    (this : t) : result t :=
  _ <- assert (initialized this) ;;
  let gradLog :=
    PolicyDistribution.computeGradLog phi_t a_t (policyDistribution this) in
  u <- for_loop (SparseVectors.dimension gradLog)
         (update_body (alpha_u this) delta gradLog) (u this) ;;
  Ok (set_u u this).

Definition policy (this : t) : P := policyDistribution this.

Definition proposeAction (phi : Representations V) (this : t) : Action * t :=
  let this := set_policy (Policy.update phi (policy this)) this in
  let '(a, p) := Policy.sampleBestAction (policyDistribution this) in
  (a, set_policy p this).

Definition persist (f : string) (this : t)
    (fs : gmap string (list V)) : gmap string (list V) :=
  Files.write f (u this) fs.

Definition resurrect (f : string) (fs : gmap string (list V))
    (this : t) : result t :=
  vs <- Files.read f fs ;; Ok (set_u vs this).

End Actor.
Arguments t P : clear implicits.
End Actor.

(** *** ActorLambda *)

Module ActorLambda.
Section ActorLambda.
Context {V P E : Type} `{Vector.Vector V} `{!Policy.Policy V P}
  `{!PolicyDistribution.PolicyDistribution V P} `{!Trace.Trace V E}.

Record t : Type := {
  super : Actor.t P;
  gamma : double;
  lambda : double;
  e : list E;
}.

Definition set_super (base : Actor.t P) (this : t) : t :=
  {| super := base; gamma := gamma this; lambda := lambda this; e := e this |}.

Definition set_e (e : list E) (this : t) : t :=
  {| super := super this; gamma := gamma this; lambda := lambda this; e := e |}.

Definition new (alpha_u gamma lambda : double) (policyDistribution : P)
    (e : list E) : result t :=
  let base := Actor.new alpha_u policyDistribution in
  _ <- assert (Nat.eqb (Traces.dimension e)
                 (SparseVectors.dimension (Actor.u base))) ;;
  Ok {| super := base; gamma := gamma; lambda := lambda; e := e |}.

Definition initialize (this : t) : t :=
  let this := set_super (Actor.initialize (super this)) this in
  set_e (Traces.clear (e this)) this.

Definition reset (this : t) : t :=
  let this := set_super (Actor.reset (super this)) this in
  set_e (Traces.clear (e this)) this.

Definition update_body (alpha_u gamma lambda delta : double)
    (gradLog : list V) (i : nat) (eu : list E * list V)
    : result (list E * list V) :=
  let '(e, u) := eu in
  ei <- at_ e i ;;
  g <- at_ gradLog i ;;
  let ei := Trace.update (Double.mul gamma lambda) g ei in
  let e := <[i := ei]> e in
  ui <- at_ u i ;;
  Ok (e, <[i := Vector.addToSelf (Double.mul alpha_u delta) (Trace.vect ei) ui]> u).

Definition update (phi_t : Representations V) (a_t : Action) (delta : double)
    (this : t) : result t :=
  _ <- assert (Actor.initialized (super this)) ;;
  let gradLog :=
    PolicyDistribution.computeGradLog phi_t a_t (Actor.policy (super this)) in
  eu <- for_loop (SparseVectors.dimension (Actor.u (super this)))
          (update_body (Actor.alpha_u (super this)) (gamma this) (lambda this)
             delta gradLog)
          (e this, Actor.u (super this)) ;;
  Ok (set_e (fst eu) (set_super (Actor.set_u (snd eu) (super this)) this)).

(** policy, proposeAction, persist and resurrect are inherited from Actor. *)
Definition policy (this : t) : P := Actor.policy (super this).

Definition set_policy (p : P) (this : t) : t :=
  set_super (Actor.set_policy p (super this)) this.

Definition proposeAction (phi : Representations V) (this : t) : Action * t :=
  let '(a, base) := Actor.proposeAction phi (super this) in
  (a, set_super base this).

Definition persist (f : string) (this : t)
    (fs : gmap string (list V)) : gmap string (list V) :=
  Actor.persist f (super this) fs.

Definition resurrect (f : string) (fs : gmap string (list V))
    (this : t) : result t :=
  base <- Actor.resurrect f fs (super this) ;; Ok (set_super base this).

End ActorLambda.
Arguments t P E : clear implicits.
End ActorLambda.

(** *** ActorNatural *)

Module ActorNatural.
Section ActorNatural.
Context {V P : Type} `{Vector.Vector V} `{!Policy.Policy V P}
  `{!PolicyDistribution.PolicyDistribution V P}.

Record t : Type := {
  super : Actor.t P;
  w : list V;
  alpha_v : double;
}.

Definition set_super (base : Actor.t P) (this : t) : t :=
  {| super := base; w := w this; alpha_v := alpha_v this |}.

Definition set_w (w : list V) (this : t) : t :=
  {| super := super this; w := w; alpha_v := alpha_v this |}.

(** One fresh block of [w] per block of [u], of the same dimension. *)
Definition new (alpha_u alpha_v : double) (policyDistribution : P) : t :=
  let base := Actor.new alpha_u policyDistribution in
  {| super := base;
     w := (fun ui => Vector.SVector (Vector.dimension ui)) <$> Actor.u base;
     alpha_v := alpha_v |}.

(** advantageValue += gradLog[i]->dot(w->at(i)) *)
Definition advantage_body (gradLog w : list V) (i : nat)
    (advantageValue : double) : result double :=
  g <- at_ gradLog i ;;
  wi <- at_ w i ;;
  Ok (Double.add advantageValue (Vector.dot g wi)).

Definition update_body (alpha_u alpha_v delta advantageValue : double)
    (gradLog : list V) (i : nat) (wu : list V * list V)
    : result (list V * list V) :=
  let '(w, u) := wu in
  wi <- at_ w i ;;
  g <- at_ gradLog i ;;
  let wi :=
    Vector.addToSelf
      (Double.mul alpha_v (Double.sub delta advantageValue)) g wi in
  let w := <[i := wi]> w in
  ui <- at_ u i ;;
  Ok (w, <[i := Vector.addToSelf alpha_u wi ui]> u).

Definition update (phi_t : Representations V) (a_t : Action) (delta : double)
    (this : t) : result t :=
  _ <- assert (Actor.initialized (super this)) ;;
  let gradLog :=
    PolicyDistribution.computeGradLog phi_t a_t (Actor.policy (super this)) in
  advantageValue <- for_loop (SparseVectors.dimension (w this))
                      (advantage_body gradLog (w this)) Double.zero ;;
  wu <- for_loop (SparseVectors.dimension (w this))
          (update_body (Actor.alpha_u (super this)) (alpha_v this) delta
             advantageValue gradLog)
          (w this, Actor.u (super this)) ;;
  Ok (set_w (fst wu) (set_super (Actor.set_u (snd wu) (super this)) this)).

Definition reset (this : t) : t :=
  let this := set_super (Actor.reset (super this)) this in
  set_w (SparseVectors.clear (w this)) this.

(** initialize, policy, proposeAction, persist and resurrect are inherited
    from Actor. *)
Definition initialize (this : t) : t :=
  set_super (Actor.initialize (super this)) this.

Definition policy (this : t) : P := Actor.policy (super this).

Definition set_policy (p : P) (this : t) : t :=
  set_super (Actor.set_policy p (super this)) this.

Definition proposeAction (phi : Representations V) (this : t) : Action * t :=
  let '(a, base) := Actor.proposeAction phi (super this) in
  (a, set_super base this).

Definition persist (f : string) (this : t)
    (fs : gmap string (list V)) : gmap string (list V) :=
  Actor.persist f (super this) fs.

Definition resurrect (f : string) (fs : gmap string (list V))
    (this : t) : result t :=
  base <- Actor.resurrect f fs (super this) ;; Ok (set_super base this).

End ActorNatural.
Arguments t V P : clear implicits.
End ActorNatural.

(** *** The actor interfaces of Control.h *)

(** ActorOnPolicy<T, O>, as AbstractActorCritic uses it.  [set_policy] is
    the write through the pointer that [policy()] returns. *)
Module ActorOnPolicy.

Class ActorOnPolicy (V P A : Type) : Type := {
  initialize : A -> A;
  reset : A -> A;
  update : Representations V -> Action -> double -> A -> result A;
  policy : A -> P;
  set_policy : P -> A -> A;
  proposeAction : Representations V -> A -> Action * A;
  persist : string -> A -> gmap string (list V) -> gmap string (list V);
  resurrect : string -> gmap string (list V) -> A -> result A;
}.

End ActorOnPolicy.

(** ActorOffPolicy<T, O>, as OffPAC uses it. *)
Module ActorOffPolicy.

Class ActorOffPolicy (V P A : Type) : Type := {
  initialize : A -> A;
  reset : A -> A;
  update : Representations V -> Action -> double -> double -> double -> A
           -> result A;
  policy : A -> P;
  set_policy : P -> A -> A;
  pi : A -> Action -> double;
  proposeAction : Representations V -> A -> Action * A;
  persist : string -> A -> gmap string (list V) -> gmap string (list V);
  resurrect : string -> gmap string (list V) -> A -> result A;
}.

End ActorOffPolicy.

Section ActorInstances.
Context {V P E : Type} `{Vector.Vector V} `{!Policy.Policy V P}
  `{!PolicyDistribution.PolicyDistribution V P} `{!Trace.Trace V E}.

#[global] Instance Actor_ActorOnPolicy
    : ActorOnPolicy.ActorOnPolicy V P (Actor.t P) := {|
  ActorOnPolicy.initialize := Actor.initialize;
  ActorOnPolicy.reset := Actor.reset;
  ActorOnPolicy.update := Actor.update;
  ActorOnPolicy.policy := Actor.policy;
  ActorOnPolicy.set_policy := Actor.set_policy;
  ActorOnPolicy.proposeAction := Actor.proposeAction;
  ActorOnPolicy.persist := Actor.persist;
  ActorOnPolicy.resurrect := Actor.resurrect;
|}.

#[global] Instance ActorLambda_ActorOnPolicy
    : ActorOnPolicy.ActorOnPolicy V P (ActorLambda.t P E) := {|
  ActorOnPolicy.initialize := ActorLambda.initialize;
  ActorOnPolicy.reset := ActorLambda.reset;
  ActorOnPolicy.update := ActorLambda.update;
  ActorOnPolicy.policy := ActorLambda.policy;
  ActorOnPolicy.set_policy := ActorLambda.set_policy;
  ActorOnPolicy.proposeAction := ActorLambda.proposeAction;
  ActorOnPolicy.persist := ActorLambda.persist;
  ActorOnPolicy.resurrect := ActorLambda.resurrect;
|}.

#[global] Instance ActorNatural_ActorOnPolicy
    : ActorOnPolicy.ActorOnPolicy V P (ActorNatural.t V P) := {|
  ActorOnPolicy.initialize := ActorNatural.initialize;
  ActorOnPolicy.reset := ActorNatural.reset;
  ActorOnPolicy.update := ActorNatural.update;
  ActorOnPolicy.policy := ActorNatural.policy;
  ActorOnPolicy.set_policy := ActorNatural.set_policy;
  ActorOnPolicy.proposeAction := ActorNatural.proposeAction;
  ActorOnPolicy.persist := ActorNatural.persist;
  ActorOnPolicy.resurrect := ActorNatural.resurrect;
|}.

#[global] Instance ActorLambdaOffPolicy_ActorOffPolicy
    : ActorOffPolicy.ActorOffPolicy V P (ActorLambdaOffPolicy.t P E) := {|
  ActorOffPolicy.initialize := ActorLambdaOffPolicy.initialize;
  ActorOffPolicy.reset := ActorLambdaOffPolicy.reset;
  ActorOffPolicy.update := ActorLambdaOffPolicy.update;
  ActorOffPolicy.policy := fun a =>
    AbstractActorOffPolicy.policy (ActorLambdaOffPolicy.super a);
  ActorOffPolicy.set_policy := fun p a =>
    ActorLambdaOffPolicy.set_super
      (AbstractActorOffPolicy.set_policy p (ActorLambdaOffPolicy.super a)) a;
  ActorOffPolicy.pi := fun a =>
    AbstractActorOffPolicy.pi (ActorLambdaOffPolicy.super a);
  ActorOffPolicy.proposeAction := fun phi a =>
    let '(act, base) :=
      AbstractActorOffPolicy.proposeAction phi (ActorLambdaOffPolicy.super a) in
    (act, ActorLambdaOffPolicy.set_super base a);
  ActorOffPolicy.persist := ActorLambdaOffPolicy.persist;
  ActorOffPolicy.resurrect := ActorLambdaOffPolicy.resurrect;
|}.

End ActorInstances.

(** *** OffPAC *)

Module OffPAC.
Section OffPAC.
Context {V B P S A O : Type} `{Vector.Vector V} `{!Policy.Policy V B}
  `{!Policy.Policy V P} `{!Predictor.Predictor V S}
  `{!GTDLambda.GTDLambda V S} `{!ActorOffPolicy.ActorOffPolicy V P A}.

Record t : Type := {
  rho_t : double;
  delta_t : double;
  behavior : B;
  critic : S;
  actor : A;
  toStateAction : StateToStateAction.t V O;
  projector : Projector.t V O;
  gamma_t : double;
  phi_t : V;
  phi_tp1 : V;
}.

Definition new (behavior : B) (critic : S) (actor : A)
    (toStateAction : StateToStateAction.t V O) (projector : Projector.t V O)
    (gamma_t : double) : t :=
  {| rho_t := Double.zero; delta_t := Double.zero; behavior := behavior;
     critic := critic; actor := actor; toStateAction := toStateAction;
     projector := projector; gamma_t := gamma_t;
     phi_t := Vector.SVector (Projector.dimension projector);
     phi_tp1 := Vector.SVector (Projector.dimension projector) |}.

Definition set_components (behavior : B) (critic : S) (actor : A)
    (this : t) : t :=
  {| rho_t := rho_t this; delta_t := delta_t this; behavior := behavior;
     critic := critic; actor := actor; toStateAction := toStateAction this;
     projector := projector this; gamma_t := gamma_t this;
     phi_t := phi_t this; phi_tp1 := phi_tp1 this |}.

Definition initialize (x_0 : O) (this : t) : Action * t :=
  let critic := Predictor.initialize (critic this) in
  let actor := ActorOffPolicy.initialize (actor this) in
  let '(a, b) :=
    Policies.sampleAction (behavior this)
      (StateToStateAction.stateActions (toStateAction this) x_0) in
  (a, set_components b critic actor this).

Definition step (x_t : O) (a_t : Action) (x_tp1 : O) (r_tp1 z_tp1 : double)
    (this : t) : result (Action * t) :=
  let phi_t := Vector.set (Projector.project (projector this) x_t) (phi_t this) in
  let phi_tp1 :=
    Vector.set (Projector.project (projector this) x_tp1) (phi_tp1 this) in
  let xas_t := StateToStateAction.stateActions (toStateAction this) x_t in
  let actor :=
    ActorOffPolicy.set_policy
      (Policy.update xas_t (ActorOffPolicy.policy (actor this))) (actor this) in
  let behavior := Policy.update xas_t (behavior this) in
  let rho_t := Double.div (ActorOffPolicy.pi actor a_t) (Policy.pi behavior a_t) in
  _ <- Boundedness.checkValue rho_t ;;
  let '(delta_t, critic) :=
    GTDLambda.update phi_t phi_tp1 rho_t (gamma_t this) r_tp1 z_tp1
      (critic this) in
  _ <- Boundedness.checkValue delta_t ;;
  actor <- ActorOffPolicy.update xas_t a_t rho_t (gamma_t this) delta_t actor ;;
  let '(a_tp1, behavior) :=
    Policies.sampleAction behavior
      (StateToStateAction.stateActions (toStateAction this) x_tp1) in
  Ok (a_tp1,
      {| rho_t := rho_t; delta_t := delta_t; behavior := behavior;
         critic := critic; actor := actor;
         toStateAction := toStateAction this; projector := projector this;
         gamma_t := gamma_t this; phi_t := phi_t; phi_tp1 := phi_tp1 |}).

Definition reset (this : t) : t :=
  set_components (behavior this) (Predictor.reset (critic this))
    (ActorOffPolicy.reset (actor this)) this.

Definition computeValueFunction (x : O) (this : t) : double :=
  Predictor.predict (critic this) (Projector.project (projector this) x).

Definition persist (f : string) (this : t)
    (fs : gmap string (list V)) : gmap string (list V) :=
  let fcritic := String.append f ".critic" in
  let fs := Predictor.persist fcritic (critic this) fs in
  let factor := String.append f ".actor" in
  ActorOffPolicy.persist factor (actor this) fs.

Definition resurrect (f : string) (fs : gmap string (list V))
    (this : t) : result t :=
  let fcritic := String.append f ".critic" in
  critic <- Predictor.resurrect fcritic fs (critic this) ;;
  let factor := String.append f ".actor" in
  actor <- ActorOffPolicy.resurrect factor fs (actor this) ;;
  Ok (set_components (behavior this) critic actor this).

End OffPAC.
Arguments t V B S A O : clear implicits.
End OffPAC.

(** *** AbstractActorCritic *)

Module AbstractActorCritic.
Section AbstractActorCritic.
Context {V P S A O : Type} `{Vector.Vector V} `{!Policy.Policy V P}
  `{!Predictor.Predictor V S} `{!OnPolicyTD.OnPolicyTD V S}
  `{!ActorOnPolicy.ActorOnPolicy V P A}.

Record t : Type := {
  critic : S;
  actor : A;
  projector : Projector.t V O;
  toStateAction : StateToStateAction.t V O;
}.

Definition set_critic (critic : S) (this : t) : t :=
  {| critic := critic; actor := actor this; projector := projector this;
     toStateAction := toStateAction this |}.

Definition set_actor (actor : A) (this : t) : t :=
  {| critic := critic this; actor := actor; projector := projector this;
     toStateAction := toStateAction this |}.

Definition new (critic : S) (actor : A) (projector : Projector.t V O)
    (toStateAction : StateToStateAction.t V O) : t :=
  {| critic := critic; actor := actor; projector := projector;
     toStateAction := toStateAction |}.

Definition policy (this : t) : P := ActorOnPolicy.policy (actor this).

(** A call through the pointer [policy()] returns. *)
Definition set_policy (p : P) (this : t) : t :=
  set_actor (ActorOnPolicy.set_policy p (actor this)) this.

Definition updateActor (x_t : O) (a_t : Action) (actorDelta : double)
    (this : t) : result t :=
  let phi_t := StateToStateAction.stateActions (toStateAction this) x_t in
  let this := set_policy (Policy.update phi_t (policy this)) this in
  actor <- ActorOnPolicy.update phi_t a_t actorDelta (actor this) ;;
  Ok (set_actor actor this).

Definition reset (this : t) : t :=
  set_actor (ActorOnPolicy.reset (actor this))
    (set_critic (Predictor.reset (critic this)) this).

Definition initialize (x_0 : O) (this : t) : Action * t :=
  let this := set_critic (Predictor.initialize (critic this)) this in
  let this := set_actor (ActorOnPolicy.initialize (actor this)) this in
  let this :=
    set_policy
      (Policy.update (StateToStateAction.stateActions (toStateAction this) x_0)
         (policy this)) this in
  let '(a, p) := Policy.sampleAction (policy this) in
  (a, set_policy p this).

Definition proposeAction (x : O) (this : t) : Action * t :=
  let '(a, actor) :=
    ActorOnPolicy.proposeAction
      (StateToStateAction.stateActions (toStateAction this) x) (actor this) in
  (a, set_actor actor this).

(** [step] for a derived class [D]: [get] and [put] reach the base
    sub-object, [updateCritic] is the pure virtual the class implements. *)
Definition step_with {D : Type} (get : D -> t) (put : t -> D -> D)
    (updateCritic : O -> Action -> O -> double -> double -> D -> double * D)
    (x_t : O) (a_t : Action) (x_tp1 : O) (r_tp1 z_tp1 : double)
    (this : D) : result (Action * D) :=
  let '(delta_t, this) := updateCritic x_t a_t x_tp1 r_tp1 z_tp1 this in
  base <- updateActor x_t a_t delta_t (get this) ;;
  let base :=
    set_policy
      (Policy.update (StateToStateAction.stateActions (toStateAction base) x_tp1)
         (policy base)) base in
  let '(a_tp1, p) := Policy.sampleAction (policy base) in
  Ok (a_tp1, put (set_policy p base) this).

Definition computeValueFunction (x : O) (this : t) : double :=
  Predictor.predict (critic this) (Projector.project (projector this) x).

Definition persist (f : string) (this : t)
    (fs : gmap string (list V)) : gmap string (list V) :=
  let fcritic := String.append f ".critic" in
  let fs := Predictor.persist fcritic (critic this) fs in
  let factor := String.append f ".actor" in
  ActorOnPolicy.persist factor (actor this) fs.

Definition resurrect (f : string) (fs : gmap string (list V))
    (this : t) : result t :=
  let fcritic := String.append f ".critic" in
  critic <- Predictor.resurrect fcritic fs (critic this) ;;
  let factor := String.append f ".actor" in
  actor <- ActorOnPolicy.resurrect factor fs (actor this) ;;
  Ok (set_actor actor (set_critic critic this)).

End AbstractActorCritic.
Arguments t V S A O : clear implicits.
End AbstractActorCritic.

(** *** ActorCritic *)

Module ActorCritic.
Section ActorCritic.
Context {V P S A O : Type} `{Vector.Vector V} `{!Policy.Policy V P}
  `{!Predictor.Predictor V S} `{!OnPolicyTD.OnPolicyTD V S}
  `{!ActorOnPolicy.ActorOnPolicy V P A}.

Record t : Type := {
  super : AbstractActorCritic.t V S A O;
  phi_t : V;
  phi_tp1 : V;
}.

Definition set_super (base : AbstractActorCritic.t V S A O) (this : t) : t :=
  {| super := base; phi_t := phi_t this; phi_tp1 := phi_tp1 this |}.

Definition new (critic : S) (actor : A) (projector : Projector.t V O)
    (toStateAction : StateToStateAction.t V O) : t :=
  {| super := AbstractActorCritic.new critic actor projector toStateAction;
     phi_t := Vector.SVector (Projector.dimension projector);
     phi_tp1 := Vector.SVector (Projector.dimension projector) |}.

Definition updateCritic (x_t : O) (a_t : Action) (x_tp1 : O)
    (r_tp1 z_tp1 : double) (this : t) : double * t :=
  let base := super this in
  let phi_t :=
    Vector.set (Projector.project (AbstractActorCritic.projector base) x_t)
      (phi_t this) in
  let phi_tp1 :=
    Vector.set (Projector.project (AbstractActorCritic.projector base) x_tp1)
      (phi_tp1 this) in
  let '(delta_t, critic) :=
    OnPolicyTD.update phi_t phi_tp1 r_tp1 (AbstractActorCritic.critic base) in
  (delta_t,
   {| super := AbstractActorCritic.set_critic critic base;
      phi_t := phi_t; phi_tp1 := phi_tp1 |}).

Definition step : O -> Action -> O -> double -> double -> t
                  -> result (Action * t) :=
  AbstractActorCritic.step_with super set_super updateCritic.

(** persist and resurrect are inherited from AbstractActorCritic. *)
Definition persist (f : string) (this : t)
    (fs : gmap string (list V)) : gmap string (list V) :=
  AbstractActorCritic.persist f (super this) fs.

Definition resurrect (f : string) (fs : gmap string (list V))
    (this : t) : result t :=
  base <- AbstractActorCritic.resurrect f fs (super this) ;;
  Ok (set_super base this).

End ActorCritic.
Arguments t V S A O : clear implicits.
End ActorCritic.

(** *** AverageRewardActorCritic *)

Module AverageRewardActorCritic.
Section AverageRewardActorCritic.
Context {V P S A O : Type} `{Vector.Vector V} `{!Policy.Policy V P}
  `{!Predictor.Predictor V S} `{!OnPolicyTD.OnPolicyTD V S}
  `{!ActorOnPolicy.ActorOnPolicy V P A}.

Record t : Type := {
  super : AbstractActorCritic.t V S A O;
  alpha_r : double;
  averageReward : double;
  phi_t : V;
  phi_tp1 : V;
}.

Definition set_super (base : AbstractActorCritic.t V S A O) (this : t) : t :=
  {| super := base; alpha_r := alpha_r this;
     averageReward := averageReward this;
     phi_t := phi_t this; phi_tp1 := phi_tp1 this |}.

Definition new (critic : S) (actor : A) (projector : Projector.t V O)
    (toStateAction : StateToStateAction.t V O) (alpha_r : double) : t :=
  {| super := AbstractActorCritic.new critic actor projector toStateAction;
     alpha_r := alpha_r; averageReward := Double.zero;
     phi_t := Vector.SVector (Projector.dimension projector);
     phi_tp1 := Vector.SVector (Projector.dimension projector) |}.

Definition updateCritic (x_t : O) (a_t : Action) (x_tp1 : O)
    (r_tp1 z_tp1 : double) (this : t) : double * t :=
  let base := super this in
  let phi_t :=
    Vector.set (Projector.project (AbstractActorCritic.projector base) x_t)
      (phi_t this) in
  let phi_tp1 :=
    Vector.set (Projector.project (AbstractActorCritic.projector base) x_tp1)
      (phi_tp1 this) in
  let '(delta_t, critic) :=
    OnPolicyTD.update phi_t phi_tp1 (Double.sub r_tp1 (averageReward this))
      (AbstractActorCritic.critic base) in
  let averageReward :=
    Double.add (averageReward this) (Double.mul (alpha_r this) delta_t) in
  (delta_t,
   {| super := AbstractActorCritic.set_critic critic base;
      alpha_r := alpha_r this; averageReward := averageReward;
      phi_t := phi_t; phi_tp1 := phi_tp1 |}).

Definition step : O -> Action -> O -> double -> double -> t
                  -> result (Action * t) :=
  AbstractActorCritic.step_with super set_super updateCritic.

(** persist and resurrect are inherited from AbstractActorCritic;
    [averageReward] is not written. *)
Definition persist (f : string) (this : t)
    (fs : gmap string (list V)) : gmap string (list V) :=
  AbstractActorCritic.persist f (super this) fs.

Definition resurrect (f : string) (fs : gmap string (list V))
    (this : t) : result t :=
  base <- AbstractActorCritic.resurrect f fs (super this) ;;
  Ok (set_super base this).

(** The ActorCritic made of the same components and scratch vectors. *)
Definition as_ActorCritic (this : t) : ActorCritic.t V S A O :=
  {| ActorCritic.super := super this;
     ActorCritic.phi_t := phi_t this;
     ActorCritic.phi_tp1 := phi_tp1 this |}.

End AverageRewardActorCritic.
Arguments t V S A O : clear implicits.
End AverageRewardActorCritic.

(** ** Instances to run the learners on

    Dense vectors of doubles, an accumulating trace, a tabular policy whose
    probabilities and draws are given, and a linear TD(0) predictor of step
    size 1. *)

Module Dense.

Definition getEntry (v : list double) (i : nat) : double :=
  default Double.zero (v !! i).

Definition clear (v : list double) : list double :=
  replicate (length v) Double.zero.

Definition addToSelf (factor : double) (that self : list double) : list double :=
  zip_with (fun s t => Double.add s (Double.mul factor t)) self that.

Definition addVectorToSelf (that self : list double) : list double :=
  zip_with Double.add self that.

Definition mapMultiplyToSelf (factor : double) (self : list double) : list double :=
  (fun s => Double.mul s factor) <$> self.

Definition dot (self that : list double) : double :=
  fold_left Double.add (zip_with Double.mul self that) Double.zero.

Lemma dense_clear_entries (v : list double) (i : nat) :
  getEntry (clear v) i = Double.zero.
Proof.
  unfold getEntry, clear.
  destruct (replicate (length v) Double.zero !! i) as [x|] eqn:E; [|done].
  apply lookup_replicate in E as [-> _]. done.
Qed.

#[global] Instance Dense_Vector : Vector.Vector (list double) := {|
  Vector.SVector := fun n => replicate n Double.zero;
  Vector.dimension := length;
  Vector.getEntry := getEntry;
  Vector.clear := clear;
  Vector.set := fun that self => that;
  Vector.addToSelf := addToSelf;
  Vector.addVectorToSelf := addVectorToSelf;
  Vector.mapMultiplyToSelf := mapMultiplyToSelf;
  Vector.dot := dot;
  Vector.clear_entries := dense_clear_entries;
  Vector.set_entries := fun that self i => eq_refl;
|}.

(** The accumulating trace. *)
Record ATrace : Type := { vector : list double }.

#[global] Instance ATrace_Trace : Trace.Trace (list double) ATrace := {|
  Trace.vect := vector;
  Trace.update := fun l phi e =>
    {| vector := addVectorToSelf phi (mapMultiplyToSelf l (vector e)) |};
  Trace.multiplyToSelf := fun f e =>
    {| vector := mapMultiplyToSelf f (vector e) |};
  Trace.clear := fun e => {| vector := clear (vector e) |};
  Trace.vect_update := fun l phi e => eq_refl;
  Trace.vect_multiplyToSelf := fun f e => eq_refl;
  Trace.vect_clear := fun e => eq_refl;
|}.

(** A policy with given probabilities (by action id), given draws, and
    parameter blocks [theta]; the gradient of the log-probability is the
    feature vector of the action, in every block. *)
Record Tabular : Type := {
  probs : list double;
  draws : list Action;
  theta : list (list double);
}.

Definition draw (p : Tabular) : Action * Tabular :=
  match draws p with
  | a :: rest => (a, {| probs := probs p; draws := rest; theta := theta p |})
  | [] => ({| id := 0 |}, p)
  end.

#[global] Instance Tabular_Policy : Policy.Policy (list double) Tabular := {|
  Policy.update := fun phi p => p;
  Policy.pi := fun p a => default Double.zero (probs p !! id a);
  Policy.sampleAction := draw;
  Policy.sampleBestAction := draw;
|}.

#[global] Instance Tabular_PolicyDistribution
    : PolicyDistribution.PolicyDistribution (list double) Tabular := {|
  PolicyDistribution.computeGradLog := fun phi a p => (fun _ => phi a) <$> theta p;
  PolicyDistribution.parameters := theta;
  PolicyDistribution.set_parameters := fun u p =>
    {| probs := probs p; draws := draws p; theta := u |};
  PolicyDistribution.parameters_set := fun u p => eq_refl;
|}.

(** A linear predictor with weights [v]. *)
Record Linear : Type := { v : list double }.

Definition td (rho gamma r : double) (x x' : list double) (s : Linear)
    : double * Linear :=
  let delta :=
    Double.sub (Double.add r (Double.mul gamma (dot (v s) x'))) (dot (v s) x) in
  (delta, {| v := addToSelf (Double.mul rho delta) x (v s) |}).

#[global] Instance Linear_Predictor : Predictor.Predictor (list double) Linear := {|
  Predictor.initialize := fun s => s;
  Predictor.reset := fun s => {| v := clear (v s) |};
  Predictor.predict := fun s x => dot (v s) x;
  Predictor.weights := fun s => [v s];
  Predictor.set_weights := fun ws s => {| v := default (v s) (head ws) |};
|}.

#[global] Instance Linear_Sarsa : Sarsa.Sarsa (list double) Linear := {|
  Sarsa.update := fun x x' r s => td Double.one Double.one r x x' s;
|}.

#[global] Instance Linear_OnPolicyTD : OnPolicyTD.OnPolicyTD (list double) Linear := {|
  OnPolicyTD.update := fun x x' r s => td Double.one Double.one r x x' s;
|}.

#[global] Instance Linear_GQ : GQ.GQ (list double) Linear := {|
  GQ.update := fun x x' rho r z s => td rho Double.one r x x' s;
|}.

#[global] Instance Linear_GTDLambda : GTDLambda.GTDLambda (list double) Linear := {|
  GTDLambda.update := fun x x' rho gamma r z s => td rho gamma r x x' s;
|}.

(** Two actions over two features; an observation is the state's number. *)
Definition a0 : Action := {| id := 0 |}.
Definition a1 : Action := {| id := 1 |}.

Definition d (n : Z) : double := Double.of_Z n.
Definition half : double := Double.div (d 1) (d 2).

Definition features : StateToStateAction.t (list double) nat := {|
  StateToStateAction.stateActions := fun x a =>
    if Nat.eqb (id a) 0 then [d 1; d (Z.of_nat x)] else [d 0; d 1];
  StateToStateAction.dimension := 2;
  StateToStateAction.getActionList := [a0; a1];
|}.

Definition proj : Projector.t (list double) nat := {|
  Projector.project := fun x => [d 1; d (Z.of_nat x)];
  Projector.dimension := 2;
|}.

(** The learners of the examples. *)

Definition even_policy : Tabular :=
  {| probs := [half; half]; draws := [a1; a0; a1]; theta := [[d 0; d 0]] |}.

(** Never takes [a0], and draws [a1]. *)
Definition never_a0 : Tabular :=
  {| probs := [d 0; d 1]; draws := [a1; a1; a1]; theta := [[d 0; d 0]] |}.

(** Draws [a0], then [a1], to which it gives probability zero. *)
Definition wrong_draw : Tabular :=
  {| probs := [d 1; d 0]; draws := [a0; a1]; theta := [[d 0; d 0]] |}.

Definition two_blocks : Tabular :=
  {| probs := [half; half]; draws := [a1]; theta := [[d 0; d 0]; [d 0; d 0]] |}.

Definition off_actor : ActorLambdaOffPolicy.t Tabular ATrace :=
  {| ActorLambdaOffPolicy.super :=
       {| AbstractActorOffPolicy.initialized := true;
          AbstractActorOffPolicy.targetPolicy := even_policy |};
     ActorLambdaOffPolicy.alpha_u := half;
     ActorLambdaOffPolicy.gamma_t := d 1;
     ActorLambdaOffPolicy.lambda := half;
     ActorLambdaOffPolicy.e := [{| vector := [d 1; d 1] |}] |}.

Definition natural_actor : ActorNatural.t (list double) Tabular :=
  {| ActorNatural.super :=
       {| Actor.initialized := true; Actor.alpha_u := d 2;
          Actor.policyDistribution := even_policy |};
     ActorNatural.w := [[d 1; d 0]];
     ActorNatural.alpha_v := half |}.

Definition expected_sarsa (acting : Tabular)
    : ExpectedSarsaControl.t (list double) Tabular Linear nat :=
  snd (ExpectedSarsaControl.initialize 1
         (ExpectedSarsaControl.new acting features {| v := [d 1; d 1] |}
            [a0; a1])).

Definition greedy_gq : GreedyGQ.t (list double) Tabular Linear nat :=
  snd (GreedyGQ.initialize 1
         (GreedyGQ.new (GreedyGQ.Distinct never_a0 never_a0) [a0; a1] features
            {| v := [d 1; d 1] |})).

Definition off_pac
    : OffPAC.t (list double) Tabular Linear
        (ActorLambdaOffPolicy.t Tabular ATrace) nat :=
  snd (OffPAC.initialize 1
         (OffPAC.new never_a0 {| v := [d 1; d 1] |}
            (ActorLambdaOffPolicy.new half (d 1) half never_a0
               [{| vector := [d 0; d 0] |}])
            features proj (d 1))).

Definition plain_actor : Actor.t Tabular :=
  {| Actor.initialized := true; Actor.alpha_u := half;
     Actor.policyDistribution := two_blocks |}.

Definition lambda_actor : ActorLambda.t Tabular ATrace :=
  {| ActorLambda.super :=
       {| Actor.initialized := true; Actor.alpha_u := half;
          Actor.policyDistribution := even_policy |};
     ActorLambda.gamma := d 1;
     ActorLambda.lambda := half;
     ActorLambda.e := [{| vector := [d 1; d 1] |}] |}.

(** One trace for the two parameter blocks of its policy. *)
Definition short_off_actor : ActorLambdaOffPolicy.t Tabular ATrace :=
  ActorLambdaOffPolicy.initialize
    (ActorLambdaOffPolicy.new half (d 1) half two_blocks
       [{| vector := [d 0; d 0] |}]).

(** Its action list holds [a0] only; its policy draws [a0], then [a1], to
    which it gives probability zero. *)
Definition short_list_sarsa
    : ExpectedSarsaControl.t (list double) Tabular Linear nat :=
  snd (ExpectedSarsaControl.initialize 1
         (ExpectedSarsaControl.new wrong_draw features {| v := [d 1; d 1] |}
            [a0])).

Definition actor_critic
    : ActorCritic.t (list double) Linear (Actor.t Tabular) nat :=
  ActorCritic.new {| v := [d 1; d 1] |} (Actor.new half even_policy) proj
    features.

Definition ready_actor_critic
    : ActorCritic.t (list double) Linear (Actor.t Tabular) nat :=
  ActorCritic.set_super
    (snd (AbstractActorCritic.initialize 1 (ActorCritic.super actor_critic)))
    actor_critic.

End Dense.

(** ** Properties *)

Unset Implicit Arguments.

(** *** Loops and containers *)

Lemma at_Some {A : Type} (c : list A) (i : nat) (x : A) :
  c !! i = Some x -> at_ c i = Ok x.
Proof. unfold at_. intros ->. reflexivity. Qed.

(** A loop whose body keeps an invariant and never aborts under it runs to
    its end and establishes the invariant at the bound. *)
Lemma for_loop_from_invariant {St : Type} (I : nat -> St -> Prop)
    (body : nat -> St -> result St) (n : nat) :
  forall (i : nat) (s : St),
    I i s ->
    (forall j s, i <= j < i + n -> I j s ->
       exists s', body j s = Ok s' /\ I (S j) s') ->
    exists s', for_loop_from i n body s = Ok s' /\ I (i + n) s'.
Proof.
  induction n as [|n IH]; intros i s Hi Hbody; simpl.
  - exists s. rewrite Nat.add_0_r. auto.
  - destruct (Hbody i s) as (s1 & E1 & H1); [lia | done |].
    rewrite E1. simpl.
    destruct (IH (S i) s1) as (s2 & E2 & H2); [done | |].
    + intros j s' Hj. apply Hbody. lia.
    + exists s2. split; [done|]. by replace (i + S n) with (S i + n) by lia.
Qed.

Lemma for_loop_invariant {St : Type} (I : nat -> St -> Prop)
    (body : nat -> St -> result St) (n : nat) (s : St) :
  I 0 s ->
  (forall j s, j < n -> I j s -> exists s', body j s = Ok s' /\ I (S j) s') ->
  exists s', for_loop n body s = Ok s' /\ I n s'.
Proof.
  intros H0 Hbody.
  apply (for_loop_from_invariant I body n 0 s H0).
  intros j s' Hj. apply Hbody. lia.
Qed.

Lemma done_upto_lookup_old {A : Type} (k : nat) (new old : list A) :
  length new = length old -> k < length old ->
  done_upto k new old !! k = old !! k.
Proof.
  intros Hlen Hk. unfold done_upto.
  rewrite lookup_app_r; rewrite length_take; [|lia].
  rewrite lookup_drop. f_equal. lia.
Qed.

Lemma done_upto_insert {A : Type} (k : nat) (new old : list A) (x : A) :
  length new = length old -> new !! k = Some x ->
  <[k := x]> (done_upto k new old) = done_upto (S k) new old.
Proof.
  intros Hlen Hx. unfold done_upto.
  assert (k < length new) by (by eapply lookup_lt_Some).
  rewrite insert_app_r_alt; rewrite length_take; [|lia].
  replace (k - k `min` length new) with 0 by lia.
  rewrite (take_S_r _ _ _ Hx), <- app_assoc. f_equal.
  destruct (drop k old) as [|y rest] eqn:E.
  - apply (f_equal length) in E. rewrite length_drop in E. simpl in E. lia.
  - simpl. f_equal.
    change rest with (drop 1 (y :: rest)). rewrite <- E, drop_drop.
    f_equal. lia.
Qed.

Lemma done_upto_0 {A : Type} (new old : list A) : done_upto 0 new old = old.
Proof. reflexivity. Qed.

Lemma done_upto_all {A : Type} (new old : list A) :
  length new = length old -> done_upto (length old) new old = new.
Proof.
  intros Hlen. unfold done_upto.
  rewrite drop_all, app_nil_r, <- Hlen. apply firstn_all.
Qed.

(** A loop over the blocks of two containers [a0] and [b0], which rewrites
    block [i] of the first from a block of [gs] and then block [i] of the
    second from the new block of the first. *)
Lemma block_loop {A B G : Type} (f : A -> G -> A) (h : B -> A -> B)
    (gs : list G) (body : nat -> list A * list B -> result (list A * list B))
    (a0 : list A) (b0 : list B) :
  (forall i a b,
     body i (a, b)
     = (ai <- at_ a i ;;
        g <- at_ gs i ;;
        bi <- at_ b i ;;
        Ok (<[i := f ai g]> a, <[i := h bi (f ai g)]> b))) ->
  length gs = length a0 -> length b0 = length a0 ->
  for_loop (length a0) body (a0, b0)
  = Ok (zip_with f a0 gs, zip_with h b0 (zip_with f a0 gs)).
Proof.
  intros Hbody Hg Hb.
  set (a1 := zip_with f a0 gs).
  set (b1 := zip_with h b0 a1).
  assert (Ha1 : length a1 = length a0)
    by (unfold a1; rewrite length_zip_with; lia).
  assert (Hb1 : length b1 = length b0)
    by (unfold b1; rewrite length_zip_with; lia).
  destruct (for_loop_invariant
              (fun k s => s = (done_upto k a1 a0, done_upto k b1 b0))
              body (length a0) (a0, b0)) as (s & Es & Is).
  - by rewrite !done_upto_0.
  - intros j s Hj ->.
    destruct (lookup_lt_is_Some_2 a0 j) as [aj Haj]; [lia|].
    destruct (lookup_lt_is_Some_2 gs j) as [g Hgj]; [lia|].
    destruct (lookup_lt_is_Some_2 b0 j) as [bj Hbj]; [lia|].
    assert (Ha1j : a1 !! j = Some (f aj g))
      by (unfold a1; rewrite lookup_zip_with, Haj, Hgj; done).
    assert (Hb1j : b1 !! j = Some (h bj (f aj g)))
      by (unfold b1; rewrite lookup_zip_with, Hbj, Ha1j; done).
    eexists. split; [|reflexivity].
    rewrite Hbody.
    rewrite (at_Some _ _ _ (eq_trans (done_upto_lookup_old j a1 a0 Ha1 Hj) Haj)).
    simpl. rewrite (at_Some _ _ _ Hgj). simpl.
    rewrite (at_Some (done_upto j b1 b0) j bj); simpl.
    + by rewrite (done_upto_insert _ _ _ _ Ha1 Ha1j),
                 (done_upto_insert _ _ _ _ Hb1 Hb1j).
    + rewrite done_upto_lookup_old; [done | done | lia].
  - rewrite Es, Is.
    rewrite (done_upto_all _ _ Ha1).
    rewrite <- Hb, (done_upto_all _ _ Hb1). done.
Qed.

(** *** ActorLambdaOffPolicy::update *)

Section ActorLambdaOffPolicy_update.
Context {V P E : Type} `{Vector.Vector V} `{!Policy.Policy V P}
  `{!PolicyDistribution.PolicyDistribution V P} `{!Trace.Trace V E}.

(** The loop of [update] on traces [e0] and parameter blocks [u0] of the
    same number: every trace is updated and scaled, every block moved along
    its new trace. *)
Lemma ActorLambdaOffPolicy_update_loop
    (alpha_u lambda rho_t gamma_t delta_t : double)
    (gradLog : list V) (e0 : list E) (u0 : list V) :
  length gradLog = length e0 -> length u0 = length e0 ->
  for_loop (Traces.dimension e0)
    (ActorLambdaOffPolicy.update_body alpha_u lambda rho_t gamma_t delta_t gradLog)
    (e0, u0)
  = Ok (zip_with
          (fun ei g =>
             Trace.multiplyToSelf rho_t
               (Trace.update (Double.mul gamma_t lambda) g ei))
          e0 gradLog,
        zip_with
          (fun ui ei =>
             Vector.addToSelf (Double.mul alpha_u delta_t) (Trace.vect ei) ui)
          u0
          (zip_with
             (fun ei g =>
                Trace.multiplyToSelf rho_t
                  (Trace.update (Double.mul gamma_t lambda) g ei))
             e0 gradLog)).
Proof.
  intros Hg Hu. unfold Traces.dimension.
  apply (block_loop
           (fun ei g => Trace.multiplyToSelf rho_t
                          (Trace.update (Double.mul gamma_t lambda) g ei))
           (fun ui ei => Vector.addToSelf (Double.mul alpha_u delta_t)
                           (Trace.vect ei) ui)); [|done|done].
  intros i e u. unfold ActorLambdaOffPolicy.update_body.
  destruct (at_ e i); [|done]. simpl. destruct (at_ gradLog i); done.
Qed.

(** C4.  On an initialized ActorLambdaOffPolicy whose traces, parameter
    blocks and gradient blocks agree in number, [update(phi_t, a_t, rho_t,
    gamma_t, delta_t)] returns, every trace block [i] becomes
    [rho_t * (gamma_t * lambda * e_i + gradLog_i)] (decayed by
    [gamma_t * lambda], the gradient added, the whole scaled by [rho_t]),
    and every parameter block becomes [u_i + alpha_u * delta_t * e_i] for
    the new trace. *)
Theorem ActorLambdaOffPolicy_update_spec
    (phi_t : Representations V) (a_t : Action)
    (rho_t gamma_t delta_t : double) (this : ActorLambdaOffPolicy.t P E) :
  AbstractActorOffPolicy.initialized (ActorLambdaOffPolicy.super this) = true ->
  length (ActorLambdaOffPolicy.e this)
  = length (AbstractActorOffPolicy.u (ActorLambdaOffPolicy.super this)) ->
  length (PolicyDistribution.computeGradLog phi_t a_t
            (AbstractActorOffPolicy.targetPolicy (ActorLambdaOffPolicy.super this)))
  = length (ActorLambdaOffPolicy.e this) ->
  exists this' : ActorLambdaOffPolicy.t P E,
    ActorLambdaOffPolicy.update phi_t a_t rho_t gamma_t delta_t this = Ok this'
    /\ forall (i : nat) (e_i : E) (gradLog_i u_i : V),
         ActorLambdaOffPolicy.e this !! i = Some e_i ->
         PolicyDistribution.computeGradLog phi_t a_t
           (AbstractActorOffPolicy.targetPolicy (ActorLambdaOffPolicy.super this))
           !! i = Some gradLog_i ->
         AbstractActorOffPolicy.u (ActorLambdaOffPolicy.super this) !! i
           = Some u_i ->
         exists e_i' : E,
           ActorLambdaOffPolicy.e this' !! i = Some e_i'
           /\ e_i' = Trace.multiplyToSelf rho_t
                       (Trace.update
                          (Double.mul gamma_t (ActorLambdaOffPolicy.lambda this))
                          gradLog_i e_i)
           /\ Trace.vect e_i'
              = Vector.mapMultiplyToSelf rho_t
                  (Vector.addVectorToSelf gradLog_i
                     (Vector.mapMultiplyToSelf
                        (Double.mul gamma_t (ActorLambdaOffPolicy.lambda this))
                        (Trace.vect e_i)))
           /\ AbstractActorOffPolicy.u (ActorLambdaOffPolicy.super this') !! i
              = Some (Vector.addToSelf
                        (Double.mul (ActorLambdaOffPolicy.alpha_u this) delta_t)
                        (Trace.vect e_i') u_i).
Proof.
  intros Hinit Hu Hg.
  unfold ActorLambdaOffPolicy.update. rewrite Hinit. simpl.
  rewrite ActorLambdaOffPolicy_update_loop by (done || by symmetry).
  simpl. eexists. split; [reflexivity|].
  intros i e_i g u_i He Hgi Hui. eexists. split; [|split; [reflexivity|split]].
  - simpl. rewrite lookup_zip_with, He, Hgi. reflexivity.
  - by rewrite Trace.vect_multiplyToSelf, Trace.vect_update.
  - unfold AbstractActorOffPolicy.u, AbstractActorOffPolicy.set_u. simpl.
    rewrite PolicyDistribution.parameters_set.
    rewrite lookup_zip_with.
    fold (AbstractActorOffPolicy.u (ActorLambdaOffPolicy.super this)).
    rewrite Hui. simpl. rewrite lookup_zip_with, He, Hgi. reflexivity.
Qed.

End ActorLambdaOffPolicy_update.

(** *** ActorNatural::update *)

Section ActorNatural_update.
Context {V P : Type} `{Vector.Vector V} `{!Policy.Policy V P}
  `{!PolicyDistribution.PolicyDistribution V P}.

(** The first loop of [update] accumulates the dot products block by block,
    from 0. *)
Lemma ActorNatural_advantage_loop (gradLog w : list V) :
  length gradLog = length w ->
  for_loop (SparseVectors.dimension w)
    (ActorNatural.advantage_body gradLog w) Double.zero
  = Ok (fold_left Double.add (zip_with Vector.dot gradLog w) Double.zero).
Proof.
  intros Hg. unfold SparseVectors.dimension.
  set (dots := zip_with Vector.dot gradLog w).
  assert (Hd : length dots = length w)
    by (unfold dots; rewrite length_zip_with; lia).
  destruct (for_loop_invariant
              (fun k acc => acc = fold_left Double.add (take k dots) Double.zero)
              (ActorNatural.advantage_body gradLog w) (length w) Double.zero)
    as (s & Es & Is).
  - reflexivity.
  - intros j acc Hj ->.
    destruct (lookup_lt_is_Some_2 gradLog j) as [g Hgj]; [lia|].
    destruct (lookup_lt_is_Some_2 w j) as [wj Hwj]; [lia|].
    assert (Hdj : dots !! j = Some (Vector.dot g wj))
      by (unfold dots; rewrite lookup_zip_with, Hgj, Hwj; done).
    eexists. split; [|reflexivity].
    unfold ActorNatural.advantage_body.
    rewrite (at_Some _ _ _ Hgj). simpl. rewrite (at_Some _ _ _ Hwj). simpl.
    by rewrite (take_S_r _ _ _ Hdj), fold_left_app.
  - rewrite Es, Is, <- Hd, firstn_all. done.
Qed.

Lemma ActorNatural_update_loop
    (alpha_u alpha_v delta advantageValue : double)
    (gradLog w0 u0 : list V) :
  length gradLog = length w0 -> length u0 = length w0 ->
  for_loop (SparseVectors.dimension w0)
    (ActorNatural.update_body alpha_u alpha_v delta advantageValue gradLog)
    (w0, u0)
  = Ok (zip_with
          (fun wi g =>
             Vector.addToSelf
               (Double.mul alpha_v (Double.sub delta advantageValue)) g wi)
          w0 gradLog,
        zip_with (fun ui wi => Vector.addToSelf alpha_u wi ui) u0
          (zip_with
             (fun wi g =>
                Vector.addToSelf
                  (Double.mul alpha_v (Double.sub delta advantageValue)) g wi)
             w0 gradLog)).
Proof.
  intros Hg Hu. unfold SparseVectors.dimension.
  apply (block_loop
           (fun wi g =>
              Vector.addToSelf
                (Double.mul alpha_v (Double.sub delta advantageValue)) g wi)
           (fun ui wi => Vector.addToSelf alpha_u wi ui)); [|done|done].
  intros i w u. unfold ActorNatural.update_body.
  destruct (at_ w i); [|done]. simpl. destruct (at_ gradLog i); done.
Qed.

(** C5.  On an initialized ActorNatural whose advantage weights, parameter
    blocks and gradient blocks agree in number, [update(phi_t, a_t, delta)]
    returns; with [estimated_advantage] the sum over the blocks of
    [gradLog_i . w_i] (the weights before the call), every block of [w]
    becomes [w_i + alpha_v * (delta - estimated_advantage) * gradLog_i] and
    every block of [u] becomes [u_i + alpha_u * w_i] for the new [w_i]. *)
Theorem ActorNatural_update_spec
    (phi_t : Representations V) (a_t : Action) (delta : double)
    (this : ActorNatural.t V P) :
  Actor.initialized (ActorNatural.super this) = true ->
  length (ActorNatural.w this) = length (Actor.u (ActorNatural.super this)) ->
  length (PolicyDistribution.computeGradLog phi_t a_t
            (Actor.policy (ActorNatural.super this)))
  = length (ActorNatural.w this) ->
  exists this' : ActorNatural.t V P,
    ActorNatural.update phi_t a_t delta this = Ok this'
    /\ forall (i : nat) (w_i gradLog_i u_i : V),
         ActorNatural.w this !! i = Some w_i ->
         PolicyDistribution.computeGradLog phi_t a_t
           (Actor.policy (ActorNatural.super this)) !! i = Some gradLog_i ->
         Actor.u (ActorNatural.super this) !! i = Some u_i ->
         let estimated_advantage :=
           fold_left Double.add
             (zip_with Vector.dot
                (PolicyDistribution.computeGradLog phi_t a_t
                   (Actor.policy (ActorNatural.super this)))
                (ActorNatural.w this))
             Double.zero in
         let w_i' :=
           Vector.addToSelf
             (Double.mul (ActorNatural.alpha_v this)
                (Double.sub delta estimated_advantage))
             gradLog_i w_i in
         ActorNatural.w this' !! i = Some w_i'
         /\ Actor.u (ActorNatural.super this') !! i
            = Some (Vector.addToSelf (Actor.alpha_u (ActorNatural.super this))
                      w_i' u_i).
Proof.
  intros Hinit Hu Hg.
  unfold ActorNatural.update. rewrite Hinit. simpl.
  rewrite ActorNatural_advantage_loop by done. simpl.
  rewrite ActorNatural_update_loop by (done || by symmetry).
  simpl. eexists. split; [reflexivity|].
  intros i w_i g u_i Hw Hgi Hui. simpl. split.
  - rewrite lookup_zip_with, Hw, Hgi. reflexivity.
  - unfold Actor.u, Actor.set_u, Actor.set_policy. simpl.
    rewrite PolicyDistribution.parameters_set.
    rewrite lookup_zip_with.
    fold (Actor.u (ActorNatural.super this)).
    rewrite Hui. simpl. rewrite lookup_zip_with, Hw, Hgi. reflexivity.
Qed.

End ActorNatural_update.

(** *** ExpectedSarsaControl::step *)

Section ExpectedSarsaControl_step.
Context {V P S O : Type} `{Vector.Vector V} `{!Policy.Policy V P}
  `{!Predictor.Predictor V S} `{!Sarsa.Sarsa V S}.

(** An action of the list with probability zero and the id of the sampled
    one stops the loop on its assertion. *)
Lemma expectation_zero_sampled (acting : P) (phi_tp1 : Representations V)
    (a_tp1 : Action) (actions : ActionList) :
  a_tp1 ∈ actions ->
  Double.eqb (Policy.pi acting a_tp1) Double.zero = true ->
  forall phi_bar_tp1,
    ExpectedSarsaControl.expectation acting phi_tp1 a_tp1 actions phi_bar_tp1
    = Abort AssertionFailed.
Proof.
  intros Hin Hzero. induction actions as [|a rest IH]; intros phi_bar.
  - by apply elem_of_nil in Hin.
  - simpl. apply elem_of_cons in Hin as [<-|Hin].
    + by rewrite Hzero, Nat.eqb_refl.
    + destruct (Double.eqb (Policy.pi acting a) Double.zero); [|by apply IH].
      destruct (Nat.eqb (id a) (id a_tp1)); simpl; [done | by apply IH].
Qed.

(** When the sampled action has a probability other than zero, the loop
    ends, with the weighted sum over the actions of probability other than
    zero, in the order of the list. *)
Lemma expectation_nonzero_sampled (acting : P) (phi_tp1 : Representations V)
    (a_tp1 : Action) (actions : ActionList) :
  Double.eqb (Policy.pi acting a_tp1) Double.zero = false ->
  forall phi_bar_tp1,
    ExpectedSarsaControl.expectation acting phi_tp1 a_tp1 actions phi_bar_tp1
    = Ok (fold_left
            (fun sum a => Vector.addToSelf (Policy.pi acting a) (phi_tp1 a) sum)
            (List.filter
               (fun a => negb (Double.eqb (Policy.pi acting a) Double.zero))
               actions)
            phi_bar_tp1).
Proof.
  intros Hnz. induction actions as [|a rest IH]; intros phi_bar; [done|].
  simpl.
  destruct (Double.eqb (Policy.pi acting a) Double.zero) eqn:Ea; simpl.
  - destruct (Nat.eqb (id a) (id a_tp1)) eqn:Eid; simpl; [|apply IH].
    apply Nat.eqb_eq in Eid. destruct a as [n], a_tp1 as [m].
    simpl in Eid. subst. congruence.
  - apply IH.
Qed.

(** C3.  Let [a_tp1] be the action sampled at the next state, a member of
    the action list, and [pi] the probabilities of the acting policy once
    refreshed there.  If [pi(a_tp1) == 0] the step stops on the assertion.
    Otherwise the step returns [a_tp1], and the vector handed to the
    predictor's [update] as the next-state target is the sum, from the
    cleared [phi_bar_tp1], of [pi(a) * phi_tp1(a)] over the actions [a] of
    the list with [pi(a) != 0]. *)
Theorem ExpectedSarsaControl_step_expectation
    (x_t : O) (a_t : Action) (x_tp1 : O) (r_tp1 z_tp1 : double)
    (this : ExpectedSarsaControl.t V P S O) :
  let base := ExpectedSarsaControl.super this in
  let phi_tp1 :=
    StateToStateAction.stateActions (SarsaControl.toStateAction base) x_tp1 in
  let a_tp1 := fst (Policies.sampleAction (SarsaControl.acting base) phi_tp1) in
  let acting := snd (Policies.sampleAction (SarsaControl.acting base) phi_tp1) in
  let expected :=
    fold_left
      (fun sum a => Vector.addToSelf (Policy.pi acting a) (phi_tp1 a) sum)
      (List.filter
         (fun a => negb (Double.eqb (Policy.pi acting a) Double.zero))
         (ExpectedSarsaControl.actions this))
      (Vector.clear (ExpectedSarsaControl.phi_bar_tp1 this)) in
  a_tp1 ∈ ExpectedSarsaControl.actions this ->
  ExpectedSarsaControl.step x_t a_t x_tp1 r_tp1 z_tp1 this
  = if Double.eqb (Policy.pi acting a_tp1) Double.zero
    then Abort AssertionFailed
    else Ok (a_tp1,
             {| ExpectedSarsaControl.super :=
                  {| SarsaControl.acting := acting;
                     SarsaControl.toStateAction := SarsaControl.toStateAction base;
                     SarsaControl.sarsa :=
                       snd (Sarsa.update (SarsaControl.xa_t base) expected r_tp1
                              (SarsaControl.sarsa base));
                     SarsaControl.xa_t :=
                       Vector.set (phi_tp1 a_tp1) (SarsaControl.xa_t base) |};
                ExpectedSarsaControl.phi_bar_tp1 := expected;
                ExpectedSarsaControl.actions :=
                  ExpectedSarsaControl.actions this |}).
Proof.
  intros base phi_tp1 a_tp1 acting expected Hin.
  unfold ExpectedSarsaControl.step.
  fold base. fold phi_tp1.
  destruct (Policies.sampleAction (SarsaControl.acting base) phi_tp1)
    as [a p] eqn:Es.
  subst a_tp1 acting. simpl in *.
  destruct (Double.eqb (Policy.pi p a) Double.zero) eqn:Ez.
  - by rewrite expectation_zero_sampled.
  - rewrite expectation_nonzero_sampled by done. simpl. fold expected.
    by destruct (Sarsa.update _ _ _ _).
Qed.

(** C10.  When the sampled action [a_tp1] has a probability other than
    zero, the step returns and leaves in [xa_t] the feature vector of
    [a_tp1] at the next state, entry for entry, while the expectation stays
    in [phi_bar_tp1]; a following step that returns has called the
    predictor's [update] with that [xa_t] as the current features. *)
Theorem ExpectedSarsaControl_step_xa_t
    (x_t : O) (a_t : Action) (x_tp1 : O) (r_tp1 z_tp1 : double)
    (this : ExpectedSarsaControl.t V P S O) :
  let base := ExpectedSarsaControl.super this in
  let phi_tp1 :=
    StateToStateAction.stateActions (SarsaControl.toStateAction base) x_tp1 in
  let a_tp1 := fst (Policies.sampleAction (SarsaControl.acting base) phi_tp1) in
  let acting := snd (Policies.sampleAction (SarsaControl.acting base) phi_tp1) in
  Double.eqb (Policy.pi acting a_tp1) Double.zero = false ->
  exists this' : ExpectedSarsaControl.t V P S O,
    ExpectedSarsaControl.step x_t a_t x_tp1 r_tp1 z_tp1 this = Ok (a_tp1, this')
    /\ SarsaControl.xa_t (ExpectedSarsaControl.super this')
       = Vector.set (phi_tp1 a_tp1) (SarsaControl.xa_t base)
    /\ (forall i,
          Vector.getEntry (SarsaControl.xa_t (ExpectedSarsaControl.super this')) i
          = Vector.getEntry (phi_tp1 a_tp1) i)
    /\ forall (x_tp2 : O) (r_tp2 z_tp2 : double) (a_tp2 : Action)
              (this'' : ExpectedSarsaControl.t V P S O),
         ExpectedSarsaControl.step x_tp1 a_tp1 x_tp2 r_tp2 z_tp2 this'
         = Ok (a_tp2, this'') ->
         SarsaControl.sarsa (ExpectedSarsaControl.super this'')
         = snd (Sarsa.update
                  (SarsaControl.xa_t (ExpectedSarsaControl.super this'))
                  (ExpectedSarsaControl.phi_bar_tp1 this'') r_tp2
                  (SarsaControl.sarsa (ExpectedSarsaControl.super this'))).
Proof.
  intros base phi_tp1 a_tp1 acting Hnz.
  unfold ExpectedSarsaControl.step at 1.
  fold base. fold phi_tp1.
  destruct (Policies.sampleAction (SarsaControl.acting base) phi_tp1)
    as [a p] eqn:Es.
  subst a_tp1 acting. simpl in *.
  rewrite expectation_nonzero_sampled by done. simpl.
  destruct (Sarsa.update _ _ _ _) as [delta sarsa'] eqn:Eu.
  eexists. split; [reflexivity|]. simpl.
  split; [reflexivity|]. split; [intros i; apply Vector.set_entries|].
  intros x_tp2 r_tp2 z_tp2 a_tp2 this'' Hstep.
  unfold ExpectedSarsaControl.step in Hstep. simpl in Hstep.
  destruct (Policies.sampleAction p _) as [a2 p2].
  destruct (ExpectedSarsaControl.expectation _ _ _ _ _) as [phi_bar2|];
    [|done].
  simpl in Hstep.
  destruct (Sarsa.update _ phi_bar2 _ _) as [delta2 sarsa2] eqn:Eu2.
  injection Hstep as _ <-. simpl. by rewrite Eu2.
Qed.

End ExpectedSarsaControl_step.

(** *** Eligibility traces at initialize and reset *)

Section Traces_cleared.
Context {V P E : Type} `{Vector.Vector V} `{!Policy.Policy V P}
  `{!PolicyDistribution.PolicyDistribution V P} `{!Trace.Trace V E}.

Lemma Traces_clear_zero (e : list E) :
  Forall (fun e_i => forall j, Vector.getEntry (Trace.vect e_i) j = Double.zero)
    (Traces.clear e).
Proof.
  unfold Traces.clear. apply Forall_fmap, Forall_forall. intros e_i _ j. simpl.
  rewrite Trace.vect_clear. apply Vector.clear_entries.
Qed.

(** C8.  After [initialize()] and after [reset()], of ActorLambda and of
    ActorLambdaOffPolicy, every entry of every trace vector is [+0.0], and
    the learner still has as many traces as before. *)
Theorem traces_zero_after_initialize_and_reset
    (actor : ActorLambda.t P E) (off : ActorLambdaOffPolicy.t P E) :
  let all_zero (e : list E) :=
    Forall (fun e_i => forall j, Vector.getEntry (Trace.vect e_i) j = Double.zero)
      e in
  (all_zero (ActorLambda.e (ActorLambda.initialize actor))
   /\ all_zero (ActorLambda.e (ActorLambda.reset actor))
   /\ all_zero (ActorLambdaOffPolicy.e (ActorLambdaOffPolicy.initialize off))
   /\ all_zero (ActorLambdaOffPolicy.e (ActorLambdaOffPolicy.reset off)))
  /\ (length (ActorLambda.e (ActorLambda.initialize actor))
      = length (ActorLambda.e actor)
      /\ length (ActorLambda.e (ActorLambda.reset actor))
         = length (ActorLambda.e actor)
      /\ length (ActorLambdaOffPolicy.e (ActorLambdaOffPolicy.initialize off))
         = length (ActorLambdaOffPolicy.e off)
      /\ length (ActorLambdaOffPolicy.e (ActorLambdaOffPolicy.reset off))
         = length (ActorLambdaOffPolicy.e off)).
Proof.
  simpl. split.
  - repeat split; apply Traces_clear_zero.
  - unfold Traces.clear. repeat split; apply length_fmap.
Qed.

End Traces_cleared.

(** *** GQOnPolicyControl::computeRho *)

Section GQOnPolicyControl_computeRho.
Context {V P S O : Type} `{Vector.Vector V} `{!Policy.Policy V P}
  `{!Predictor.Predictor V S} `{!GQ.GQ V S}.

(** C2.  [computeRho] of a GQOnPolicyControl is the double 1.0, that is
    2^52 * 2^-52, for every learner and every action; so the ratio a step
    stores and hands to the GQ predictor is 1.0. *)
Theorem GQOnPolicyControl_computeRho_one
    (this : GQOnPolicyControl.t V P S O) (a_t : Action) :
  GQOnPolicyControl.computeRho this a_t = S754_finite false 4503599627370496 (-52)
  /\ forall (x_t x_tp1 : O) (r_tp1 z_tp1 : double),
       let this' := snd (GQOnPolicyControl.step x_t a_t x_tp1 r_tp1 z_tp1 this) in
       GreedyGQ.rho_t (GQOnPolicyControl.super this')
       = S754_finite false 4503599627370496 (-52)
       /\ GreedyGQ.gq (GQOnPolicyControl.super this')
          = snd (GQ.update (GreedyGQ.phi_t (GQOnPolicyControl.super this))
                   (GreedyGQ.phi_bar_tp1 (GQOnPolicyControl.super this'))
                   (S754_finite false 4503599627370496 (-52)) r_tp1 z_tp1
                   (GreedyGQ.gq (GQOnPolicyControl.super this))).
Proof.
  split; [reflexivity|].
  intros x_t x_tp1 r_tp1 z_tp1.
  unfold GQOnPolicyControl.step, GreedyGQ.step_with. simpl.
  change (GQOnPolicyControl.computeRho _ a_t)
    with (S754_finite false 4503599627370496 (-52)).
  destruct (GQ.update _ _ _ _ _ _) as [delta gq'] eqn:Eu.
  destruct (Policies.sampleAction _ _) as [a_tp1 b]. simpl.
  by rewrite Eu.
Qed.

End GQOnPolicyControl_computeRho.

(** *** AverageRewardActorCritic *)

Section AverageRewardActorCritic_updateCritic.
Context {V P S A O : Type} `{Vector.Vector V} `{!Policy.Policy V P}
  `{!Predictor.Predictor V S} `{!OnPolicyTD.OnPolicyTD V S}
  `{!ActorOnPolicy.ActorOnPolicy V P A}.

(** C6.  [updateCritic] updates the critic with [r_tp1 - averageReward] on
    the projected features and then adds [alpha_r * delta_t] to
    [averageReward], for the [delta_t] that update returned.  Critic, TD
    error and scratch vectors are those of ActorCritic::updateCritic called
    with the reward [r_tp1 - averageReward], and so is the whole step: it
    returns the same action, aborts alike, and leaves the same components. *)
Theorem AverageRewardActorCritic_updateCritic_spec
    (x_t : O) (a_t : Action) (x_tp1 : O) (r_tp1 z_tp1 : double)
    (this : AverageRewardActorCritic.t V S A O) :
  let base := AverageRewardActorCritic.super this in
  let phi_t :=
    Vector.set (Projector.project (AbstractActorCritic.projector base) x_t)
      (AverageRewardActorCritic.phi_t this) in
  let phi_tp1 :=
    Vector.set (Projector.project (AbstractActorCritic.projector base) x_tp1)
      (AverageRewardActorCritic.phi_tp1 this) in
  let reward := Double.sub r_tp1 (AverageRewardActorCritic.averageReward this) in
  let delta_t :=
    fst (OnPolicyTD.update phi_t phi_tp1 reward (AbstractActorCritic.critic base)) in
  let baseline :=
    Double.add (AverageRewardActorCritic.averageReward this)
      (Double.mul (AverageRewardActorCritic.alpha_r this) delta_t) in
  let with_baseline (ac : ActorCritic.t V S A O) :=
    {| AverageRewardActorCritic.super := ActorCritic.super ac;
       AverageRewardActorCritic.alpha_r := AverageRewardActorCritic.alpha_r this;
       AverageRewardActorCritic.averageReward := baseline;
       AverageRewardActorCritic.phi_t := ActorCritic.phi_t ac;
       AverageRewardActorCritic.phi_tp1 := ActorCritic.phi_tp1 ac |} in
  let this' :=
    snd (AverageRewardActorCritic.updateCritic x_t a_t x_tp1 r_tp1 z_tp1 this) in
  fst (AverageRewardActorCritic.updateCritic x_t a_t x_tp1 r_tp1 z_tp1 this)
  = delta_t
  /\ AbstractActorCritic.critic (AverageRewardActorCritic.super this')
     = snd (OnPolicyTD.update phi_t phi_tp1 reward (AbstractActorCritic.critic base))
  /\ AverageRewardActorCritic.averageReward this' = baseline
  /\ AverageRewardActorCritic.updateCritic x_t a_t x_tp1 r_tp1 z_tp1 this
     = (let '(delta, ac) :=
          ActorCritic.updateCritic x_t a_t x_tp1 reward z_tp1
            (AverageRewardActorCritic.as_ActorCritic this) in
        (delta, with_baseline ac))
  /\ AverageRewardActorCritic.step x_t a_t x_tp1 r_tp1 z_tp1 this
     = match ActorCritic.step x_t a_t x_tp1 reward z_tp1
               (AverageRewardActorCritic.as_ActorCritic this) with
       | Ok (a_tp1, ac) => Ok (a_tp1, with_baseline ac)
       | Abort f => Abort f
       end.
Proof.
  simpl.
  unfold AverageRewardActorCritic.step, ActorCritic.step,
    AbstractActorCritic.step_with, AverageRewardActorCritic.updateCritic,
    ActorCritic.updateCritic.
  simpl.
  destruct (OnPolicyTD.update _ _ _ _) as [delta critic']. simpl.
  repeat split.
  destruct (AbstractActorCritic.updateActor _ _ _ _) as [b|f]; [|done].
  simpl. by destruct (Policy.sampleAction _).
Qed.

End AverageRewardActorCritic_updateCritic.

(** *** Names under which the learners persist *)

Lemma append_cancel_l (f s1 s2 : string) :
  String.append f s1 = String.append f s2 -> s1 = s2.
Proof.
  induction f as [|c f IH]; simpl; [done|].
  intros Heq. injection Heq as Heq. by apply IH.
Qed.

Lemma append_eq_self (f s : string) : String.append f s = f -> s = EmptyString.
Proof.
  induction f as [|c f IH]; simpl; [done|].
  intros Heq. injection Heq as Heq. by apply IH.
Qed.

Lemma critic_name_ne_actor_name (f : string) :
  String.append f ".critic" <> String.append f ".actor".
Proof. intros Heq. by apply append_cancel_l in Heq. Qed.

Section Persistence.
Context {V B P E O : Type} `{Vector.Vector V}
  `{!Policy.Policy V B} `{!Policy.Policy V P}
  `{!PolicyDistribution.PolicyDistribution V P} `{!Trace.Trace V E}.
Context {SS : Type} `{!Predictor.Predictor V SS} `{!Sarsa.Sarsa V SS}.
Context {SG : Type} `{!Predictor.Predictor V SG} `{!GQ.GQ V SG}.
Context {ST : Type} `{!Predictor.Predictor V ST} `{!GTDLambda.GTDLambda V ST}.
Context {SO : Type} `{!Predictor.Predictor V SO} `{!OnPolicyTD.OnPolicyTD V SO}.
Context {A : Type} `{!ActorOnPolicy.ActorOnPolicy V P A}.

(** A composite learner writes two files, none under the bare name. *)
Lemma composite_files (f : string) (wc wa : list V) (fs : gmap string (list V)) :
  let fs' :=
    Files.write (String.append f ".actor") wa
      (Files.write (String.append f ".critic") wc fs) in
  fs' !! String.append f ".critic" = Some wc
  /\ fs' !! String.append f ".actor" = Some wa
  /\ fs' !! f = fs !! f.
Proof.
  simpl. unfold Files.write. repeat split.
  - rewrite lookup_insert_ne by (apply not_eq_sym, critic_name_ne_actor_name).
    apply lookup_insert_eq.
  - apply lookup_insert_eq.
  - rewrite !lookup_insert_ne; [done | |];
      intros Heq; by apply append_eq_self in Heq.
Qed.

(** C7.  The single-component learners (SarsaControl, ExpectedSarsaControl,
    GreedyGQ, GQOnPolicyControl and the bare actors) persist under [name]
    itself and resurrect from it.  The composite learners (OffPAC,
    AbstractActorCritic and with it ActorCritic and
    AverageRewardActorCritic) persist their critic under
    [name ++ ".critic"] and hand [name ++ ".actor"] to their actor, which
    persists under that name as a bare actor does; nothing is written under
    [name], and resurrect reads the same two names.  Every learner, the
    base classes and those that inherit persist and resurrect, resurrects
    from the names it persists under: what one learner persisted comes back
    as the weights or parameters of the learner that resurrects, whose
    other members stay. *)
Theorem persist_resurrect_names (name : string) (fs : gmap string (list V)) :
  (* single-component learners *)
  (forall this : SarsaControl.t V P SS O,
     SarsaControl.persist name this fs
     = <[name := Predictor.weights (SarsaControl.sarsa this)]> fs
     /\ forall from : SarsaControl.t V P SS O,
          SarsaControl.resurrect name (SarsaControl.persist name from fs) this
          = Ok {| SarsaControl.acting := SarsaControl.acting this;
                  SarsaControl.toStateAction := SarsaControl.toStateAction this;
                  SarsaControl.sarsa :=
                    Predictor.set_weights
                      (Predictor.weights (SarsaControl.sarsa from))
                      (SarsaControl.sarsa this);
                  SarsaControl.xa_t := SarsaControl.xa_t this |})
  /\ (forall this : ExpectedSarsaControl.t V P SS O,
        ExpectedSarsaControl.persist name this fs
        = <[name := Predictor.weights
                      (SarsaControl.sarsa (ExpectedSarsaControl.super this))]> fs)
  /\ (forall this : GreedyGQ.t V P SG O,
        GreedyGQ.persist name this fs
        = <[name := Predictor.weights (GreedyGQ.gq this)]> fs
        /\ forall from : GreedyGQ.t V P SG O,
             GreedyGQ.resurrect name (GreedyGQ.persist name from fs) this
             = Ok {| GreedyGQ.rho_t := GreedyGQ.rho_t this;
                     GreedyGQ.policies := GreedyGQ.policies this;
                     GreedyGQ.actions := GreedyGQ.actions this;
                     GreedyGQ.toStateAction := GreedyGQ.toStateAction this;
                     GreedyGQ.gq :=
                       Predictor.set_weights
                         (Predictor.weights (GreedyGQ.gq from)) (GreedyGQ.gq this);
                     GreedyGQ.phi_t := GreedyGQ.phi_t this;
                     GreedyGQ.phi_bar_tp1 := GreedyGQ.phi_bar_tp1 this |})
  /\ (forall this : GQOnPolicyControl.t V P SG O,
        GQOnPolicyControl.persist name this fs
        = <[name := Predictor.weights
                      (GreedyGQ.gq (GQOnPolicyControl.super this))]> fs)
  /\ (forall this : Actor.t P,
        Actor.persist name this fs = <[name := Actor.u this]> fs
        /\ forall from : Actor.t P,
             Actor.resurrect name (Actor.persist name from fs) this
             = Ok (Actor.set_u (Actor.u from) this))
  /\ (forall this : ActorLambda.t P E,
        ActorLambda.persist name this fs
        = <[name := Actor.u (ActorLambda.super this)]> fs)
  /\ (forall this : ActorNatural.t V P,
        ActorNatural.persist name this fs
        = <[name := Actor.u (ActorNatural.super this)]> fs)
  /\ (forall this : ActorLambdaOffPolicy.t P E,
        ActorLambdaOffPolicy.persist name this fs
        = <[name := AbstractActorOffPolicy.u (ActorLambdaOffPolicy.super this)]> fs
        /\ forall from : ActorLambdaOffPolicy.t P E,
             ActorLambdaOffPolicy.resurrect name
               (ActorLambdaOffPolicy.persist name from fs) this
             = Ok (ActorLambdaOffPolicy.set_super
                     (AbstractActorOffPolicy.set_u
                        (AbstractActorOffPolicy.u (ActorLambdaOffPolicy.super from))
                        (ActorLambdaOffPolicy.super this))
                     this))
  (* composite learners *)
  /\ (forall this : OffPAC.t V B ST (ActorLambdaOffPolicy.t P E) O,
        let u :=
          AbstractActorOffPolicy.u (ActorLambdaOffPolicy.super (OffPAC.actor this)) in
        let w := Predictor.weights (OffPAC.critic this) in
        OffPAC.persist name this fs
        = ActorLambdaOffPolicy.persist (String.append name ".actor")
            (OffPAC.actor this)
            (Predictor.persist (String.append name ".critic")
               (OffPAC.critic this) fs)
        /\ OffPAC.persist name this fs !! String.append name ".critic" = Some w
        /\ OffPAC.persist name this fs !! String.append name ".actor" = Some u
        /\ OffPAC.persist name this fs !! name = fs !! name
        /\ forall to : OffPAC.t V B ST (ActorLambdaOffPolicy.t P E) O,
             OffPAC.resurrect name (OffPAC.persist name this fs) to
             = Ok (OffPAC.set_components (OffPAC.behavior to)
                     (Predictor.set_weights w (OffPAC.critic to))
                     (ActorLambdaOffPolicy.set_super
                        (AbstractActorOffPolicy.set_u u
                           (ActorLambdaOffPolicy.super (OffPAC.actor to)))
                        (OffPAC.actor to))
                     to))
  /\ (forall this : AbstractActorCritic.t V SO A O,
        AbstractActorCritic.persist name this fs
        = ActorOnPolicy.persist (String.append name ".actor")
            (AbstractActorCritic.actor this)
            (<[String.append name ".critic" :=
                 Predictor.weights (AbstractActorCritic.critic this)]> fs))
  /\ (forall this : AbstractActorCritic.t V SO (Actor.t P) O,
        let u := Actor.u (AbstractActorCritic.actor this) in
        let w := Predictor.weights (AbstractActorCritic.critic this) in
        AbstractActorCritic.persist name this fs !! String.append name ".critic"
        = Some w
        /\ AbstractActorCritic.persist name this fs !! String.append name ".actor"
           = Some u
        /\ AbstractActorCritic.persist name this fs !! name = fs !! name
        /\ forall to : AbstractActorCritic.t V SO (Actor.t P) O,
             AbstractActorCritic.resurrect name
               (AbstractActorCritic.persist name this fs) to
             = Ok (AbstractActorCritic.set_actor
                     (Actor.set_u u (AbstractActorCritic.actor to))
                     (AbstractActorCritic.set_critic
                        (Predictor.set_weights w (AbstractActorCritic.critic to))
                        to)))
  /\ (forall this : ActorCritic.t V SO (Actor.t P) O,
        ActorCritic.persist name this fs
        = <[String.append name ".actor" :=
              Actor.u (AbstractActorCritic.actor (ActorCritic.super this))]>
            (<[String.append name ".critic" :=
                 Predictor.weights
                   (AbstractActorCritic.critic (ActorCritic.super this))]> fs))
  /\ (forall this : AverageRewardActorCritic.t V SO (Actor.t P) O,
        AverageRewardActorCritic.persist name this fs
        = <[String.append name ".actor" :=
              Actor.u (AbstractActorCritic.actor
                         (AverageRewardActorCritic.super this))]>
            (<[String.append name ".critic" :=
                 Predictor.weights
                   (AbstractActorCritic.critic
                      (AverageRewardActorCritic.super this))]> fs))
  (* resurrect of the learners that inherit it *)
  /\ (forall from this : ExpectedSarsaControl.t V P SS O,
        ExpectedSarsaControl.resurrect name
          (ExpectedSarsaControl.persist name from fs) this
        = Ok {| ExpectedSarsaControl.super :=
                  {| SarsaControl.acting :=
                       SarsaControl.acting (ExpectedSarsaControl.super this);
                     SarsaControl.toStateAction :=
                       SarsaControl.toStateAction (ExpectedSarsaControl.super this);
                     SarsaControl.sarsa :=
                       Predictor.set_weights
                         (Predictor.weights
                            (SarsaControl.sarsa (ExpectedSarsaControl.super from)))
                         (SarsaControl.sarsa (ExpectedSarsaControl.super this));
                     SarsaControl.xa_t :=
                       SarsaControl.xa_t (ExpectedSarsaControl.super this) |};
                ExpectedSarsaControl.phi_bar_tp1 :=
                  ExpectedSarsaControl.phi_bar_tp1 this;
                ExpectedSarsaControl.actions :=
                  ExpectedSarsaControl.actions this |})
  /\ (forall from this : GQOnPolicyControl.t V P SG O,
        GQOnPolicyControl.resurrect name
          (GQOnPolicyControl.persist name from fs) this
        = Ok {| GQOnPolicyControl.super :=
                  {| GreedyGQ.rho_t := GreedyGQ.rho_t (GQOnPolicyControl.super this);
                     GreedyGQ.policies :=
                       GreedyGQ.policies (GQOnPolicyControl.super this);
                     GreedyGQ.actions :=
                       GreedyGQ.actions (GQOnPolicyControl.super this);
                     GreedyGQ.toStateAction :=
                       GreedyGQ.toStateAction (GQOnPolicyControl.super this);
                     GreedyGQ.gq :=
                       Predictor.set_weights
                         (Predictor.weights
                            (GreedyGQ.gq (GQOnPolicyControl.super from)))
                         (GreedyGQ.gq (GQOnPolicyControl.super this));
                     GreedyGQ.phi_t := GreedyGQ.phi_t (GQOnPolicyControl.super this);
                     GreedyGQ.phi_bar_tp1 :=
                       GreedyGQ.phi_bar_tp1 (GQOnPolicyControl.super this) |} |})
  /\ (forall from this : ActorLambda.t P E,
        ActorLambda.resurrect name (ActorLambda.persist name from fs) this
        = Ok {| ActorLambda.super :=
                  {| Actor.initialized :=
                       Actor.initialized (ActorLambda.super this);
                     Actor.alpha_u := Actor.alpha_u (ActorLambda.super this);
                     Actor.policyDistribution :=
                       PolicyDistribution.set_parameters
                         (Actor.u (ActorLambda.super from))
                         (Actor.policyDistribution (ActorLambda.super this)) |};
                ActorLambda.gamma := ActorLambda.gamma this;
                ActorLambda.lambda := ActorLambda.lambda this;
                ActorLambda.e := ActorLambda.e this |})
  /\ (forall from this : ActorNatural.t V P,
        ActorNatural.resurrect name (ActorNatural.persist name from fs) this
        = Ok {| ActorNatural.super :=
                  {| Actor.initialized :=
                       Actor.initialized (ActorNatural.super this);
                     Actor.alpha_u := Actor.alpha_u (ActorNatural.super this);
                     Actor.policyDistribution :=
                       PolicyDistribution.set_parameters
                         (Actor.u (ActorNatural.super from))
                         (Actor.policyDistribution (ActorNatural.super this)) |};
                ActorNatural.w := ActorNatural.w this;
                ActorNatural.alpha_v := ActorNatural.alpha_v this |})
  /\ (forall from this : ActorCritic.t V SO (Actor.t P) O,
        let base := ActorCritic.super this in
        ActorCritic.resurrect name (ActorCritic.persist name from fs) this
        = Ok {| ActorCritic.super :=
                  {| AbstractActorCritic.critic :=
                       Predictor.set_weights
                         (Predictor.weights
                            (AbstractActorCritic.critic (ActorCritic.super from)))
                         (AbstractActorCritic.critic base);
                     AbstractActorCritic.actor :=
                       {| Actor.initialized :=
                            Actor.initialized (AbstractActorCritic.actor base);
                          Actor.alpha_u :=
                            Actor.alpha_u (AbstractActorCritic.actor base);
                          Actor.policyDistribution :=
                            PolicyDistribution.set_parameters
                              (Actor.u (AbstractActorCritic.actor
                                          (ActorCritic.super from)))
                              (Actor.policyDistribution
                                 (AbstractActorCritic.actor base)) |};
                     AbstractActorCritic.projector :=
                       AbstractActorCritic.projector base;
                     AbstractActorCritic.toStateAction :=
                       AbstractActorCritic.toStateAction base |};
                ActorCritic.phi_t := ActorCritic.phi_t this;
                ActorCritic.phi_tp1 := ActorCritic.phi_tp1 this |})
  /\ (forall from this : AverageRewardActorCritic.t V SO (Actor.t P) O,
        let base := AverageRewardActorCritic.super this in
        AverageRewardActorCritic.resurrect name
          (AverageRewardActorCritic.persist name from fs) this
        = Ok {| AverageRewardActorCritic.super :=
                  {| AbstractActorCritic.critic :=
                       Predictor.set_weights
                         (Predictor.weights
                            (AbstractActorCritic.critic
                               (AverageRewardActorCritic.super from)))
                         (AbstractActorCritic.critic base);
                     AbstractActorCritic.actor :=
                       {| Actor.initialized :=
                            Actor.initialized (AbstractActorCritic.actor base);
                          Actor.alpha_u :=
                            Actor.alpha_u (AbstractActorCritic.actor base);
                          Actor.policyDistribution :=
                            PolicyDistribution.set_parameters
                              (Actor.u (AbstractActorCritic.actor
                                          (AverageRewardActorCritic.super from)))
                              (Actor.policyDistribution
                                 (AbstractActorCritic.actor base)) |};
                     AbstractActorCritic.projector :=
                       AbstractActorCritic.projector base;
                     AbstractActorCritic.toStateAction :=
                       AbstractActorCritic.toStateAction base |};
                AverageRewardActorCritic.alpha_r :=
                  AverageRewardActorCritic.alpha_r this;
                AverageRewardActorCritic.averageReward :=
                  AverageRewardActorCritic.averageReward this;
                AverageRewardActorCritic.phi_t :=
                  AverageRewardActorCritic.phi_t this;
                AverageRewardActorCritic.phi_tp1 :=
                  AverageRewardActorCritic.phi_tp1 this |}).
Proof.
  repeat apply conj.
  - intros this. split; [reflexivity|]. intros from.
    unfold SarsaControl.resurrect, SarsaControl.persist, Predictor.resurrect,
      Predictor.persist, Files.read, Files.write.
    by rewrite lookup_insert_eq.
  - reflexivity.
  - intros this. split; [reflexivity|]. intros from.
    unfold GreedyGQ.resurrect, GreedyGQ.persist, Predictor.resurrect,
      Predictor.persist, Files.read, Files.write.
    by rewrite lookup_insert_eq.
  - reflexivity.
  - intros this. split; [reflexivity|]. intros from.
    unfold Actor.resurrect, Actor.persist, Files.read, Files.write.
    by rewrite lookup_insert_eq.
  - reflexivity.
  - reflexivity.
  - intros this. split; [reflexivity|]. intros from.
    unfold ActorLambdaOffPolicy.resurrect, ActorLambdaOffPolicy.persist,
      AbstractActorOffPolicy.resurrect, AbstractActorOffPolicy.persist,
      Files.read, Files.write.
    by rewrite lookup_insert_eq.
  - intros this u w.
    destruct (composite_files name w u fs) as (Hc & Ha & Hn).
    split; [reflexivity|]. split; [exact Hc|]. split; [exact Ha|].
    split; [exact Hn|]. intros to.
    unfold OffPAC.resurrect, Predictor.resurrect, Files.read.
    change (OffPAC.persist name this fs)
      with (Files.write (String.append name ".actor") u
              (Files.write (String.append name ".critic") w fs)).
    rewrite Hc. simpl.
    unfold ActorLambdaOffPolicy.resurrect, AbstractActorOffPolicy.resurrect,
      Files.read.
    by rewrite Ha.
  - reflexivity.
  - intros this u w.
    destruct (composite_files name w u fs) as (Hc & Ha & Hn).
    split; [exact Hc|]. split; [exact Ha|]. split; [exact Hn|]. intros to.
    unfold AbstractActorCritic.resurrect, Predictor.resurrect, Files.read.
    change (AbstractActorCritic.persist name this fs)
      with (Files.write (String.append name ".actor") u
              (Files.write (String.append name ".critic") w fs)).
    rewrite Hc. simpl. unfold Actor.resurrect, Files.read.
    by rewrite Ha.
  - reflexivity.
  - reflexivity.
  - intros from this.
    unfold ExpectedSarsaControl.resurrect, ExpectedSarsaControl.persist,
      SarsaControl.resurrect, SarsaControl.persist, Predictor.resurrect,
      Predictor.persist, Files.read, Files.write.
    by rewrite lookup_insert_eq.
  - intros from this.
    unfold GQOnPolicyControl.resurrect, GQOnPolicyControl.persist,
      GreedyGQ.resurrect, GreedyGQ.persist, Predictor.resurrect,
      Predictor.persist, Files.read, Files.write.
    by rewrite lookup_insert_eq.
  - intros from this.
    unfold ActorLambda.resurrect, ActorLambda.persist, Actor.resurrect,
      Actor.persist, Files.read, Files.write.
    by rewrite lookup_insert_eq.
  - intros from this.
    unfold ActorNatural.resurrect, ActorNatural.persist, Actor.resurrect,
      Actor.persist, Files.read, Files.write.
    by rewrite lookup_insert_eq.
  - intros from this base.
    destruct (composite_files name
                (Predictor.weights
                   (AbstractActorCritic.critic (ActorCritic.super from)))
                (Actor.u (AbstractActorCritic.actor (ActorCritic.super from)))
                fs) as (Hc & Ha & _).
    unfold ActorCritic.resurrect, AbstractActorCritic.resurrect,
      Predictor.resurrect, Files.read.
    change (ActorCritic.persist name from fs)
      with (Files.write (String.append name ".actor")
              (Actor.u (AbstractActorCritic.actor (ActorCritic.super from)))
              (Files.write (String.append name ".critic")
                 (Predictor.weights
                    (AbstractActorCritic.critic (ActorCritic.super from)))
                 fs)).
    rewrite Hc. simpl. unfold Actor.resurrect, Files.read.
    by rewrite Ha.
  - intros from this base.
    destruct (composite_files name
                (Predictor.weights
                   (AbstractActorCritic.critic
                      (AverageRewardActorCritic.super from)))
                (Actor.u (AbstractActorCritic.actor
                            (AverageRewardActorCritic.super from)))
                fs) as (Hc & Ha & _).
    unfold AverageRewardActorCritic.resurrect, AbstractActorCritic.resurrect,
      Predictor.resurrect, Files.read.
    change (AverageRewardActorCritic.persist name from fs)
      with (Files.write (String.append name ".actor")
              (Actor.u (AbstractActorCritic.actor
                          (AverageRewardActorCritic.super from)))
              (Files.write (String.append name ".critic")
                 (Predictor.weights
                    (AbstractActorCritic.critic
                       (AverageRewardActorCritic.super from)))
                 fs)).
    rewrite Hc. simpl. unfold Actor.resurrect, Files.read.
    by rewrite Ha.
Qed.

End Persistence.

(** *** Boundedness checks in the off-policy steps *)

Lemma bounded_false_iff (value : double) :
  Boundedness.bounded value = false
  <-> Double.isnan value = true \/ Double.isinf value = true.
Proof.
  unfold Boundedness.bounded.
  destruct (Double.isnan value), (Double.isinf value);
    simpl; intuition congruence.
Qed.

Lemma checkValue_rejects (value : double) :
  Boundedness.bounded value = false ->
  Boundedness.checkValue value = Abort Unbounded.
Proof. unfold Boundedness.checkValue. by intros ->. Qed.

Section OffPAC_step.
Context {V B P S A O : Type} `{Vector.Vector V} `{!Policy.Policy V B}
  `{!Policy.Policy V P} `{!Predictor.Predictor V S}
  `{!GTDLambda.GTDLambda V S} `{!ActorOffPolicy.ActorOffPolicy V P A}.

(** OffPAC::step checks the ratio before the critic sees it, and the TD
    error before the actor sees it. *)
Lemma OffPAC_step_checks
    (x_t : O) (a_t : Action) (x_tp1 : O) (r_tp1 z_tp1 : double)
    (this : OffPAC.t V B S A O) :
  let xas_t := StateToStateAction.stateActions (OffPAC.toStateAction this) x_t in
  let actor :=
    ActorOffPolicy.set_policy
      (Policy.update xas_t (ActorOffPolicy.policy (OffPAC.actor this)))
      (OffPAC.actor this) in
  let rho_t :=
    Double.div (ActorOffPolicy.pi actor a_t)
      (Policy.pi (Policy.update xas_t (OffPAC.behavior this)) a_t) in
  let delta_t :=
    fst (GTDLambda.update
           (Vector.set (Projector.project (OffPAC.projector this) x_t)
              (OffPAC.phi_t this))
           (Vector.set (Projector.project (OffPAC.projector this) x_tp1)
              (OffPAC.phi_tp1 this))
           rho_t (OffPAC.gamma_t this) r_tp1 z_tp1 (OffPAC.critic this)) in
  Boundedness.bounded rho_t = false \/ Boundedness.bounded delta_t = false ->
  OffPAC.step x_t a_t x_tp1 r_tp1 z_tp1 this = Abort Unbounded.
Proof.
  intros xas_t actor rho_t delta_t Hbad. unfold OffPAC.step.
  fold xas_t. fold actor. fold rho_t.
  unfold Boundedness.checkValue at 1.
  destruct (Boundedness.bounded rho_t) eqn:Erho; [|done]. simpl.
  destruct Hbad as [Hbad|Hbad]; [done|]. subst delta_t.
  destruct (GTDLambda.update _ _ _ _ _ _ _) as [delta critic]. simpl in *.
  by rewrite (checkValue_rejects _ Hbad).
Qed.

End OffPAC_step.

Section GreedyGQ_step.
Context {V P S O : Type} `{Vector.Vector V} `{!Policy.Policy V P}
  `{!Predictor.Predictor V S} `{!GQ.GQ V S}.

(** GreedyGQ::step hands whatever [computeRho] returned to the GQ
    predictor. *)
Lemma GreedyGQ_step_unchecked
    (x_t : O) (a_t : Action) (x_tp1 : O) (r_tp1 z_tp1 : double)
    (this : GreedyGQ.t V P S O) :
  let this' := snd (GreedyGQ.step x_t a_t x_tp1 r_tp1 z_tp1 this) in
  GreedyGQ.rho_t this' = GreedyGQ.computeRho this a_t
  /\ GreedyGQ.gq this'
     = snd (GQ.update (GreedyGQ.phi_t this) (GreedyGQ.phi_bar_tp1 this')
              (GreedyGQ.computeRho this a_t) r_tp1 z_tp1 (GreedyGQ.gq this)).
Proof.
  unfold GreedyGQ.step, GreedyGQ.step_with. simpl.
  destruct (GQ.update _ _ _ _ _ _) as [delta gq'] eqn:Eu.
  destruct (Policies.sampleAction _ _) as [a_tp1 b]. simpl.
  by rewrite Eu.
Qed.

End GreedyGQ_step.

(** C1.  The step of GreedyGQ has no boundedness check.  With a target and
    a behavior policy that both give probability 0 to the executed action,
    [computeRho] is 0/0 = NaN, a value [Boundedness::checkValue] rejects;
    the step of GreedyGQ returns all the same, with NaN as its [rho_t] and
    NaN in both weights of the GQ predictor.  The step of OffPAC, on the
    same policies and action, stops on its check of [rho_t]. *)
Theorem GreedyGQ_step_propagates_nan :
  let this' :=
    snd (GreedyGQ.step 1 Dense.a0 2 (Dense.d 1) (Dense.d 1) Dense.greedy_gq) in
  GreedyGQ.computeRho Dense.greedy_gq Dense.a0 = Double.nan
  /\ Boundedness.checkValue Double.nan = Abort Unbounded
  /\ GreedyGQ.rho_t this' = Double.nan
  /\ Predictor.weights (GreedyGQ.gq this') = [[Double.nan; Double.nan]]
  /\ OffPAC.step 1 Dense.a0 2 (Dense.d 1) (Dense.d 1) Dense.off_pac
     = Abort Unbounded.
Proof. vm_compute. repeat split. Qed.

(** *** Preconditions of the actors with traces *)

Section Actor_preconditions.
Context {V P E : Type} `{Vector.Vector V} `{!Policy.Policy V P}
  `{!PolicyDistribution.PolicyDistribution V P} `{!Trace.Trace V E}.

(** The constructor of ActorLambda stops on traces and parameters that
    differ in number. *)
Lemma ActorLambda_new_checks_dimension
    (alpha_u gamma lambda : double) (policyDistribution : P) (e : list E) :
  length e <> length (PolicyDistribution.parameters policyDistribution) ->
  ActorLambda.new alpha_u gamma lambda policyDistribution e
  = Abort AssertionFailed.
Proof.
  intros Hne. unfold ActorLambda.new, Traces.dimension, SparseVectors.dimension.
  apply Nat.eqb_neq in Hne. unfold Actor.u. simpl. by rewrite Hne.
Qed.

(** The constructor of ActorLambdaOffPolicy cannot stop: it stores the
    traces it is given next to the parameters of the policy, whatever their
    numbers. *)
Lemma ActorLambdaOffPolicy_new_any_dimension
    (alpha_u gamma_t lambda : double) (targetPolicy : P) (e : list E) :
  let this := ActorLambdaOffPolicy.new alpha_u gamma_t lambda targetPolicy e in
  ActorLambdaOffPolicy.e this = e
  /\ AbstractActorOffPolicy.u (ActorLambdaOffPolicy.super this)
     = PolicyDistribution.parameters targetPolicy.
Proof. split; reflexivity. Qed.

(** [update] on an actor that is not initialized stops on its assertion. *)
Lemma update_before_initialize
    (phi_t : Representations V) (a_t : Action) (rho_t gamma_t delta : double) :
  (forall this : ActorLambda.t P E,
     Actor.initialized (ActorLambda.super this) = false ->
     ActorLambda.update phi_t a_t delta this = Abort AssertionFailed)
  /\ (forall this : ActorLambdaOffPolicy.t P E,
        AbstractActorOffPolicy.initialized (ActorLambdaOffPolicy.super this) = false ->
        ActorLambdaOffPolicy.update phi_t a_t rho_t gamma_t delta this
        = Abort AssertionFailed).
Proof.
  split; intros this Hinit.
  - unfold ActorLambda.update. by rewrite Hinit.
  - unfold ActorLambdaOffPolicy.update. by rewrite Hinit.
Qed.

End Actor_preconditions.

(** C9.  With one trace for a policy of two parameter blocks, the
    constructor of ActorLambda stops on its assertion, and the constructor
    of ActorLambdaOffPolicy, which has no assertion, builds the actor.
    Once initialized, [update] on that actor returns as well: it moves the
    first parameter block and leaves the second at zero, whose gradient
    block is (1, 3). *)
Theorem ActorLambdaOffPolicy_new_accepts_mismatch :
  let e := [{| Dense.vector := [Dense.d 0; Dense.d 0] |}] in
  let phi_t := StateToStateAction.stateActions Dense.features 3 in
  let this :=
    ActorLambdaOffPolicy.new Dense.half (Dense.d 1) Dense.half
      Dense.two_blocks e in
  ActorLambda.new Dense.half (Dense.d 1) Dense.half Dense.two_blocks e
  = Abort AssertionFailed
  /\ Traces.dimension (ActorLambdaOffPolicy.e this) = 1
  /\ SparseVectors.dimension
       (AbstractActorOffPolicy.u (ActorLambdaOffPolicy.super this)) = 2
  /\ PolicyDistribution.computeGradLog phi_t Dense.a0 Dense.two_blocks
     = [[Dense.d 1; Dense.d 3]; [Dense.d 1; Dense.d 3]]
  /\ exists this',
       ActorLambdaOffPolicy.update phi_t Dense.a0 (Dense.d 1) (Dense.d 1)
         (Dense.d 1) (ActorLambdaOffPolicy.initialize this) = Ok this'
       /\ AbstractActorOffPolicy.u (ActorLambdaOffPolicy.super this')
          = [[Dense.half; Double.div (Dense.d 3) (Dense.d 2)];
             [Dense.d 0; Dense.d 0]].
Proof.
  simpl. repeat split; try (vm_compute; reflexivity).
  eexists. split; vm_compute; reflexivity.
Qed.

(** *** The theorems on the dense instance *)

Lemma ExpectedSarsaControl_step_expectation_witness :
  match ExpectedSarsaControl.step 1 Dense.a1 3 (Dense.d 1) (Dense.d 1)
          (Dense.expected_sarsa Dense.even_policy) with
  | Ok (a_tp1, this') =>
      a_tp1 = Dense.a0
      /\ ExpectedSarsaControl.phi_bar_tp1 this' = [Dense.half; Dense.d 2]
      /\ Predictor.weights (SarsaControl.sarsa (ExpectedSarsaControl.super this'))
         = [[Dense.d 1; Double.div (Dense.d 7) (Dense.d 2)]]
  | Abort _ => False
  end
  /\ ExpectedSarsaControl.step 1 Dense.a0 3 (Dense.d 1) (Dense.d 1)
       (Dense.expected_sarsa Dense.wrong_draw) = Abort AssertionFailed.
Proof.
  split.
  - rewrite (ExpectedSarsaControl_step_expectation 1 Dense.a1 3 (Dense.d 1)
               (Dense.d 1) (Dense.expected_sarsa Dense.even_policy))
      by (vm_compute; apply list_elem_of_here).
    vm_compute. repeat split.
  - rewrite (ExpectedSarsaControl_step_expectation 1 Dense.a0 3 (Dense.d 1)
               (Dense.d 1) (Dense.expected_sarsa Dense.wrong_draw))
      by (vm_compute; apply list_elem_of_further, list_elem_of_here).
    reflexivity.
Defined.

Lemma ExpectedSarsaControl_step_xa_t_witness :
  exists this',
    ExpectedSarsaControl.step 1 Dense.a1 3 (Dense.d 1) (Dense.d 1)
      (Dense.expected_sarsa Dense.even_policy) = Ok (Dense.a0, this')
    /\ SarsaControl.xa_t (ExpectedSarsaControl.super this')
       = [Dense.d 1; Dense.d 3]
    /\ StateToStateAction.stateActions Dense.features 3 Dense.a0
       = [Dense.d 1; Dense.d 3].
Proof.
  destruct (ExpectedSarsaControl_step_xa_t 1 Dense.a1 3 (Dense.d 1) (Dense.d 1)
              (Dense.expected_sarsa Dense.even_policy))
    as (this' & Hstep & Hxa & _); [vm_compute; reflexivity|].
  exists this'. split; [exact Hstep|]. split; [|vm_compute; reflexivity].
  rewrite Hxa. vm_compute. reflexivity.
Defined.

Lemma ActorLambdaOffPolicy_update_spec_witness :
  exists this',
    ActorLambdaOffPolicy.update
      (StateToStateAction.stateActions Dense.features 3) Dense.a0
      (Dense.d 2) (Dense.d 1) (Dense.d 1) Dense.off_actor = Ok this'
    /\ ActorLambdaOffPolicy.e this' !! 0
       = Some {| Dense.vector := [Dense.d 3; Dense.d 7] |}
    /\ AbstractActorOffPolicy.u (ActorLambdaOffPolicy.super this') !! 0
       = Some [Double.div (Dense.d 3) (Dense.d 2);
               Double.div (Dense.d 7) (Dense.d 2)].
Proof.
  destruct (ActorLambdaOffPolicy_update_spec
              (StateToStateAction.stateActions Dense.features 3) Dense.a0
              (Dense.d 2) (Dense.d 1) (Dense.d 1) Dense.off_actor)
    as (this' & Hupdate & Hblocks); [vm_compute; reflexivity ..|].
  edestruct (Hblocks 0) as (e_0 & He & -> & _ & Hu);
    [vm_compute; reflexivity ..|].
  exists this'. split; [exact Hupdate|]. split.
  - rewrite He. vm_compute. reflexivity.
  - rewrite Hu. vm_compute. reflexivity.
Defined.

Lemma ActorNatural_update_spec_witness :
  exists this',
    ActorNatural.update
      (StateToStateAction.stateActions Dense.features 3) Dense.a0
      (Dense.d 2) Dense.natural_actor = Ok this'
    /\ ActorNatural.w this' !! 0
       = Some [Double.div (Dense.d 3) (Dense.d 2);
               Double.div (Dense.d 3) (Dense.d 2)]
    /\ Actor.u (ActorNatural.super this') !! 0 = Some [Dense.d 3; Dense.d 3].
Proof.
  destruct (ActorNatural_update_spec
              (StateToStateAction.stateActions Dense.features 3) Dense.a0
              (Dense.d 2) Dense.natural_actor)
    as (this' & Hupdate & Hblocks); [vm_compute; reflexivity ..|].
  edestruct (Hblocks 0) as (Hw & Hu); [vm_compute; reflexivity ..|].
  exists this'. split; [exact Hupdate|]. split.
  - rewrite Hw. vm_compute. reflexivity.
  - rewrite Hu. vm_compute. reflexivity.
Defined.

(** ** Further properties of the learners *)

(** *** Loops that stop before the end of a container *)

(** What a loop establishes on its way holds at its end, when it ends. *)
Lemma for_loop_from_preserves {St : Type} (I : St -> Prop)
    (body : nat -> St -> result St) (n : nat) :
  (forall j s s', body j s = Ok s' -> I s -> I s') ->
  forall (i : nat) (s s' : St),
    for_loop_from i n body s = Ok s' -> I s -> I s'.
Proof.
  intros Hbody. induction n as [|n IH]; intros i s s' Hloop Hs; simpl in Hloop.
  - by injection Hloop as <-.
  - destruct (body i s) as [s1|f] eqn:E1; [|done]. simpl in Hloop.
    eapply IH; [exact Hloop|]. by eapply Hbody.
Qed.

(** A loop over the first blocks of a container, one for each block of
    [gs]: the blocks past the bound keep their content. *)
Lemma prefix_loop {A G : Type} (f : A -> G -> A) (gs : list G)
    (body : nat -> list A -> result (list A)) (a0 : list A) :
  (forall i a,
     body i a = (ai <- at_ a i ;; g <- at_ gs i ;; Ok (<[i := f ai g]> a))) ->
  length gs <= length a0 ->
  for_loop (length gs) body a0
  = Ok (zip_with f a0 gs ++ drop (length gs) a0).
Proof.
  intros Hbody Hg.
  set (a1 := zip_with f a0 gs ++ drop (length gs) a0).
  assert (Hz : length (zip_with f a0 gs) = length gs)
    by (rewrite length_zip_with; lia).
  assert (Ha1 : length a1 = length a0)
    by (unfold a1; rewrite length_app, Hz, length_drop; lia).
  destruct (for_loop_invariant (fun k s => s = done_upto k a1 a0)
              body (length gs) a0) as (s & Es & Is).
  - by rewrite done_upto_0.
  - intros j s Hj ->.
    destruct (lookup_lt_is_Some_2 a0 j) as [aj Haj]; [lia|].
    destruct (lookup_lt_is_Some_2 gs j) as [g Hgj]; [lia|].
    assert (Ha1j : a1 !! j = Some (f aj g)).
    { unfold a1. rewrite lookup_app_l by lia.
      by rewrite lookup_zip_with, Haj, Hgj. }
    eexists. split; [|reflexivity].
    rewrite Hbody.
    rewrite (at_Some _ _ _ (eq_trans
               (done_upto_lookup_old j a1 a0 Ha1 ltac:(lia)) Haj)).
    simpl. rewrite (at_Some _ _ _ Hgj). simpl.
    by rewrite (done_upto_insert _ _ _ _ Ha1 Ha1j).
  - rewrite Es, Is. unfold done_upto, a1. f_equal.
    rewrite take_app_le by lia. f_equal. apply take_ge. lia.
Qed.

(** The loop of [block_loop] when the second container has more blocks
    than the first: its blocks past the bound keep their content. *)
Lemma block_loop_prefix {A B G : Type} (f : A -> G -> A) (h : B -> A -> B)
    (gs : list G) (body : nat -> list A * list B -> result (list A * list B))
    (a0 : list A) (b0 : list B) :
  (forall i a b,
     body i (a, b)
     = (ai <- at_ a i ;;
        g <- at_ gs i ;;
        bi <- at_ b i ;;
        Ok (<[i := f ai g]> a, <[i := h bi (f ai g)]> b))) ->
  length a0 <= length gs -> length a0 <= length b0 ->
  for_loop (length a0) body (a0, b0)
  = Ok (zip_with f a0 gs,
        zip_with h b0 (zip_with f a0 gs) ++ drop (length a0) b0).
Proof.
  intros Hbody Hg Hb.
  set (a1 := zip_with f a0 gs).
  set (b1 := zip_with h b0 a1 ++ drop (length a0) b0).
  assert (Ha1 : length a1 = length a0)
    by (unfold a1; rewrite length_zip_with; lia).
  assert (Hz : length (zip_with h b0 a1) = length a0)
    by (rewrite length_zip_with; lia).
  assert (Hb1 : length b1 = length b0)
    by (unfold b1; rewrite length_app, Hz, length_drop; lia).
  destruct (for_loop_invariant
              (fun k s => s = (done_upto k a1 a0, done_upto k b1 b0))
              body (length a0) (a0, b0)) as (s & Es & Is).
  - by rewrite !done_upto_0.
  - intros j s Hj ->.
    destruct (lookup_lt_is_Some_2 a0 j) as [aj Haj]; [lia|].
    destruct (lookup_lt_is_Some_2 gs j) as [g Hgj]; [lia|].
    destruct (lookup_lt_is_Some_2 b0 j) as [bj Hbj]; [lia|].
    assert (Ha1j : a1 !! j = Some (f aj g))
      by (unfold a1; rewrite lookup_zip_with, Haj, Hgj; done).
    assert (Hb1j : b1 !! j = Some (h bj (f aj g))).
    { unfold b1. rewrite lookup_app_l by lia.
      by rewrite lookup_zip_with, Hbj, Ha1j. }
    eexists. split; [|reflexivity].
    rewrite Hbody.
    rewrite (at_Some _ _ _ (eq_trans (done_upto_lookup_old j a1 a0 Ha1 Hj) Haj)).
    simpl. rewrite (at_Some _ _ _ Hgj). simpl.
    rewrite (at_Some (done_upto j b1 b0) j bj); simpl.
    + by rewrite (done_upto_insert _ _ _ _ Ha1 Ha1j),
                 (done_upto_insert _ _ _ _ Hb1 Hb1j).
    + rewrite done_upto_lookup_old; [done | done | lia].
  - rewrite Es, Is. rewrite (done_upto_all _ _ Ha1).
    unfold done_upto, b1.
    rewrite take_app_le by lia. by rewrite take_ge by lia.
Qed.

(** *** Updates of the actors *)

Section Actor_updates.
Context {V P E : Type} `{Vector.Vector V} `{!Policy.Policy V P}
  `{!PolicyDistribution.PolicyDistribution V P} `{!Trace.Trace V E}.

Lemma Actor_u_set_u (u : list V) (this : Actor.t P) :
  Actor.u (Actor.set_u u this) = u.
Proof. apply PolicyDistribution.parameters_set. Qed.

Lemma AbstractActorOffPolicy_u_set_u (u : list V)
    (this : AbstractActorOffPolicy.t P) :
  AbstractActorOffPolicy.u (AbstractActorOffPolicy.set_u u this) = u.
Proof. apply PolicyDistribution.parameters_set. Qed.

(** The blocks of a container rewritten up to the end of [gs]. *)
Lemma prefix_rewritten_lookup {A G : Type} (f : A -> G -> A) (a : list A)
    (gs : list G) (i : nat) (a_i : A) (g_i : G) :
  length gs <= length a ->
  a !! i = Some a_i -> gs !! i = Some g_i ->
  (zip_with f a gs ++ drop (length gs) a) !! i = Some (f a_i g_i).
Proof.
  intros Hlen Ha Hg.
  assert (i < length gs) by (by eapply lookup_lt_Some).
  rewrite lookup_app_l by (rewrite length_zip_with; lia).
  by rewrite lookup_zip_with, Ha, Hg.
Qed.

Lemma Actor_update_returns
    (phi_t : Representations V) (a_t : Action) (delta : double)
    (this : Actor.t P) :
  let gradLog :=
    PolicyDistribution.computeGradLog phi_t a_t (Actor.policyDistribution this) in
  Actor.initialized this = true ->
  length gradLog <= length (Actor.u this) ->
  Actor.update phi_t a_t delta this
  = Ok (Actor.set_u
          (zip_with
             (fun u_i g =>
                Vector.addToSelf (Double.mul (Actor.alpha_u this) delta) g u_i)
             (Actor.u this) gradLog
           ++ drop (length gradLog) (Actor.u this))
          this).
Proof.
  intros gradLog Hinit Hlen.
  unfold Actor.update. rewrite Hinit. simpl. fold gradLog.
  unfold SparseVectors.dimension.
  rewrite (prefix_loop
             (fun u_i g => Vector.addToSelf
                             (Double.mul (Actor.alpha_u this) delta) g u_i)
             gradLog _ (Actor.u this)); [done| |done].
  intros i u. unfold Actor.update_body. done.
Qed.

(** Actor::update.  On an initialized actor whose policy has at least as
    many parameter blocks as the gradient has blocks, [update] returns;
    every block [i] that has a gradient block becomes
    [u_i + alpha_u * delta * gradLog_i], the blocks past the gradient keep
    their content, and the actor stays initialized. *)
Theorem Actor_update_spec
    (phi_t : Representations V) (a_t : Action) (delta : double)
    (this : Actor.t P) :
  let gradLog :=
    PolicyDistribution.computeGradLog phi_t a_t (Actor.policyDistribution this) in
  Actor.initialized this = true ->
  length gradLog <= length (Actor.u this) ->
  exists this' : Actor.t P,
    Actor.update phi_t a_t delta this = Ok this'
    /\ Actor.initialized this' = true
    /\ length (Actor.u this') = length (Actor.u this)
    /\ (forall (i : nat) (u_i gradLog_i : V),
          Actor.u this !! i = Some u_i ->
          gradLog !! i = Some gradLog_i ->
          Actor.u this' !! i
          = Some (Vector.addToSelf (Double.mul (Actor.alpha_u this) delta)
                    gradLog_i u_i))
    /\ (forall i : nat,
          length gradLog <= i -> Actor.u this' !! i = Actor.u this !! i).
Proof.
  intros gradLog Hinit Hlen.
  rewrite Actor_update_returns by done. fold gradLog.
  eexists. split; [reflexivity|].
  rewrite Actor_u_set_u.
  split; [done|]. split; [|split].
  - rewrite length_app, length_zip_with, length_drop. lia.
  - intros i u_i g Hu Hg.
    by apply (prefix_rewritten_lookup
                (fun u_i g =>
                   Vector.addToSelf (Double.mul (Actor.alpha_u this) delta) g u_i)).
  - intros i Hi.
    rewrite lookup_app_r by (rewrite length_zip_with; lia).
    rewrite length_zip_with, lookup_drop. f_equal. lia.
Qed.

(** ActorLambda::update.  On an initialized actor whose traces, parameter
    blocks and gradient blocks agree in number, [update] returns; every
    trace [i] is updated with the factor [gamma * lambda] (the members) and
    the gradient block, and every parameter block becomes
    [u_i + alpha_u * delta * e_i] for the new trace. *)
Theorem ActorLambda_update_spec
    (phi_t : Representations V) (a_t : Action) (delta : double)
    (this : ActorLambda.t P E) :
  let gradLog :=
    PolicyDistribution.computeGradLog phi_t a_t
      (Actor.policy (ActorLambda.super this)) in
  Actor.initialized (ActorLambda.super this) = true ->
  length (ActorLambda.e this) = length (Actor.u (ActorLambda.super this)) ->
  length gradLog = length (Actor.u (ActorLambda.super this)) ->
  exists this' : ActorLambda.t P E,
    ActorLambda.update phi_t a_t delta this = Ok this'
    /\ forall (i : nat) (e_i : E) (gradLog_i u_i : V),
         ActorLambda.e this !! i = Some e_i ->
         gradLog !! i = Some gradLog_i ->
         Actor.u (ActorLambda.super this) !! i = Some u_i ->
         let e_i' :=
           Trace.update
             (Double.mul (ActorLambda.gamma this) (ActorLambda.lambda this))
             gradLog_i e_i in
         ActorLambda.e this' !! i = Some e_i'
         /\ Trace.vect e_i'
            = Vector.addVectorToSelf gradLog_i
                (Vector.mapMultiplyToSelf
                   (Double.mul (ActorLambda.gamma this) (ActorLambda.lambda this))
                   (Trace.vect e_i))
         /\ Actor.u (ActorLambda.super this') !! i
            = Some (Vector.addToSelf
                      (Double.mul (Actor.alpha_u (ActorLambda.super this)) delta)
                      (Trace.vect e_i') u_i).
Proof.
  intros gradLog He Hu Hg.
  unfold ActorLambda.update. rewrite He. simpl. fold gradLog.
  unfold SparseVectors.dimension. rewrite <- Hu.
  rewrite (block_loop
             (fun e_i g =>
                Trace.update
                  (Double.mul (ActorLambda.gamma this) (ActorLambda.lambda this))
                  g e_i)
             (fun u_i e_i =>
                Vector.addToSelf
                  (Double.mul (Actor.alpha_u (ActorLambda.super this)) delta)
                  (Trace.vect e_i) u_i)
             gradLog _ (ActorLambda.e this) (Actor.u (ActorLambda.super this)));
    [| |lia|lia].
  - simpl. eexists. split; [reflexivity|].
    intros i e_i g u_i Hei Hgi Hui. simpl. split; [|split].
    + by rewrite lookup_zip_with, Hei, Hgi.
    + apply Trace.vect_update.
    + rewrite Actor_u_set_u.
      by rewrite lookup_zip_with, Hui, lookup_zip_with, Hei, Hgi.
  - intros i e u. unfold ActorLambda.update_body.
    destruct (at_ e i); [|done]. simpl. destruct (at_ gradLog i); done.
Qed.

(** ActorLambdaOffPolicy::update with fewer traces than parameter blocks.
    The loop runs over the traces: on an initialized actor with no more
    traces than parameter blocks and gradient blocks, [update] returns, the
    blocks that have a trace move along it, and the parameter blocks past
    the last trace keep their content, whatever their gradient. *)
Theorem ActorLambdaOffPolicy_update_fewer_traces
    (phi_t : Representations V) (a_t : Action)
    (rho_t gamma_t delta_t : double) (this : ActorLambdaOffPolicy.t P E) :
  let base := ActorLambdaOffPolicy.super this in
  let gradLog :=
    PolicyDistribution.computeGradLog phi_t a_t
      (AbstractActorOffPolicy.targetPolicy base) in
  AbstractActorOffPolicy.initialized base = true ->
  length (ActorLambdaOffPolicy.e this) <= length (AbstractActorOffPolicy.u base) ->
  length (ActorLambdaOffPolicy.e this) <= length gradLog ->
  exists this' : ActorLambdaOffPolicy.t P E,
    ActorLambdaOffPolicy.update phi_t a_t rho_t gamma_t delta_t this = Ok this'
    /\ length (AbstractActorOffPolicy.u (ActorLambdaOffPolicy.super this'))
       = length (AbstractActorOffPolicy.u base)
    /\ (forall (i : nat) (e_i : E) (gradLog_i u_i : V),
          ActorLambdaOffPolicy.e this !! i = Some e_i ->
          gradLog !! i = Some gradLog_i ->
          AbstractActorOffPolicy.u base !! i = Some u_i ->
          AbstractActorOffPolicy.u (ActorLambdaOffPolicy.super this') !! i
          = Some (Vector.addToSelf
                    (Double.mul (ActorLambdaOffPolicy.alpha_u this) delta_t)
                    (Trace.vect
                       (Trace.multiplyToSelf rho_t
                          (Trace.update
                             (Double.mul gamma_t (ActorLambdaOffPolicy.lambda this))
                             gradLog_i e_i)))
                    u_i))
    /\ (forall i : nat,
          length (ActorLambdaOffPolicy.e this) <= i ->
          AbstractActorOffPolicy.u (ActorLambdaOffPolicy.super this') !! i
          = AbstractActorOffPolicy.u base !! i).
Proof.
  intros base gradLog Hinit Hu Hg.
  unfold ActorLambdaOffPolicy.update. fold base. rewrite Hinit. simpl.
  fold gradLog. unfold Traces.dimension.
  rewrite (block_loop_prefix
             (fun e_i g =>
                Trace.multiplyToSelf rho_t
                  (Trace.update
                     (Double.mul gamma_t (ActorLambdaOffPolicy.lambda this)) g e_i))
             (fun u_i e_i =>
                Vector.addToSelf
                  (Double.mul (ActorLambdaOffPolicy.alpha_u this) delta_t)
                  (Trace.vect e_i) u_i)
             gradLog _ (ActorLambdaOffPolicy.e this)
             (AbstractActorOffPolicy.u base)); [| |done|done].
  - simpl. eexists. split; [reflexivity|]. simpl.
    rewrite AbstractActorOffPolicy_u_set_u.
    assert (Hz : length (zip_with
                   (fun u_i e_i =>
                      Vector.addToSelf
                        (Double.mul (ActorLambdaOffPolicy.alpha_u this) delta_t)
                        (Trace.vect e_i) u_i)
                   (AbstractActorOffPolicy.u base)
                   (zip_with
                      (fun e_i g =>
                         Trace.multiplyToSelf rho_t
                           (Trace.update
                              (Double.mul gamma_t (ActorLambdaOffPolicy.lambda this))
                              g e_i))
                      (ActorLambdaOffPolicy.e this) gradLog))
                 = length (ActorLambdaOffPolicy.e this))
      by (rewrite !length_zip_with; lia).
    split; [|split].
    + rewrite length_app, Hz, length_drop. lia.
    + intros i e_i g u_i Hei Hgi Hui.
      assert (i < length (ActorLambdaOffPolicy.e this))
        by (by eapply lookup_lt_Some).
      rewrite lookup_app_l by lia.
      by rewrite lookup_zip_with, Hui, lookup_zip_with, Hei, Hgi.
    + intros i Hi. rewrite lookup_app_r by lia.
      rewrite Hz, lookup_drop. f_equal. lia.
  - intros i e u. unfold ActorLambdaOffPolicy.update_body.
    destruct (at_ e i); [|done]. simpl. destruct (at_ gradLog i); done.
Qed.

End Actor_updates.

(** *** Invariants and life cycle of the actors *)

Section Actor_invariants.
Context {V P E : Type} `{Vector.Vector V} `{!Policy.Policy V P}
  `{!PolicyDistribution.PolicyDistribution V P} `{!Trace.Trace V E}.

Lemma SparseVectors_clear_zero (vs : list V) :
  Forall (fun v_i => forall j, Vector.getEntry v_i j = Double.zero)
    (SparseVectors.clear vs)
  /\ length (SparseVectors.clear vs) = length vs.
Proof.
  unfold SparseVectors.clear. split; [|apply length_fmap].
  apply Forall_fmap, Forall_forall. intros v_i _ j. apply Vector.clear_entries.
Qed.

(** A loop that only rewrites blocks in place keeps the numbers of
    blocks. *)
Lemma block_bodies_keep_lengths {A B : Type}
    (body : nat -> list A * list B -> result (list A * list B))
    (n : nat) (a0 : list A) (b0 : list B) (s' : list A * list B) :
  (forall i a b s,
     body i (a, b) = Ok s ->
     length (fst s) = length a /\ length (snd s) = length b) ->
  for_loop n body (a0, b0) = Ok s' ->
  length (fst s') = length a0 /\ length (snd s') = length b0.
Proof.
  intros Hbody Hloop.
  apply (for_loop_from_preserves
           (fun s => length (fst s) = length a0 /\ length (snd s) = length b0)
           body n) with (i := 0) (s := (a0, b0)); [|exact Hloop|done].
  intros j [a b] s1 Hs1 [Ha Hb]. simpl in *.
  destruct (Hbody j a b s1 Hs1) as [Ha1 Hb1]. lia.
Qed.

(** The invariant of ActorLambda: as many traces as parameter blocks.  The
    constructor returns exactly when its arguments satisfy it; initialize,
    reset and every update that returns keep it. *)
Theorem ActorLambda_dimension_invariant :
  (forall (alpha_u gamma lambda : double) (policyDistribution : P) (e : list E),
     (length e = length (PolicyDistribution.parameters policyDistribution)
      -> exists this,
           ActorLambda.new alpha_u gamma lambda policyDistribution e = Ok this)
     /\ (forall this,
           ActorLambda.new alpha_u gamma lambda policyDistribution e = Ok this ->
           length (ActorLambda.e this)
           = length (Actor.u (ActorLambda.super this))))
  /\ (forall this : ActorLambda.t P E,
        length (ActorLambda.e this) = length (Actor.u (ActorLambda.super this)) ->
        length (ActorLambda.e (ActorLambda.initialize this))
        = length (Actor.u (ActorLambda.super (ActorLambda.initialize this)))
        /\ length (ActorLambda.e (ActorLambda.reset this))
           = length (Actor.u (ActorLambda.super (ActorLambda.reset this))))
  /\ (forall (phi_t : Representations V) (a_t : Action) (delta : double)
             (this this' : ActorLambda.t P E),
        length (ActorLambda.e this) = length (Actor.u (ActorLambda.super this)) ->
        ActorLambda.update phi_t a_t delta this = Ok this' ->
        length (ActorLambda.e this')
        = length (Actor.u (ActorLambda.super this'))).
Proof.
  repeat apply conj.
  - intros alpha_u gamma lambda pd e. split.
    + intros Hlen. unfold ActorLambda.new, Traces.dimension,
        SparseVectors.dimension, Actor.u. simpl.
      apply Nat.eqb_eq in Hlen. rewrite Hlen. simpl. by eexists.
    + intros this. unfold ActorLambda.new, Traces.dimension,
        SparseVectors.dimension.
      destruct (Nat.eqb _ _) eqn:Eq; simpl; [|done].
      intros Hnew. injection Hnew as <-. simpl. by apply Nat.eqb_eq.
  - intros this Hwf. simpl. unfold Traces.clear. rewrite !length_fmap.
    split; [done|].
    unfold Actor.reset, Actor.u. simpl.
    rewrite PolicyDistribution.parameters_set.
    by rewrite (proj2 (SparseVectors_clear_zero _)).
  - intros phi_t a_t delta this this' Hwf. unfold ActorLambda.update.
    destruct (Actor.initialized (ActorLambda.super this)); simpl; [|done].
    destruct (for_loop _ _ _) as [[e' u']|f] eqn:Eloop; simpl; [|done].
    intros Hok. injection Hok as <-. simpl. rewrite Actor_u_set_u.
    apply block_bodies_keep_lengths in Eloop as [He Hu]; simpl in *; [lia|].
    intros i e u s. unfold ActorLambda.update_body.
    destruct (at_ e i); simpl; [|done].
    destruct (at_ _ i); simpl; [|done].
    destruct (at_ u i); simpl; [|done].
    intros Hs. injection Hs as <-. simpl. by rewrite !length_insert.
Qed.

(** The invariant of ActorNatural: as many blocks of advantage weights [w]
    as parameter blocks.  The constructor establishes it; initialize, reset
    and every update that returns keep it. *)
Theorem ActorNatural_dimension_invariant :
  (forall (alpha_u alpha_v : double) (policyDistribution : P),
     length (ActorNatural.w (ActorNatural.new alpha_u alpha_v policyDistribution))
     = length (Actor.u (ActorNatural.super
                          (ActorNatural.new alpha_u alpha_v policyDistribution))))
  /\ (forall this : ActorNatural.t V P,
        length (ActorNatural.w this) = length (Actor.u (ActorNatural.super this)) ->
        length (ActorNatural.w (ActorNatural.initialize this))
        = length (Actor.u (ActorNatural.super (ActorNatural.initialize this)))
        /\ length (ActorNatural.w (ActorNatural.reset this))
           = length (Actor.u (ActorNatural.super (ActorNatural.reset this))))
  /\ (forall (phi_t : Representations V) (a_t : Action) (delta : double)
             (this this' : ActorNatural.t V P),
        length (ActorNatural.w this) = length (Actor.u (ActorNatural.super this)) ->
        ActorNatural.update phi_t a_t delta this = Ok this' ->
        length (ActorNatural.w this')
        = length (Actor.u (ActorNatural.super this'))).
Proof.
  repeat apply conj.
  - intros alpha_u alpha_v pd. simpl. apply length_fmap.
  - intros this Hwf. simpl. split; [done|].
    unfold Actor.reset, Actor.u. simpl.
    rewrite PolicyDistribution.parameters_set.
    by rewrite !(proj2 (SparseVectors_clear_zero _)).
  - intros phi_t a_t delta this this' Hwf. unfold ActorNatural.update.
    destruct (Actor.initialized (ActorNatural.super this)); simpl; [|done].
    destruct (for_loop _ (ActorNatural.advantage_body _ _) _)
      as [advantage|f]; simpl; [|done].
    destruct (for_loop _ _ _) as [[w' u']|f] eqn:Eloop; simpl; [|done].
    intros Hok. injection Hok as <-. simpl. rewrite Actor_u_set_u.
    apply block_bodies_keep_lengths in Eloop as [Hw Hu]; simpl in *; [lia|].
    intros i w u s. unfold ActorNatural.update_body.
    destruct (at_ w i); simpl; [|done].
    destruct (at_ _ i); simpl; [|done].
    destruct (at_ u i); simpl; [|done].
    intros Hs. injection Hs as <-. simpl. by rewrite !length_insert.
Qed.

(** An actor takes updates only between initialize and reset: [update] on a
    fresh actor and [update] after [reset] stop on the assertion, for each
    of the four actors (constructing an ActorLambda and updating it stops on
    an assertion whatever the arguments: the constructor's, or that of
    [update]), and [initialize] sets the flag the assertion reads and
    changes nothing else but the traces, which it clears: parameters,
    advantage weights and step sizes stay. *)
Theorem update_only_between_initialize_and_reset
    (phi_t : Representations V) (a_t : Action) (rho_t gamma_t delta : double) :
  (forall (this : Actor.t P) (alpha_u : double) (policyDistribution : P),
     Actor.update phi_t a_t delta (Actor.reset this) = Abort AssertionFailed
     /\ Actor.update phi_t a_t delta (Actor.new alpha_u policyDistribution)
        = Abort AssertionFailed
     /\ Actor.initialized (Actor.initialize this) = true
     /\ Actor.u (Actor.initialize this) = Actor.u this
     /\ Actor.initialize this
        = {| Actor.initialized := true;
             Actor.alpha_u := Actor.alpha_u this;
             Actor.policyDistribution := Actor.policyDistribution this |})
  /\ (forall (this : ActorLambda.t P E) (alpha_u gamma lambda : double)
             (policyDistribution : P) (e : list E),
        ActorLambda.update phi_t a_t delta (ActorLambda.reset this)
        = Abort AssertionFailed
        /\ (this0 <- ActorLambda.new alpha_u gamma lambda policyDistribution e ;;
            ActorLambda.update phi_t a_t delta this0)
           = Abort AssertionFailed
        /\ ActorLambda.new alpha_u gamma lambda policyDistribution e
           = (if Nat.eqb (length e)
                   (length (PolicyDistribution.parameters policyDistribution))
              then Ok {| ActorLambda.super :=
                           {| Actor.initialized := false;
                              Actor.alpha_u := alpha_u;
                              Actor.policyDistribution := policyDistribution |};
                         ActorLambda.gamma := gamma;
                         ActorLambda.lambda := lambda;
                         ActorLambda.e := e |}
              else Abort AssertionFailed)
        /\ Actor.initialized (ActorLambda.super (ActorLambda.initialize this))
           = true
        /\ Actor.u (ActorLambda.super (ActorLambda.initialize this))
           = Actor.u (ActorLambda.super this)
        /\ ActorLambda.initialize this
           = {| ActorLambda.super :=
                  {| Actor.initialized := true;
                     Actor.alpha_u := Actor.alpha_u (ActorLambda.super this);
                     Actor.policyDistribution :=
                       Actor.policyDistribution (ActorLambda.super this) |};
                ActorLambda.gamma := ActorLambda.gamma this;
                ActorLambda.lambda := ActorLambda.lambda this;
                ActorLambda.e := Traces.clear (ActorLambda.e this) |})
  /\ (forall (this : ActorNatural.t V P) (alpha_u alpha_v : double)
             (policyDistribution : P),
        ActorNatural.update phi_t a_t delta (ActorNatural.reset this)
        = Abort AssertionFailed
        /\ ActorNatural.update phi_t a_t delta
             (ActorNatural.new alpha_u alpha_v policyDistribution)
           = Abort AssertionFailed
        /\ Actor.initialized (ActorNatural.super (ActorNatural.initialize this))
           = true
        /\ ActorNatural.w (ActorNatural.initialize this) = ActorNatural.w this
        /\ Actor.u (ActorNatural.super (ActorNatural.initialize this))
           = Actor.u (ActorNatural.super this)
        /\ ActorNatural.initialize this
           = {| ActorNatural.super :=
                  {| Actor.initialized := true;
                     Actor.alpha_u := Actor.alpha_u (ActorNatural.super this);
                     Actor.policyDistribution :=
                       Actor.policyDistribution (ActorNatural.super this) |};
                ActorNatural.w := ActorNatural.w this;
                ActorNatural.alpha_v := ActorNatural.alpha_v this |})
  /\ (forall (this : ActorLambdaOffPolicy.t P E) (alpha_u lambda : double)
             (targetPolicy : P) (e : list E),
        ActorLambdaOffPolicy.update phi_t a_t rho_t gamma_t delta
          (ActorLambdaOffPolicy.reset this) = Abort AssertionFailed
        /\ ActorLambdaOffPolicy.update phi_t a_t rho_t gamma_t delta
             (ActorLambdaOffPolicy.new alpha_u gamma_t lambda targetPolicy e)
           = Abort AssertionFailed
        /\ AbstractActorOffPolicy.initialized
             (ActorLambdaOffPolicy.super (ActorLambdaOffPolicy.initialize this))
           = true
        /\ AbstractActorOffPolicy.u
             (ActorLambdaOffPolicy.super (ActorLambdaOffPolicy.initialize this))
           = AbstractActorOffPolicy.u (ActorLambdaOffPolicy.super this)
        /\ ActorLambdaOffPolicy.initialize this
           = {| ActorLambdaOffPolicy.super :=
                  {| AbstractActorOffPolicy.initialized := true;
                     AbstractActorOffPolicy.targetPolicy :=
                       AbstractActorOffPolicy.targetPolicy
                         (ActorLambdaOffPolicy.super this) |};
                ActorLambdaOffPolicy.alpha_u := ActorLambdaOffPolicy.alpha_u this;
                ActorLambdaOffPolicy.gamma_t := ActorLambdaOffPolicy.gamma_t this;
                ActorLambdaOffPolicy.lambda := ActorLambdaOffPolicy.lambda this;
                ActorLambdaOffPolicy.e :=
                  Traces.clear (ActorLambdaOffPolicy.e this) |}).
Proof.
  repeat apply conj; intros; repeat split; try reflexivity.
  - unfold ActorLambda.new, Traces.dimension, SparseVectors.dimension, Actor.u.
    simpl. by destruct (Nat.eqb _ _).
  - unfold ActorLambda.new, Traces.dimension, SparseVectors.dimension, Actor.u.
    simpl. by destruct (Nat.eqb _ _).
Qed.

(** [reset] zeroes what the actor has learned: after it every entry of
    every parameter block of the policy is [+0.0], and so is every entry of
    the advantage weights of an ActorNatural; the numbers of blocks are
    unchanged. *)
Theorem reset_zeroes_parameters :
  let all_zero (vs : list V) :=
    Forall (fun v_i => forall j, Vector.getEntry v_i j = Double.zero) vs in
  (forall this : Actor.t P,
     all_zero (PolicyDistribution.parameters (Actor.policy (Actor.reset this)))
     /\ length (Actor.u (Actor.reset this)) = length (Actor.u this))
  /\ (forall this : ActorLambda.t P E,
        all_zero (PolicyDistribution.parameters
                    (ActorLambda.policy (ActorLambda.reset this)))
        /\ length (Actor.u (ActorLambda.super (ActorLambda.reset this)))
           = length (Actor.u (ActorLambda.super this)))
  /\ (forall this : ActorNatural.t V P,
        all_zero (PolicyDistribution.parameters
                    (ActorNatural.policy (ActorNatural.reset this)))
        /\ all_zero (ActorNatural.w (ActorNatural.reset this))
        /\ length (Actor.u (ActorNatural.super (ActorNatural.reset this)))
           = length (Actor.u (ActorNatural.super this))
        /\ length (ActorNatural.w (ActorNatural.reset this))
           = length (ActorNatural.w this))
  /\ (forall this : ActorLambdaOffPolicy.t P E,
        all_zero (PolicyDistribution.parameters
                    (AbstractActorOffPolicy.policy
                       (ActorLambdaOffPolicy.super
                          (ActorLambdaOffPolicy.reset this))))
        /\ length (AbstractActorOffPolicy.u
                     (ActorLambdaOffPolicy.super (ActorLambdaOffPolicy.reset this)))
           = length (AbstractActorOffPolicy.u (ActorLambdaOffPolicy.super this))).
Proof.
  simpl. repeat apply conj; intros this;
    unfold ActorLambda.policy, ActorNatural.policy, Actor.policy,
      AbstractActorOffPolicy.policy, Actor.u, AbstractActorOffPolicy.u;
    simpl; unfold Actor.u, AbstractActorOffPolicy.u;
    rewrite ?PolicyDistribution.parameters_set;
    repeat split; apply SparseVectors_clear_zero.
Qed.

End Actor_invariants.

(** *** Steps of the Sarsa and GreedyGQ learners *)

Section Control_steps.
Context {V P O : Type} `{Vector.Vector V} `{!Policy.Policy V P}.
Context {SS : Type} `{!Predictor.Predictor V SS} `{!Sarsa.Sarsa V SS}.
Context {SG : Type} `{!Predictor.Predictor V SG} `{!GQ.GQ V SG}.

Lemma GreedyGQ_expectation_fold (target : P) (xas_tp1 : Representations V)
    (actions : ActionList) :
  forall phi_bar_tp1,
    GreedyGQ.expectation target xas_tp1 actions phi_bar_tp1
    = fold_left
        (fun sum a => Vector.addToSelf (Policy.pi target a) (xas_tp1 a) sum)
        (List.filter
           (fun a => negb (Double.eqb (Policy.pi target a) Double.zero))
           actions)
        phi_bar_tp1.
Proof.
  induction actions as [|a rest IH]; intros phi_bar; [done|]. simpl.
  destruct (Double.eqb (Policy.pi target a) Double.zero); simpl; apply IH.
Qed.

(** GreedyGQ::step.  The vector handed to the GQ predictor as the
    next-state target is the sum, from the cleared [phi_bar_tp1], of
    [pi(a) * xas_tp1(a)] over the actions of the list whose probability
    under the target policy, refreshed at the next state, is not zero; the
    predictor gets it with the cached [phi_t], the ratio of [computeRho],
    the reward and [z_tp1]; and [phi_t] then holds, entry for entry, the
    features of the action the step returns. *)
Theorem GreedyGQ_step_spec
    (x_t : O) (a_t : Action) (x_tp1 : O) (r_tp1 z_tp1 : double)
    (this : GreedyGQ.t V P SG O) :
  let xas_tp1 :=
    StateToStateAction.stateActions (GreedyGQ.toStateAction this) x_tp1 in
  let target := Policy.update xas_tp1 (GreedyGQ.target this) in
  let expected :=
    fold_left
      (fun sum a => Vector.addToSelf (Policy.pi target a) (xas_tp1 a) sum)
      (List.filter
         (fun a => negb (Double.eqb (Policy.pi target a) Double.zero))
         (GreedyGQ.actions this))
      (Vector.clear (GreedyGQ.phi_bar_tp1 this)) in
  let a_tp1 := fst (GreedyGQ.step x_t a_t x_tp1 r_tp1 z_tp1 this) in
  let this' := snd (GreedyGQ.step x_t a_t x_tp1 r_tp1 z_tp1 this) in
  GreedyGQ.phi_bar_tp1 this' = expected
  /\ GreedyGQ.gq this'
     = snd (GQ.update (GreedyGQ.phi_t this) expected
              (Double.div (Policy.pi (GreedyGQ.target this) a_t)
                 (Policy.pi (GreedyGQ.behavior this) a_t))
              r_tp1 z_tp1 (GreedyGQ.gq this))
  /\ (forall i,
        Vector.getEntry (GreedyGQ.phi_t this') i
        = Vector.getEntry (xas_tp1 a_tp1) i)
  /\ GreedyGQ.actions this' = GreedyGQ.actions this.
Proof.
  simpl. unfold GreedyGQ.step, GreedyGQ.step_with.
  rewrite GreedyGQ_expectation_fold.
  assert (Htarget :
    forall p, GreedyGQ.get_target (GreedyGQ.put_target p (GreedyGQ.policies this))
              = p) by (intros p; by destruct (GreedyGQ.policies this)).
  rewrite !Htarget.
  destruct (GQ.update _ _ _ _ _ _) as [delta gq'] eqn:Eu.
  destruct (Policies.sampleAction _ _) as [a_tp1 b]. simpl.
  repeat split. intros i. apply Vector.set_entries.
Qed.

(** The unlisted sample.  When the action sampled at the next state is not
    in the learner's action list, the assertion of ExpectedSarsaControl::step
    has nothing to compare it with: the step returns, whatever probability
    the policy gives to the sampled action, with the expectation over the
    listed actions of probability other than zero. *)
Theorem ExpectedSarsaControl_step_unlisted_sample
    (x_t : O) (a_t : Action) (x_tp1 : O) (r_tp1 z_tp1 : double)
    (this : ExpectedSarsaControl.t V P SS O) :
  let base := ExpectedSarsaControl.super this in
  let phi_tp1 :=
    StateToStateAction.stateActions (SarsaControl.toStateAction base) x_tp1 in
  let a_tp1 := fst (Policies.sampleAction (SarsaControl.acting base) phi_tp1) in
  let acting := snd (Policies.sampleAction (SarsaControl.acting base) phi_tp1) in
  let expected :=
    fold_left
      (fun sum a => Vector.addToSelf (Policy.pi acting a) (phi_tp1 a) sum)
      (List.filter
         (fun a => negb (Double.eqb (Policy.pi acting a) Double.zero))
         (ExpectedSarsaControl.actions this))
      (Vector.clear (ExpectedSarsaControl.phi_bar_tp1 this)) in
  a_tp1 ∉ ExpectedSarsaControl.actions this ->
  exists this' : ExpectedSarsaControl.t V P SS O,
    ExpectedSarsaControl.step x_t a_t x_tp1 r_tp1 z_tp1 this = Ok (a_tp1, this')
    /\ ExpectedSarsaControl.phi_bar_tp1 this' = expected
    /\ SarsaControl.sarsa (ExpectedSarsaControl.super this')
       = snd (Sarsa.update (SarsaControl.xa_t base) expected r_tp1
                (SarsaControl.sarsa base)).
Proof.
  intros base phi_tp1 a_tp1 acting expected Hnotin.
  unfold ExpectedSarsaControl.step. fold base. fold phi_tp1.
  destruct (Policies.sampleAction (SarsaControl.acting base) phi_tp1)
    as [a p] eqn:Es.
  subst a_tp1 acting. simpl in *.
  assert (Hloop : forall actions phi_bar,
            a ∉ actions ->
            ExpectedSarsaControl.expectation p phi_tp1 a actions phi_bar
            = Ok (fold_left
                    (fun sum a' =>
                       Vector.addToSelf (Policy.pi p a') (phi_tp1 a') sum)
                    (List.filter
                       (fun a' => negb (Double.eqb (Policy.pi p a') Double.zero))
                       actions)
                    phi_bar)).
  { induction actions as [|a' rest IH]; intros phi_bar Hn; [done|].
    apply not_elem_of_cons in Hn as [Hne Hn]. simpl.
    destruct (Double.eqb (Policy.pi p a') Double.zero); simpl; [|by apply IH].
    destruct (Nat.eqb (id a') (id a)) eqn:Eid; simpl; [|by apply IH].
    apply Nat.eqb_eq in Eid. destruct a as [n], a' as [m]. simpl in Eid.
    by subst. }
  rewrite Hloop by done. simpl. fold expected.
  destruct (Sarsa.update _ _ _ _) as [delta sarsa'] eqn:Eu.
  eexists. split; [reflexivity|]. done.
Qed.

(** SarsaControl from initialize to step.  After [initialize(x_0)] the
    cached [xa_t] holds, entry for entry, the features at [x_0] of the
    action returned; the step that follows updates the predictor, as
    initialized, from that [xa_t] towards the features at [x_tp1] of the
    action it returns, and caches those in turn. *)
Theorem SarsaControl_initialize_then_step
    (x_0 x_t : O) (a_t : Action) (x_tp1 : O) (r_tp1 z_tp1 : double)
    (this : SarsaControl.t V P SS O) :
  let a_0 := fst (SarsaControl.initialize x_0 this) in
  let this_0 := snd (SarsaControl.initialize x_0 this) in
  let a_tp1 := fst (SarsaControl.step x_t a_t x_tp1 r_tp1 z_tp1 this_0) in
  let this' := snd (SarsaControl.step x_t a_t x_tp1 r_tp1 z_tp1 this_0) in
  let features := StateToStateAction.stateActions (SarsaControl.toStateAction this) in
  (forall i,
     Vector.getEntry (SarsaControl.xa_t this_0) i
     = Vector.getEntry (features x_0 a_0) i)
  /\ SarsaControl.sarsa this'
     = snd (Sarsa.update (SarsaControl.xa_t this_0) (features x_tp1 a_tp1) r_tp1
              (Predictor.initialize (SarsaControl.sarsa this)))
  /\ (forall i,
        Vector.getEntry (SarsaControl.xa_t this') i
        = Vector.getEntry (features x_tp1 a_tp1) i).
Proof.
  simpl. unfold SarsaControl.step, SarsaControl.initialize.
  destruct (Policies.sampleAction (SarsaControl.acting this) _) as [a_0 p0].
  simpl.
  destruct (Policies.sampleAction p0 _) as [a_tp1 p1]. simpl.
  destruct (Sarsa.update _ _ _ _) as [delta sarsa'] eqn:Eu. simpl.
  repeat split; try (intros i; apply Vector.set_entries).
  by rewrite Eu.
Qed.

End Control_steps.

(** *** Steps of the actor-critic learners *)

Lemma bounded_true_iff (value : double) :
  Boundedness.bounded value = true
  <-> Double.isnan value = false /\ Double.isinf value = false.
Proof.
  unfold Boundedness.bounded.
  destruct (Double.isnan value), (Double.isinf value);
    simpl; intuition congruence.
Qed.

Section OffPAC_step_returns.
Context {V B P S A O : Type} `{Vector.Vector V} `{!Policy.Policy V B}
  `{!Policy.Policy V P} `{!Predictor.Predictor V S}
  `{!GTDLambda.GTDLambda V S} `{!ActorOffPolicy.ActorOffPolicy V P A}.

(** OffPAC::step, when it returns.  The ratio and the TD error it leaves in
    [rho_t] and [delta_t] have passed the boundedness check: neither is
    NaN or infinite; their signs are free.  The ratio is the probability of
    [a_t]
    under the actor's policy over that under the behavior policy, both
    refreshed at [x_t]; the TD error and the critic are those of the
    critic's update with that ratio; the actor is the result of its update
    with the same ratio and TD error. *)
Theorem OffPAC_step_returns_bounded
    (x_t : O) (a_t : Action) (x_tp1 : O) (r_tp1 z_tp1 : double)
    (this this' : OffPAC.t V B S A O) (a_tp1 : Action) :
  let xas_t := StateToStateAction.stateActions (OffPAC.toStateAction this) x_t in
  let actor :=
    ActorOffPolicy.set_policy
      (Policy.update xas_t (ActorOffPolicy.policy (OffPAC.actor this)))
      (OffPAC.actor this) in
  OffPAC.step x_t a_t x_tp1 r_tp1 z_tp1 this = Ok (a_tp1, this') ->
  (Double.isnan (OffPAC.rho_t this') = false
   /\ Double.isinf (OffPAC.rho_t this') = false)
  /\ (Double.isnan (OffPAC.delta_t this') = false
      /\ Double.isinf (OffPAC.delta_t this') = false)
  /\ OffPAC.rho_t this'
     = Double.div (ActorOffPolicy.pi actor a_t)
         (Policy.pi (Policy.update xas_t (OffPAC.behavior this)) a_t)
  /\ (OffPAC.delta_t this', OffPAC.critic this')
     = GTDLambda.update
         (Vector.set (Projector.project (OffPAC.projector this) x_t)
            (OffPAC.phi_t this))
         (Vector.set (Projector.project (OffPAC.projector this) x_tp1)
            (OffPAC.phi_tp1 this))
         (OffPAC.rho_t this') (OffPAC.gamma_t this) r_tp1 z_tp1
         (OffPAC.critic this)
  /\ ActorOffPolicy.update xas_t a_t (OffPAC.rho_t this') (OffPAC.gamma_t this)
       (OffPAC.delta_t this') actor
     = Ok (OffPAC.actor this').
Proof.
  intros xas_t actor. unfold OffPAC.step. fold xas_t. fold actor.
  unfold Boundedness.checkValue.
  destruct (Boundedness.bounded (Double.div _ _)) eqn:Erho; simpl; [|done].
  destruct (GTDLambda.update _ _ _ _ _ _ _) as [delta critic'] eqn:Eu.
  destruct (Boundedness.bounded delta) eqn:Edelta; simpl; [|done].
  destruct (ActorOffPolicy.update _ _ _ _ _ _) as [actor'|f] eqn:Ea;
    simpl; [|done].
  destruct (Policies.sampleAction _ _) as [a b].
  intros Hok. injection Hok as _ <-. simpl.
  apply bounded_true_iff in Erho, Edelta.
  repeat split; try tauto; done.
Qed.

End OffPAC_step_returns.

Section Uninitialized_actor.
Context {V B P E S O : Type} `{Vector.Vector V} `{!Policy.Policy V B}
  `{!Policy.Policy V P} `{!PolicyDistribution.PolicyDistribution V P}
  `{!Trace.Trace V E} `{!Predictor.Predictor V S}
  `{!OnPolicyTD.OnPolicyTD V S} `{!GTDLambda.GTDLambda V S}.

(** A step of an actor-critic learner whose actor is not initialized never
    returns an action.  With an Actor that is not initialized, the steps of
    ActorCritic and of AverageRewardActorCritic stop on the actor's
    assertion; with an ActorLambdaOffPolicy that is not initialized, the
    step of OffPAC stops, on a boundedness check or on that assertion.
    [initialize] of the learners initializes the actor. *)
Theorem step_needs_initialized_actor
    (x_t : O) (a_t : Action) (x_tp1 : O) (r_tp1 z_tp1 : double) :
  (forall this : ActorCritic.t V S (Actor.t P) O,
     Actor.initialized (AbstractActorCritic.actor (ActorCritic.super this))
     = false ->
     ActorCritic.step x_t a_t x_tp1 r_tp1 z_tp1 this = Abort AssertionFailed)
  /\ (forall this : AverageRewardActorCritic.t V S (Actor.t P) O,
        Actor.initialized
          (AbstractActorCritic.actor (AverageRewardActorCritic.super this))
        = false ->
        AverageRewardActorCritic.step x_t a_t x_tp1 r_tp1 z_tp1 this
        = Abort AssertionFailed)
  /\ (forall this : OffPAC.t V B S (ActorLambdaOffPolicy.t P E) O,
        AbstractActorOffPolicy.initialized
          (ActorLambdaOffPolicy.super (OffPAC.actor this)) = false ->
        OffPAC.step x_t a_t x_tp1 r_tp1 z_tp1 this = Abort Unbounded
        \/ OffPAC.step x_t a_t x_tp1 r_tp1 z_tp1 this = Abort AssertionFailed)
  /\ (forall (x_0 : O) (this : AbstractActorCritic.t V S (Actor.t P) O),
        Actor.initialized
          (AbstractActorCritic.actor
             (snd (AbstractActorCritic.initialize x_0 this))) = true)
  /\ (forall (x_0 : O) (this : OffPAC.t V B S (ActorLambdaOffPolicy.t P E) O),
        AbstractActorOffPolicy.initialized
          (ActorLambdaOffPolicy.super
             (OffPAC.actor (snd (OffPAC.initialize x_0 this)))) = true).
Proof.
  repeat apply conj.
  - intros this Hinit.
    unfold ActorCritic.step, AbstractActorCritic.step_with,
      ActorCritic.updateCritic.
    destruct (OnPolicyTD.update _ _ _ _) as [delta critic']. simpl.
    unfold AbstractActorCritic.updateActor. simpl.
    unfold Actor.update. simpl. by rewrite Hinit.
  - intros this Hinit.
    unfold AverageRewardActorCritic.step, AbstractActorCritic.step_with,
      AverageRewardActorCritic.updateCritic.
    destruct (OnPolicyTD.update _ _ _ _) as [delta critic']. simpl.
    unfold AbstractActorCritic.updateActor. simpl.
    unfold Actor.update. simpl. by rewrite Hinit.
  - intros this Hinit. unfold OffPAC.step, Boundedness.checkValue.
    destruct (Boundedness.bounded (Double.div _ _)); simpl; [|by left].
    destruct (GTDLambda.update _ _ _ _ _ _ _) as [delta critic'].
    destruct (Boundedness.bounded delta); simpl; [|by left].
    right. unfold ActorLambdaOffPolicy.update. simpl. by rewrite Hinit.
  - intros x_0 this. unfold AbstractActorCritic.initialize. simpl.
    by destruct (Policy.sampleAction _).
  - intros x_0 this. unfold OffPAC.initialize.
    by destruct (Policies.sampleAction _ _).
Qed.

End Uninitialized_actor.

(** *** What resurrect leaves alone *)

Section Resurrect_leaves.
Context {V P E O : Type} `{Vector.Vector V} `{!Policy.Policy V P}
  `{!PolicyDistribution.PolicyDistribution V P} `{!Trace.Trace V E}.
Context {SO : Type} `{!Predictor.Predictor V SO} `{!OnPolicyTD.OnPolicyTD V SO}.

(** persist writes the policy parameters (and the critic's weights) only.
    Resurrecting into a learner what another one persisted brings the
    parameters of the other, and leaves the learner its own traces,
    advantage weights [w], average reward and [initialized] flag. *)
Theorem resurrect_restores_parameters_only
    (name : string) (fs : gmap string (list V)) :
  (forall from this : ActorLambda.t P E,
     exists this',
       ActorLambda.resurrect name (ActorLambda.persist name from fs) this
       = Ok this'
       /\ Actor.u (ActorLambda.super this') = Actor.u (ActorLambda.super from)
       /\ ActorLambda.e this' = ActorLambda.e this
       /\ Actor.initialized (ActorLambda.super this')
          = Actor.initialized (ActorLambda.super this))
  /\ (forall from this : ActorNatural.t V P,
        exists this',
          ActorNatural.resurrect name (ActorNatural.persist name from fs) this
          = Ok this'
          /\ Actor.u (ActorNatural.super this')
             = Actor.u (ActorNatural.super from)
          /\ ActorNatural.w this' = ActorNatural.w this
          /\ Actor.initialized (ActorNatural.super this')
             = Actor.initialized (ActorNatural.super this))
  /\ (forall from this : ActorLambdaOffPolicy.t P E,
        exists this',
          ActorLambdaOffPolicy.resurrect name
            (ActorLambdaOffPolicy.persist name from fs) this = Ok this'
          /\ AbstractActorOffPolicy.u (ActorLambdaOffPolicy.super this')
             = AbstractActorOffPolicy.u (ActorLambdaOffPolicy.super from)
          /\ ActorLambdaOffPolicy.e this' = ActorLambdaOffPolicy.e this
          /\ AbstractActorOffPolicy.initialized (ActorLambdaOffPolicy.super this')
             = AbstractActorOffPolicy.initialized
                 (ActorLambdaOffPolicy.super this))
  /\ (forall from this : AverageRewardActorCritic.t V SO (Actor.t P) O,
        exists this',
          AverageRewardActorCritic.resurrect name
            (AverageRewardActorCritic.persist name from fs) this = Ok this'
          /\ Actor.u (AbstractActorCritic.actor
                        (AverageRewardActorCritic.super this'))
             = Actor.u (AbstractActorCritic.actor
                          (AverageRewardActorCritic.super from))
          /\ AbstractActorCritic.critic (AverageRewardActorCritic.super this')
             = Predictor.set_weights
                 (Predictor.weights
                    (AbstractActorCritic.critic
                       (AverageRewardActorCritic.super from)))
                 (AbstractActorCritic.critic
                    (AverageRewardActorCritic.super this))
          /\ AverageRewardActorCritic.averageReward this'
             = AverageRewardActorCritic.averageReward this).
Proof.
  repeat apply conj.
  - intros from this.
    unfold ActorLambda.resurrect, ActorLambda.persist, Actor.resurrect,
      Actor.persist, Files.read, Files.write.
    rewrite lookup_insert_eq. simpl. eexists. split; [reflexivity|]. simpl.
    by rewrite Actor_u_set_u.
  - intros from this.
    unfold ActorNatural.resurrect, ActorNatural.persist, Actor.resurrect,
      Actor.persist, Files.read, Files.write.
    rewrite lookup_insert_eq. simpl. eexists. split; [reflexivity|]. simpl.
    by rewrite Actor_u_set_u.
  - intros from this.
    unfold ActorLambdaOffPolicy.resurrect, ActorLambdaOffPolicy.persist,
      AbstractActorOffPolicy.resurrect, AbstractActorOffPolicy.persist,
      Files.read, Files.write.
    rewrite lookup_insert_eq. simpl. eexists. split; [reflexivity|]. simpl.
    by rewrite AbstractActorOffPolicy_u_set_u.
  - intros from this.
    destruct (composite_files name
                (Predictor.weights
                   (AbstractActorCritic.critic
                      (AverageRewardActorCritic.super from)))
                (Actor.u (AbstractActorCritic.actor
                            (AverageRewardActorCritic.super from)))
                fs) as (Hc & Ha & _).
    unfold AverageRewardActorCritic.resurrect,
      AbstractActorCritic.resurrect, Predictor.resurrect, Files.read.
    change (AverageRewardActorCritic.persist name from fs)
      with (Files.write (String.append name ".actor")
              (Actor.u (AbstractActorCritic.actor
                          (AverageRewardActorCritic.super from)))
              (Files.write (String.append name ".critic")
                 (Predictor.weights
                    (AbstractActorCritic.critic
                       (AverageRewardActorCritic.super from)))
                 fs)).
    rewrite Hc. simpl. unfold Actor.resurrect, Files.read. rewrite Ha. simpl.
    eexists. split; [reflexivity|]. simpl.
    by rewrite Actor_u_set_u.
Qed.

End Resurrect_leaves.

(** *** The step of ActorCritic *)

Section ActorCritic_step.
Context {V P S O : Type} `{Vector.Vector V} `{!Policy.Policy V P}
  `{!PolicyDistribution.PolicyDistribution V P}
  `{!Predictor.Predictor V S} `{!OnPolicyTD.OnPolicyTD V S}.

(** ActorCritic::step with an Actor.  When the actor is initialized and the
    policy, refreshed at [x_t], has at least as many parameter blocks as
    its gradient has blocks, the step returns.  The critic is updated on
    the projections of the two observations with the raw reward; the TD
    error it returns is the one the actor is updated with, so that every
    parameter block with a gradient block becomes
    [u_i + alpha_u * delta_t * gradLog_i]; the action returned is sampled
    from that policy refreshed at [x_tp1]. *)
Theorem ActorCritic_step_spec
    (x_t : O) (a_t : Action) (x_tp1 : O) (r_tp1 z_tp1 : double)
    (this : ActorCritic.t V S (Actor.t P) O) :
  let base := ActorCritic.super this in
  let project := Projector.project (AbstractActorCritic.projector base) in
  let td :=
    OnPolicyTD.update (Vector.set (project x_t) (ActorCritic.phi_t this))
      (Vector.set (project x_tp1) (ActorCritic.phi_tp1 this)) r_tp1
      (AbstractActorCritic.critic base) in
  let xas := StateToStateAction.stateActions (AbstractActorCritic.toStateAction base) in
  let policy_t :=
    Policy.update (xas x_t) (Actor.policy (AbstractActorCritic.actor base)) in
  let gradLog := PolicyDistribution.computeGradLog (xas x_t) a_t policy_t in
  Actor.initialized (AbstractActorCritic.actor base) = true ->
  length gradLog <= length (PolicyDistribution.parameters policy_t) ->
  exists (this' : ActorCritic.t V S (Actor.t P) O) (actor' : Actor.t P),
    Actor.update (xas x_t) a_t (fst td)
      (Actor.set_policy policy_t (AbstractActorCritic.actor base)) = Ok actor'
    /\ (forall (i : nat) (u_i gradLog_i : V),
          PolicyDistribution.parameters policy_t !! i = Some u_i ->
          gradLog !! i = Some gradLog_i ->
          Actor.u actor' !! i
          = Some (Vector.addToSelf
                    (Double.mul (Actor.alpha_u (AbstractActorCritic.actor base))
                       (fst td))
                    gradLog_i u_i))
    /\ ActorCritic.step x_t a_t x_tp1 r_tp1 z_tp1 this
       = Ok (fst (Policy.sampleAction
                    (Policy.update (xas x_tp1) (Actor.policy actor'))),
             this')
    /\ AbstractActorCritic.critic (ActorCritic.super this') = snd td
    /\ Actor.policy (AbstractActorCritic.actor (ActorCritic.super this'))
       = snd (Policy.sampleAction
                (Policy.update (xas x_tp1) (Actor.policy actor'))).
Proof.
  intros base project td xas policy_t gradLog Hinit Hlen.
  pose proof (Actor_update_returns (xas x_t) a_t (fst td)
                (Actor.set_policy policy_t (AbstractActorCritic.actor base))
                Hinit Hlen) as Hupdate.
  set (actor' := Actor.set_u _ _) in Hupdate.
  assert (Hblocks : forall (i : nat) (u_i gradLog_i : V),
            PolicyDistribution.parameters policy_t !! i = Some u_i ->
            gradLog !! i = Some gradLog_i ->
            Actor.u actor' !! i
            = Some (Vector.addToSelf
                      (Double.mul (Actor.alpha_u (AbstractActorCritic.actor base))
                         (fst td))
                      gradLog_i u_i)).
  { intros i u_i g Hu Hg. unfold actor'. rewrite Actor_u_set_u.
    by apply (prefix_rewritten_lookup
                (fun u_i g =>
                   Vector.addToSelf
                     (Double.mul (Actor.alpha_u (AbstractActorCritic.actor base))
                        (fst td)) g u_i)). }
  clearbody actor'.
  unfold ActorCritic.step, AbstractActorCritic.step_with,
    ActorCritic.updateCritic.
  fold base. fold project. fold td. destruct td as [delta critic'] eqn:Etd.
  simpl in *.
  unfold AbstractActorCritic.updateActor. simpl. fold xas. fold policy_t.
  change (ActorOnPolicy.update (xas x_t) a_t delta
            (Actor.set_policy policy_t (AbstractActorCritic.actor base)))
    with (Actor.update (xas x_t) a_t delta
            (Actor.set_policy policy_t (AbstractActorCritic.actor base))).
  rewrite Hupdate. simpl. fold xas.
  destruct (Policy.sampleAction _) as [a_tp1 p] eqn:Es.
  eexists. exists actor'. split; [done|]. split; [exact Hblocks|].
  rewrite Es. split; [reflexivity|]. simpl. done.
Qed.

End ActorCritic_step.

(** *** The further theorems on the dense instance *)

Lemma Actor_update_spec_witness :
  exists this',
    Actor.update (StateToStateAction.stateActions Dense.features 3) Dense.a0
      (Dense.d 2) Dense.plain_actor = Ok this'
    /\ Actor.u this' !! 0 = Some [Dense.d 1; Dense.d 3].
Proof.
  destruct (Actor_update_spec
              (StateToStateAction.stateActions Dense.features 3) Dense.a0
              (Dense.d 2) Dense.plain_actor)
    as (this' & Hupdate & _ & _ & Hblocks & _);
    [vm_compute; reflexivity | vm_compute; lia |].
  exists this'. split; [exact Hupdate|].
  erewrite Hblocks; [|vm_compute; reflexivity ..].
  vm_compute. reflexivity.
Defined.

Lemma ActorLambda_update_spec_witness :
  exists this',
    ActorLambda.update (StateToStateAction.stateActions Dense.features 3)
      Dense.a0 (Dense.d 2) Dense.lambda_actor = Ok this'
    /\ ActorLambda.e this' !! 0
       = Some {| Dense.vector := [Double.div (Dense.d 3) (Dense.d 2);
                                  Double.div (Dense.d 7) (Dense.d 2)] |}
    /\ Actor.u (ActorLambda.super this') !! 0
       = Some [Double.div (Dense.d 3) (Dense.d 2);
               Double.div (Dense.d 7) (Dense.d 2)].
Proof.
  destruct (ActorLambda_update_spec
              (StateToStateAction.stateActions Dense.features 3) Dense.a0
              (Dense.d 2) Dense.lambda_actor)
    as (this' & Hupdate & Hblocks); [vm_compute; reflexivity ..|].
  edestruct (Hblocks 0) as (He & _ & Hu); [vm_compute; reflexivity ..|].
  exists this'. split; [exact Hupdate|]. split.
  - rewrite He. vm_compute. reflexivity.
  - rewrite Hu. vm_compute. reflexivity.
Defined.

Lemma ActorLambdaOffPolicy_update_fewer_traces_witness :
  exists this',
    ActorLambdaOffPolicy.update
      (StateToStateAction.stateActions Dense.features 3) Dense.a0
      (Dense.d 1) (Dense.d 1) (Dense.d 1) Dense.short_off_actor = Ok this'
    /\ AbstractActorOffPolicy.u (ActorLambdaOffPolicy.super this') !! 1
       = Some [Dense.d 0; Dense.d 0]
    /\ PolicyDistribution.computeGradLog
         (StateToStateAction.stateActions Dense.features 3) Dense.a0
         Dense.two_blocks !! 1
       = Some [Dense.d 1; Dense.d 3].
Proof.
  destruct (ActorLambdaOffPolicy_update_fewer_traces
              (StateToStateAction.stateActions Dense.features 3) Dense.a0
              (Dense.d 1) (Dense.d 1) (Dense.d 1) Dense.short_off_actor)
    as (this' & Hupdate & _ & _ & Hrest);
    [vm_compute; reflexivity | vm_compute; lia | vm_compute; lia |].
  exists this'. split; [exact Hupdate|]. split; [|vm_compute; reflexivity].
  rewrite Hrest by (vm_compute; lia). vm_compute. reflexivity.
Defined.

Lemma ActorLambda_dimension_invariant_witness :
  exists this,
    ActorLambda.new Dense.half (Dense.d 1) Dense.half Dense.even_policy
      [{| Dense.vector := [Dense.d 0; Dense.d 0] |}] = Ok this
    /\ length (ActorLambda.e this) = length (Actor.u (ActorLambda.super this))
    /\ length (ActorLambda.e (ActorLambda.reset this))
       = length (Actor.u (ActorLambda.super (ActorLambda.reset this))).
Proof.
  destruct (@ActorLambda_dimension_invariant (list double) Dense.Tabular
              Dense.ATrace _ _ _ _) as (Hnew & Hkeep & _).
  destruct (Hnew Dense.half (Dense.d 1) Dense.half Dense.even_policy
              [{| Dense.vector := [Dense.d 0; Dense.d 0] |}])
    as (Hreturns & Hholds).
  destruct Hreturns as (this & Hthis); [vm_compute; reflexivity|].
  exists this. split; [exact Hthis|].
  split; [exact (Hholds this Hthis)|].
  exact (proj2 (Hkeep this (Hholds this Hthis))).
Defined.

Lemma ActorNatural_dimension_invariant_witness :
  length (ActorNatural.w (ActorNatural.reset Dense.natural_actor))
  = length (Actor.u (ActorNatural.super (ActorNatural.reset Dense.natural_actor)))
  /\ forall this',
       ActorNatural.update (StateToStateAction.stateActions Dense.features 3)
         Dense.a0 (Dense.d 2) Dense.natural_actor = Ok this' ->
       length (ActorNatural.w this') = length (Actor.u (ActorNatural.super this')).
Proof.
  destruct (@ActorNatural_dimension_invariant (list double) Dense.Tabular
              _ _ _) as (_ & Hkeep & Hupdate).
  split.
  - apply (Hkeep Dense.natural_actor). vm_compute. reflexivity.
  - intros this'. apply Hupdate. vm_compute. reflexivity.
Defined.

Lemma ExpectedSarsaControl_step_unlisted_sample_witness :
  Policy.pi Dense.wrong_draw Dense.a1 = Double.zero
  /\ exists this',
       ExpectedSarsaControl.step 1 Dense.a0 3 (Dense.d 1) (Dense.d 1)
         Dense.short_list_sarsa = Ok (Dense.a1, this')
       /\ ExpectedSarsaControl.phi_bar_tp1 this' = [Dense.d 1; Dense.d 3].
Proof.
  split; [vm_compute; reflexivity|].
  destruct (ExpectedSarsaControl_step_unlisted_sample 1 Dense.a0 3 (Dense.d 1)
              (Dense.d 1) Dense.short_list_sarsa)
    as (this' & Hstep & Hbar & _).
  { vm_compute. intros Hin. apply list_elem_of_singleton in Hin. discriminate. }
  exists this'. split; [exact Hstep|]. rewrite Hbar. vm_compute. reflexivity.
Defined.

Lemma OffPAC_step_returns_bounded_witness :
  match OffPAC.step 1 Dense.a1 2 (Dense.d (-2)) (Dense.d 1) Dense.off_pac with
  | Ok (_, this') =>
      OffPAC.delta_t this' = Dense.d (-1)
      /\ Double.isnan (OffPAC.delta_t this') = false
      /\ Double.isinf (OffPAC.delta_t this') = false
  | Abort _ => False
  end.
Proof.
  destruct (OffPAC.step 1 Dense.a1 2 (Dense.d (-2)) (Dense.d 1) Dense.off_pac)
    as [[a_tp1 this']|f] eqn:Estep.
  - destruct (OffPAC_step_returns_bounded 1 Dense.a1 2 (Dense.d (-2))
                (Dense.d 1) Dense.off_pac this' a_tp1 Estep)
      as (_ & Hdelta & _).
    split; [|exact Hdelta].
    vm_compute in Estep. injection Estep as _ <-. vm_compute. reflexivity.
  - vm_compute in Estep. discriminate.
Defined.

Lemma step_needs_initialized_actor_witness :
  ActorCritic.step 1 Dense.a0 2 (Dense.d 1) (Dense.d 1) Dense.actor_critic
  = Abort AssertionFailed.
Proof.
  apply (@step_needs_initialized_actor (list double) Dense.Tabular
           Dense.Tabular Dense.ATrace Dense.Linear nat _ _ _ _ _ _ _ _
           1 Dense.a0 2 (Dense.d 1) (Dense.d 1)).
  vm_compute. reflexivity.
Defined.

Lemma ActorCritic_step_spec_witness :
  exists this',
    ActorCritic.step 1 Dense.a1 2 (Dense.d 1) (Dense.d 1)
      Dense.ready_actor_critic = Ok (Dense.a0, this')
    /\ Predictor.weights (AbstractActorCritic.critic (ActorCritic.super this'))
       = [[Dense.d 3; Dense.d 3]].
Proof.
  destruct (ActorCritic_step_spec 1 Dense.a1 2 (Dense.d 1) (Dense.d 1)
              Dense.ready_actor_critic)
    as (this' & actor' & Hupdate & _ & Hstep & Hcritic & _);
    [vm_compute; reflexivity | vm_compute; lia |].
  exists this'. split.
  - rewrite Hstep. f_equal. f_equal.
    vm_compute in Hupdate. injection Hupdate as <-. vm_compute. reflexivity.
  - rewrite Hcritic. vm_compute. reflexivity.
Defined.
